(** * Index Analyser: technical-analysis engine

    A shallow embedding of the level detector, the score aggregator, the
    candlestick pattern recognizer and the JSON clean-up of the Index
    Analyser (analysis.py, candlestick_patterns.py, main.py,
    advanced_charts.py, llm_client.py, config.py), and the properties of
    them that the specification states.

    Numbers.  Prices and volumes of candles are finite and are modelled
    as exact rationals ([Q]); rounding errors of binary floating point are
    not modelled.  Values produced by the indicator library may be NaN
    (warm-up positions) or infinite; they are modelled by [fl], the
    rationals extended with NaN and the two infinities, with the
    comparison and truthiness rules of Python.  Signed zeros are not
    modelled. *)

From Stdlib Require Import ZArith QArith Qround Qabs Qminmax Lia Lqa Bool.
From Stdlib Require Import List String Ascii Sorted.
From stdpp Require Import gmap strings list pretty.

Import ListNotations.
Local Open Scope string_scope.
Local Open Scope list_scope.
Local Open Scope Z_scope.

(** * Part I: the program *)

(** ** Numbers *)

Definition Qltb (a b : Q) : bool := negb (Qle_bool b a).
Definition Qgtb (a b : Q) : bool := Qltb b a.

Definition Qclamp (lo hi x : Q) : Q := Qmin hi (Qmax lo x).

(** A Python / numpy float: a finite value, an infinity or NaN. *)
Inductive fl : Type :=
  | Fin (q : Q)
  | PInf
  | NInf
  | NaN.

(** [a < b]; every comparison with NaN is false. *)
Definition fl_ltb (a b : fl) : bool :=
  match a, b with
  | Fin x, Fin y => Qltb x y
  | Fin _, PInf => true
  | NInf, Fin _ => true
  | NInf, PInf => true
  | _, _ => false
  end.

Definition fl_gtb (a b : fl) : bool := fl_ltb b a.

(** [a != b]; NaN differs from everything, itself included. *)
Definition fl_neqb (a b : fl) : bool :=
  match a, b with
  | Fin x, Fin y => negb (Qeq_bool x y)
  | PInf, PInf => false
  | NInf, NInf => false
  | _, _ => true
  end.

Definition fl_neg (a : fl) : fl :=
  match a with
  | Fin x => Fin (- x)
  | PInf => NInf
  | NInf => PInf
  | NaN => NaN
  end.

Definition fl_add (a b : fl) : fl :=
  match a, b with
  | NaN, _ | _, NaN => NaN
  | Fin x, Fin y => Fin (x + y)
  | PInf, NInf | NInf, PInf => NaN
  | PInf, _ | _, PInf => PInf
  | NInf, _ | _, NInf => NInf
  end.

Definition fl_sub (a b : fl) : fl := fl_add a (fl_neg b).

(** The sign of a value that is not NaN, as [Lt], [Eq] or [Gt]. *)
Definition fl_sign (a : fl) : comparison :=
  match a with
  | Fin x => Qcompare x 0
  | PInf => Gt
  | NInf => Lt
  | NaN => Eq
  end.

Definition fl_signed_inf (s1 s2 : comparison) : fl :=
  match s1, s2 with
  | Eq, _ | _, Eq => NaN
  | Gt, Gt | Lt, Lt => PInf
  | _, _ => NInf
  end.

Definition fl_mul (a b : fl) : fl :=
  match a, b with
  | NaN, _ | _, NaN => NaN
  | Fin x, Fin y => Fin (x * y)
  | _, _ => fl_signed_inf (fl_sign a) (fl_sign b)
  end.

(** numpy division: a finite value divided by zero is an infinity (NaN
    for 0/0) and raises nothing. *)
Definition fl_div (a b : fl) : fl :=
  match a, b with
  | NaN, _ | _, NaN => NaN
  | Fin x, Fin y =>
      if Qeq_bool y 0 then fl_signed_inf (Qcompare x 0) Gt else Fin (x / y)
  | Fin _, _ => Fin 0
  | _, Fin _ => fl_signed_inf (fl_sign a) (match fl_sign b with Eq => Gt | s => s end)
  | _, _ => NaN
  end.

(** [bool(x)] of a float: only zero is falsy; NaN is truthy. *)
Definition fl_truthy (a : fl) : bool :=
  match a with
  | Fin x => negb (Qeq_bool x 0)
  | _ => true
  end.

Definition fl_abs (a : fl) : fl :=
  match a with
  | Fin x => Fin (Qabs x)
  | NInf => PInf
  | _ => a
  end.

(** [pd.notna]. *)
Definition notna (a : fl) : bool :=
  match a with
  | NaN => false
  | _ => true
  end.

(** A value stored under a key of an indicator dict: [None] is Python's
    [None]. *)
Definition pyv : Type := option fl.

(** [bool(v)]. *)
Definition truthy (v : pyv) : bool :=
  match v with
  | Some x => fl_truthy x
  | None => false
  end.

(** ** Python lists *)

Section PyList.
Context {A : Type}.

(** [l[-k:]]. *)
Definition slice_last (k : Z) (l : list A) : list A :=
  if 0 <? k then drop (length l - Z.to_nat k) l
  else drop (Z.to_nat (- k)) l.

(** [l[:k]]. *)
Definition slice_first (k : Z) (l : list A) : list A :=
  if 0 <=? k then take (Z.to_nat k) l
  else take (length l - Z.to_nat (- k)) l.

(** [l[s:e]] for bounds already clipped to the list. *)
Definition slice (s e : Z) (l : list A) : list A :=
  take (Z.to_nat e - Z.to_nat s) (drop (Z.to_nat s) l).

(** [sorted] and [list.sort] are stable: [before y x] says that [y]
    has to come strictly before [x]; elements that are not ordered by
    it keep the order they had. *)
Fixpoint insert_sorted (before : A -> A -> bool) (x : A) (l : list A) : list A :=
  match l with
  | [] => [x]
  | y :: ys => if before y x then y :: insert_sorted before x ys else x :: l
  end.

Definition py_sorted (before : A -> A -> bool) (l : list A) : list A :=
  foldr (insert_sorted before) [] l.

(** [unique()]: the distinct values in order of first appearance. *)
Definition unique (eqb : A -> A -> bool) (l : list A) : list A :=
  fold_left (fun seen x => if existsb (eqb x) seen then seen else seen ++ [x]) l [].
End PyList.

(** [sorted(l)] on numbers. *)
Definition sorted_Q (l : list Q) : list Q := py_sorted Qltb l.

(** [range(lo, n)]. *)
Definition range (lo n : nat) : list nat := seq lo (n - lo).

(** ** Data model *)

(** One OHLCV bar; [timestamp] is its label in the index of the frame. *)
Record Candle : Type := mkCandle {
  timestamp : Z;
  Open : Q;
  High : Q;
  Low : Q;
  Close : Q;
  Volume : Q
}.

(** The data frame of an analysis: the OHLCV rows and the indicator
    columns attached by [calculate_all_indicators].  A column is kept as
    the function from row position to value, so that it is aligned with
    the rows by construction. *)
Record DataFrame : Type := mkDataFrame {
  rows : list Candle;
  columns : gmap string (nat -> fl)
}.

Definition df_len (df : DataFrame) : nat := length (rows df).

(** [df.empty]. *)
Definition df_empty (df : DataFrame) : bool :=
  match rows df with
  | [] => true
  | _ => false
  end.

Definition dummy_candle : Candle := mkCandle 0 0 0 0 0 0.

(** [df[col].iloc[i]] for a position [i] within the frame. *)
Definition iloc (r : list Candle) (col : Candle -> Q) (i : nat) : Q :=
  col (nth i r dummy_candle).

(** [df[col].iloc[-1]] of a frame that is not empty. *)
Definition iloc_last (r : list Candle) (col : Candle -> Q) : Q :=
  col (List.last r dummy_candle).

(** ** config.py *)

Definition FIBONACCI_LEVELS : list Q :=
  [0; 0.236; 0.382; 0.5; 0.618; 0.786; 1.0; 1.618; 2.618]%Q.

Definition EXTENSION_LEVELS : list Q :=
  [1.272; 1.414; 1.618; 2.0; 2.618]%Q.

(** ** Number formatting and rounding *)

(** Rounding to the nearest integer, ties to the even one: the rule of
    [round] and of the format specifications of Python. *)
Definition round_half_even (q : Q) : Z :=
  let f := Qfloor q in
  let r := (q - inject_Z f)%Q in
  if Qltb r (1 # 2) then f
  else if Qltb (1 # 2) r then f + 1
  else if Z.even f then f else f + 1.

(** [round(x, 2)]. *)
Definition round2 (q : Q) : Q := (inject_Z (round_half_even (q * 100)) / 100)%Q.

(** [f'{level:.1%}']: the level as a percentage with one decimal. *)
Definition fmt_pct1 (level : Q) : string :=
  let k := round_half_even (level * 1000) in
  let a := Z.abs k in
  (if k <? 0 then "-" else "") +:+
  pretty (Z.to_N (a / 10)) +:+ "." +:+ pretty (Z.to_N (a mod 10)) +:+ "%".

(** ** Exceptions *)

Inductive exn : Type :=
  | ZeroDivisionError
  | UnboundLocalError
  | IndexError
  | LibraryError.

Inductive result (A : Type) : Type :=
  | Ok (a : A)
  | Raise (e : exn).

Arguments Ok {A} a.
Arguments Raise {A} e.

(** ** The state of a TechnicalAnalysis object *)

Record MACD_t : Type := mkMACD {
  macd_line : pyv;
  macd_signal : pyv;
  macd_histogram : pyv
}.

Record Bollinger_t : Type := mkBollinger {
  bb_upper : pyv;
  bb_middle : pyv;
  bb_lower : pyv;
  bb_width : pyv;
  bb_percent : pyv
}.

Record Stochastic_t : Type := mkStochastic {
  stoch_K : pyv;
  stoch_D : pyv
}.

Record ADX_t : Type := mkADX {
  adx_adx : pyv;
  adx_di_plus : pyv;
  adx_di_minus : pyv
}.

Record Pivots_t : Type := mkPivots {
  pivot : Q;
  r1 : Q; r2 : Q; r3 : Q;
  s1 : Q; s2 : Q; s3 : Q
}.

(** [self.indicators]: every key is optional ([None]: the key is not in
    the dict); [ind_other] says whether one of the keys the scoring does
    not read (moving_averages, ATR, CCI, ...) is present. *)
Record Indicators : Type := mkIndicators {
  ind_RSI : option pyv;
  ind_MACD : option MACD_t;
  ind_Bollinger : option Bollinger_t;
  ind_Stochastic : option Stochastic_t;
  ind_ADX : option ADX_t;
  ind_OBV : option pyv;
  ind_MFI : option pyv;
  ind_Pivots : option Pivots_t;
  ind_other : bool
}.

Definition no_indicators : Indicators :=
  mkIndicators None None None None None None None None false.

(** [not self.indicators]: the dict has no key. *)
Definition indicators_empty (ind : Indicators) : bool :=
  match ind with
  | mkIndicators None None None None None None None None false => true
  | _ => false
  end.

(** [d.get(key)] of a scalar entry: a missing key reads as [None]. *)
Definition get_scalar (entry : option pyv) : pyv :=
  match entry with
  | Some v => v
  | None => None
  end.

Record FibLevels : Type := mkFibLevels {
  fib_high : Q;
  fib_low : Q;
  retracement : gmap string Q;
  extension : gmap string Q
}.

Record SupportResistance : Type := mkSupportResistance {
  support : list Q;
  resistance : list Q;
  current_price : Q
}.

(** The attributes of the object; the empty dicts that
    [fibonacci_levels] and [support_resistance] start as are [None]. *)
Record TechnicalAnalysis : Type := mkTA {
  data : option DataFrame;
  indicators : Indicators;
  fibonacci_levels : option FibLevels;
  support_resistance : option SupportResistance
}.

(** [self.data is None or self.data.empty] *)
Definition no_data (self : TechnicalAnalysis) : bool :=
  match data self with
  | None => true
  | Some df => df_empty df
  end.

(** ** IndicatorEngine: calculate_all_indicators *)

Section IndicatorEngine.
(** The sequence of [_calculate_*] calls on the copy [df] of the data:
    it goes through the indicator library, adds columns to [df] and
    entries to [self.indicators], and may raise. *)
Variable run_indicators : bool -> DataFrame -> Indicators -> result (DataFrame * Indicators).

Definition calculate_all_indicators (self : TechnicalAnalysis) (include_vwap : bool)
  : result (option DataFrame * TechnicalAnalysis) :=
  match data self with
  | None => Ok (None, self)
  | Some df0 =>
      if df_empty df0 then Ok (None, self)
      else
        match run_indicators include_vwap df0 (indicators self) with
        | Raise e => Raise e
        | Ok (df, ind) =>
            Ok (Some df,
                mkTA (Some df) ind (fibonacci_levels self) (support_resistance self))
        end
  end.
End IndicatorEngine.

(** ** LevelDetector *)

Definition list_max_Q (l : list Q) : Q :=
  match l with
  | [] => 0%Q
  | x :: t => fold_left Qmax t x
  end.

Definition list_min_Q (l : list Q) : Q :=
  match l with
  | [] => 0%Q
  | x :: t => fold_left Qmin t x
  end.

(** [for y in l: d[key(y)] = val(y)] *)
Definition assign_all {B : Type} (key : B -> string) (val : B -> Q)
    (l : list B) (d : gmap string Q) : gmap string Q :=
  fold_left (fun d y => <[key y := val y]> d) l d.

Definition calculate_fibonacci_levels (self : TechnicalAnalysis)
  : option FibLevels * TechnicalAnalysis :=
  match data self with
  | None => (None, self)
  | Some df =>
      if df_empty df then (None, self)
      else
        let high := list_max_Q (map High (rows df)) in
        let low := list_min_Q (map Low (rows df)) in
        let diff := (high - low)%Q in
        let retracement_levels :=
          assign_all fmt_pct1 (fun level => (high - diff * level)%Q)
                     FIBONACCI_LEVELS ∅ in
        let extension_levels :=
          assign_all fmt_pct1 (fun level => (high + diff * (level - 1))%Q)
                     EXTENSION_LEVELS ∅ in
        let fib := mkFibLevels high low retracement_levels extension_levels in
        (Some fib,
         mkTA (data self) (indicators self) (Some fib) (support_resistance self))
  end.

(** [np.clip(x, lo, hi)] *)
Definition clip (lo hi x : Z) : Z := Z.min hi (Z.max lo x).

(** [col.rolling(window=window, center=True).agg()]: the window of row
    [i] ends (exclusive) at [i + 1 + (window - 1) // 2] and starts
    [window] rows before, both clipped to the column; with fewer than
    [window] observations the value is missing ([None] for NaN). *)
Definition rolling_center (agg : list Q -> Q) (window : Z) (col : list Q)
  : list (option Q) :=
  let n := Z.of_nat (length col) in
  let offset := (window - 1) / 2 in
  map (fun i =>
         let e := Z.of_nat i + 1 + offset in
         let s := e - window in
         let obs := slice (clip 0 n s) (clip 0 n e) col in
         if (window <=? Z.of_nat (length obs)) && (0 <? Z.of_nat (length obs))
         then Some (agg obs) else None)
      (seq 0 (length col)).

(** [col[col == extreme].unique()]: the distinct values of the rows whose
    value equals the rolling extreme of the row. *)
Definition local_extrema (col : list Q) (extreme : list (option Q)) : list Q :=
  unique Qeq_bool
    (map fst
       (List.filter (fun ve => match snd ve with
                               | Some m => Qeq_bool (fst ve) m
                               | None => false
                               end)
                    (combine col extreme))).

Definition identify_support_resistance (self : TechnicalAnalysis) (window num_levels : Z)
  : option SupportResistance * TechnicalAnalysis :=
  match data self with
  | None => (None, self)
  | Some df =>
      if df_empty df then (None, self)
      else
        let price := iloc_last (rows df) Close in
        let lows := map Low (rows df) in
        let highs := map High (rows df) in
        let mins := rolling_center list_min_Q window lows in
        let maxs := rolling_center list_max_Q window highs in
        let all_support := local_extrema lows mins in
        let support_levels := List.filter (fun level => Qltb level price) all_support in
        let support_levels :=
          if num_levels <? Z.of_nat (length support_levels)
          then slice_last num_levels (sorted_Q support_levels)
          else support_levels in
        let all_resistance := local_extrema highs maxs in
        let resistance_levels := List.filter (fun level => Qgtb level price) all_resistance in
        let resistance_levels :=
          if num_levels <? Z.of_nat (length resistance_levels)
          then slice_first num_levels (sorted_Q resistance_levels)
          else resistance_levels in
        let sr := mkSupportResistance support_levels resistance_levels price in
        (Some sr,
         mkTA (data self) (indicators self) (fibonacci_levels self) (Some sr))
  end.

(** ** ScoreAggregator: trend strength *)

(** The reasons that calculate_trend_strength collects; each stands for
    the text the code formats from the values it carries. *)
Inductive Reason : Type :=
  | RsiOverbought (rsi : fl)
  | RsiBullish (rsi : fl)
  | RsiOversold (rsi : fl)
  | RsiBearish (rsi : fl)
  | MacdPositive (h : fl)
  | MacdNegative (h : fl)
  | AdxBullish
  | AdxBearish
  | AdxWeak (adx : fl)
  | EmaCount (above below : nat)
  | BBTop
  | BBBottom
  | ObvRising
  | ObvFalling.

(** The text returned next to the score: the fixed text for no
    indicators, the one for no reason, or the reasons joined by commas. *)
Inductive Reasoning : Type :=
  | NoIndicators
  | NoClearSignals
  | Joined (rs : list Reason).

(** The running values of the loop: [trend_score], [total_weight] and
    [reasons]. *)
Record Score : Type := mkScore {
  trend_score : Q;
  total_weight : Q;
  reasons : list Reason
}.

(** [trend_score += ds; total_weight += dw; reasons.append(..)] *)
Definition bump (ds dw : Q) (rs : list Reason) (s : Score) : Score :=
  mkScore (trend_score s + ds) (total_weight s + dw) (reasons s ++ rs).

(** [df[name].iloc[-1]] for a column that is in the frame. *)
Definition col_last (df : DataFrame) (name : string) : option fl :=
  match columns df !! name with
  | Some col => Some (col (df_len df - 1)%nat)
  | None => None
  end.

Definition rsi_score (ind : Indicators) (s : Score) : Score :=
  match get_scalar (ind_RSI ind) with
  | Some rsi =>
      if fl_truthy rsi then
        if fl_gtb rsi (Fin 70) then bump 2 2 [RsiOverbought rsi] s
        else if fl_gtb rsi (Fin 50) then bump 1 1 [RsiBullish rsi] s
        else if fl_ltb rsi (Fin 30) then bump (-2) 2 [RsiOversold rsi] s
        else bump (-1) 1 [RsiBearish rsi] s
      else s
  | None => s
  end.

Definition macd_score (ind : Indicators) (s : Score) : Score :=
  match ind_MACD ind with
  | Some macd =>
      match macd_histogram macd with
      | Some h =>
          if fl_gtb h (Fin 0) then bump 1.5 1.5 [MacdPositive h] s
          else bump (-1.5) 1.5 [MacdNegative h] s
      | None => s
      end
  | None => s
  end.

Definition adx_score (ind : Indicators) (s : Score) : Score :=
  match ind_ADX ind with
  | Some adx =>
      match adx_adx adx with
      | Some a =>
          if fl_truthy a && fl_gtb a (Fin 25) then
            match adx_di_plus adx, adx_di_minus adx with
            | Some dp, Some dm =>
                if fl_truthy dp && fl_truthy dm then
                  if fl_gtb dp dm then bump 2 2 [AdxBullish] s
                  else bump (-2) 2 [AdxBearish] s
                else s
            | _, _ => s
            end
          else if fl_truthy a then bump 0 0 [AdxWeak a] s
          else s
      | None => s
      end
  | None => s
  end.

(** The running values of the loop over the averages: [ma_score],
    [ma_weight], [ma_above], [ma_below]. *)
Record MaTally : Type := mkMaTally {
  ma_score : Q;
  ma_weight : Q;
  ma_above : nat;
  ma_below : nat
}.

Definition ema_column (period : N) : string := "EMA_" +:+ pretty period.

Definition ma_step (df : DataFrame) (price : Q) (t : MaTally) (period : N) : MaTally :=
  match col_last df (ema_column period) with
  | Some ma_value =>
      if notna ma_value then
        if fl_gtb (Fin price) ma_value
        then mkMaTally (ma_score t + 1) (ma_weight t + 1) (S (ma_above t)) (ma_below t)
        else mkMaTally (ma_score t - 1) (ma_weight t + 1) (ma_above t) (S (ma_below t))
      else t
  | None => t
  end.

Definition ma_tally (df : DataFrame) : MaTally :=
  fold_left (ma_step df (iloc_last (rows df) Close)) [9; 21; 50; 200]%N
            (mkMaTally 0 0 0 0).

Definition ma_score_step (d : option DataFrame) (s : Score) : Score :=
  match d with
  | Some df =>
      if df_empty df then s
      else
        let t := ma_tally df in
        if Qltb 0 (ma_weight t)
        then bump (ma_score t) (ma_weight t) [EmaCount (ma_above t) (ma_below t)] s
        else s
  | None => s
  end.

Definition bollinger_score (ind : Indicators) (s : Score) : Score :=
  match ind_Bollinger ind with
  | Some bb =>
      match bb_percent bb with
      | Some p =>
          if fl_gtb p (Fin 0.8) then bump (-0.5) 0.5 [BBTop] s
          else if fl_ltb p (Fin 0.2) then bump 0.5 0.5 [BBBottom] s
          else bump 0 0.5 [] s
      | None => s
      end
  | None => s
  end.

(** The volume block reads the last row of the OBV column, which raises
    on a frame without rows. *)
Definition obv_score (ind : Indicators) (d : option DataFrame) (s : Score) : result Score :=
  if truthy (get_scalar (ind_OBV ind)) then
    match d with
    | Some df =>
        match columns df !! "OBV" with
        | Some col =>
            if df_empty df then Raise IndexError
            else
              let n := df_len df in
              let obv_current := col (n - 1)%nat in
              let obv_prev := if (5 <? n)%nat then col (n - 5)%nat else obv_current in
              if fl_gtb obv_current (fl_mul obv_prev (Fin 1.02))
              then Ok (bump 1 1 [ObvRising] s)
              else if fl_ltb obv_current (fl_mul obv_prev (Fin 0.98))
              then Ok (bump (-1) 1 [ObvFalling] s)
              else Ok (bump 0 1 [] s)
        | None => Ok s
        end
    | None => Ok s
    end
  else Ok s.

(** The blocks of calculate_trend_strength between the guard and the
    normalization, in their order. *)
Definition accumulate_trend (self : TechnicalAnalysis) : result Score :=
  let ind := indicators self in
  obv_score ind (data self)
    (bollinger_score ind
       (ma_score_step (data self)
          (adx_score ind
             (macd_score ind
                (rsi_score ind (mkScore 0 0 [])))))).

(** [min(100, max(-100, (trend_score / total_weight) * 50))], or 0
    without weight. *)
Definition normalize (s : Score) : Q :=
  if Qltb 0 (total_weight s)
  then Qclamp (-100) 100 (trend_score s / total_weight s * 50)
  else 0%Q.

Definition reasoning_of (s : Score) : Reasoning :=
  match reasons s with
  | [] => NoClearSignals
  | rs => Joined (take 4 rs)
  end.

Definition calculate_trend_strength (self : TechnicalAnalysis) : result (Q * Reasoning) :=
  if indicators_empty (indicators self) then Ok (0%Q, NoIndicators)
  else
    match accumulate_trend self with
    | Raise e => Raise e
    | Ok s => Ok (normalize s, reasoning_of s)
    end.

(** ** ScoreAggregator: probabilities *)

(** The counters of calculate_probabilities. *)
Record Votes : Type := mkVotes {
  bullish_signals : Z;
  bearish_signals : Z;
  neutral_signals : Z;
  total_signals : Z
}.

Definition vote_bullish (v : Votes) : Votes :=
  mkVotes (bullish_signals v + 1) (bearish_signals v) (neutral_signals v) (total_signals v).
Definition vote_bearish (v : Votes) : Votes :=
  mkVotes (bullish_signals v) (bearish_signals v + 1) (neutral_signals v) (total_signals v).
Definition vote_neutral (k : Z) (v : Votes) : Votes :=
  mkVotes (bullish_signals v) (bearish_signals v) (neutral_signals v + k) (total_signals v).
(** [total_signals += k] *)
Definition counted (k : Z) (v : Votes) : Votes :=
  mkVotes (bullish_signals v) (bearish_signals v) (neutral_signals v) (total_signals v + k).

(** [if x > hi: bullish elif x < lo: bearish else: neutral] *)
Definition vote_band (x lo hi : fl) (v : Votes) : Votes :=
  if fl_gtb x hi then vote_bullish v
  else if fl_ltb x lo then vote_bearish v
  else vote_neutral 1 v.

Definition rsi_vote (ind : Indicators) (v : Votes) : Votes :=
  match get_scalar (ind_RSI ind) with
  | Some rsi =>
      if fl_truthy rsi then counted 1 (vote_band rsi (Fin 40) (Fin 60) v) else v
  | None => v
  end.

Definition macd_vote (ind : Indicators) (v : Votes) : Votes :=
  match ind_MACD ind with
  | Some macd =>
      counted 1
        (match macd_histogram macd with
         | Some h =>
             if fl_truthy h then
               if fl_ltb (fl_abs h) (Fin 0.001) then vote_neutral 1 v
               else if fl_gtb h (Fin 0) then vote_bullish v
               else vote_bearish v
             else v
         | None => v
         end)
  | None => v
  end.

Definition stochastic_vote (ind : Indicators) (v : Votes) : Votes :=
  match ind_Stochastic ind with
  | Some stoch =>
      counted 1
        (match stoch_K stoch with
         | Some k => if fl_truthy k then vote_band k (Fin 30) (Fin 70) v else v
         | None => v
         end)
  | None => v
  end.

Definition bollinger_vote (ind : Indicators) (v : Votes) : Votes :=
  match ind_Bollinger ind with
  | Some bb =>
      counted 1
        (match bb_percent bb with
         | Some p => if fl_truthy p then vote_band p (Fin 0.2) (Fin 0.8) v else v
         | None => v
         end)
  | None => v
  end.

Definition mfi_vote (ind : Indicators) (v : Votes) : Votes :=
  match get_scalar (ind_MFI ind) with
  | Some mfi =>
      if fl_truthy mfi then counted 1 (vote_band mfi (Fin 40) (Fin 60) v) else v
  | None => v
  end.

Definition ma_vote (df : DataFrame) (price : Q) (v : Votes) (ma : string) : Votes :=
  match col_last df ma with
  | Some ma_value =>
      if notna ma_value then
        let diff_percent :=
          fl_mul (fl_div (fl_sub (Fin price) ma_value) ma_value) (Fin 100) in
        counted 1 (vote_band diff_percent (Fin (-1)) (Fin 1) v)
      else v
  | None => v
  end.

(** [col.iloc[-20:].mean()]: the mean of the values that are not NaN. *)
Definition mean_last20 (n : nat) (col : nat -> fl) : fl :=
  let vals := List.filter notna (map col (seq (n - 20) (n - (n - 20)))) in
  match vals with
  | [] => NaN
  | _ => fl_div (fold_left fl_add vals (Fin 0)) (Fin (inject_Z (Z.of_nat (length vals))))
  end.

Definition obv_vote (df : DataFrame) (v : Votes) : Votes :=
  match columns df !! "OBV" with
  | Some col =>
      let n := df_len df in
      let obv_current := col (n - 1)%nat in
      let obv_avg := mean_last20 n col in
      let obv_diff :=
        if fl_neqb obv_avg (Fin 0)
        then fl_mul (fl_div (fl_sub obv_current obv_avg) obv_avg) (Fin 100)
        else Fin 0 in
      counted 1 (vote_band obv_diff (Fin (-5)) (Fin 5) v)
  | None => v
  end.

Definition adx_vote (ind : Indicators) (v : Votes) : Votes :=
  match ind_ADX ind with
  | Some adx =>
      match adx_adx adx with
      | Some a =>
          if fl_truthy a && fl_ltb a (Fin 20) then counted 2 (vote_neutral 2 v) else v
      | None => v
      end
  | None => v
  end.

(** The tally of calculate_probabilities on a frame that is not empty. *)
Definition tally (ind : Indicators) (df : DataFrame) : Votes :=
  let price := iloc_last (rows df) Close in
  adx_vote ind
    (obv_vote df
       (fold_left (ma_vote df price) ["EMA_50"; "EMA_200"]
          (mfi_vote ind
             (bollinger_vote ind
                (stochastic_vote ind
                   (macd_vote ind
                      (rsi_vote ind (mkVotes 0 0 0 0)))))))).

Record Probabilities : Type := mkProbabilities {
  bullish_probability : Q;
  bearish_probability : Q;
  neutral_probability : Q;
  votes : Votes
}.

(** The shares of the votes in percent; dividing the float 0.0 by the
    float 0.0 raises. *)
Definition shares (v : Votes) : result (Q * Q * Q) :=
  if 0 <? total_signals v then
    let t := inject_Z (total_signals v) in
    let bullish_prob := (inject_Z (bullish_signals v) / t * 100)%Q in
    let bearish_prob := (inject_Z (bearish_signals v) / t * 100)%Q in
    let neutral_prob := (inject_Z (neutral_signals v) / t * 100)%Q in
    let total_prob := (bullish_prob + bearish_prob + neutral_prob)%Q in
    if negb (Qeq_bool total_prob 100) then
      if Qeq_bool total_prob 0 then Raise ZeroDivisionError
      else Ok ((bullish_prob / total_prob * 100)%Q,
               (bearish_prob / total_prob * 100)%Q,
               (neutral_prob / total_prob * 100)%Q)
    else Ok (bullish_prob, bearish_prob, neutral_prob)
  else Ok (33.33, 33.33, 33.34)%Q.

Definition calculate_probabilities (self : TechnicalAnalysis)
  : result (option Probabilities) :=
  match data self with
  | None => Ok None
  | Some df =>
      if df_empty df || indicators_empty (indicators self) then Ok None
      else
        let v := tally (indicators self) df in
        match shares v with
        | Raise e => Raise e
        | Ok (bullish_prob, bearish_prob, neutral_prob) =>
            Ok (Some (mkProbabilities (round2 bullish_prob) (round2 bearish_prob)
                                      (round2 neutral_prob) v))
        end
  end.

(** ** ScoreAggregator: sentiment *)

Record Sentiment : Type := mkSentiment {
  sentiment : string;
  trend_strength : Q;
  main_reason : string;
  reasoning : Reasoning;
  signal_info : option (Z * Z * Z)
}.

Definition classify (neutral total : Z) (strength : Q) : string * string :=
  if Qltb (inject_Z total * 0.6) (inject_Z neutral) && Qltb (Qabs strength) 15
  then ("Neutral ➡️", "Hohe Neutralität, Konsolidierung")
  else if Qle_bool 25 strength then ("Sehr Bullisch 🚀", "Starke Aufwärtssignale")
  else if Qle_bool 10 strength then ("Bullisch 📈", "Positive Tendenz")
  else if Qle_bool (-10) strength then ("Neutral ➡️", "Ausgeglichener Markt")
  else if Qle_bool (-25) strength then ("Bearisch 📉", "Negative Tendenz")
  else ("Sehr Bearisch 🔻", "Starke Abwärtssignale").

(** Without probabilities the counters that the classification reads
    were never assigned. *)
Definition get_market_sentiment (self : TechnicalAnalysis) : result Sentiment :=
  match calculate_trend_strength self with
  | Raise e => Raise e
  | Ok (strength, reasoning) =>
      match calculate_probabilities self with
      | Raise e => Raise e
      | Ok None => Raise UnboundLocalError
      | Ok (Some probabilities) =>
          let v := votes probabilities in
          let '(strength, info) :=
            if 0 <? total_signals v then
              let signal_bias :=
                (inject_Z (bullish_signals v - bearish_signals v)
                 / inject_Z (total_signals v) * 20)%Q in
              ((strength + signal_bias)%Q,
               Some (bullish_signals v, neutral_signals v, bearish_signals v))
            else (strength, None) in
          let '(label, main) := classify (neutral_signals v) (total_signals v) strength in
          Ok (mkSentiment label strength main reasoning info)
      end
  end.

(** ** PatternRecognizer *)

(** A detected pattern, with the keys of the dict that [_add_pattern]
    builds. *)
Record Pattern : Type := mkPattern {
  date : Z;
  pattern : string;
  signal : string;
  reliability : string;
  description : string;
  price : Q;
  index : Z
}.

(** [s in t] on strings. *)
Fixpoint contains (s t : string) : bool :=
  String.prefix s t ||
  match t with
  | EmptyString => false
  | String _ t' => contains s t'
  end.

Section CandlestickPatterns.
(** [self.data]: the rows of the frame.  Every position that a scan
    reads is within the frame: a loop starts at the offset of the
    earliest bar that its body reads. *)
Variable r : list Candle.

Definition _calculate_body_height (idx : nat) : Q :=
  Qabs (iloc r Close idx - iloc r Open idx).

Definition _calculate_upper_shadow (idx : nat) : Q :=
  (iloc r High idx - Qmax (iloc r Close idx) (iloc r Open idx))%Q.

Definition _calculate_lower_shadow (idx : nat) : Q :=
  (Qmin (iloc r Close idx) (iloc r Open idx) - iloc r Low idx)%Q.

Definition _is_bullish_candle (idx : nat) : bool :=
  Qgtb (iloc r Close idx) (iloc r Open idx).

Definition _is_bearish_candle (idx : nat) : bool :=
  Qltb (iloc r Close idx) (iloc r Open idx).

Definition _get_trend_lookback (idx lookback : nat) : string :=
  if (idx <? lookback)%nat then "unknown"
  else
    let start_price := iloc r Close (idx - lookback) in
    let end_price := iloc r Close (idx - 1) in
    if Qgtb end_price (start_price * 1.02) then "uptrend"
    else if Qltb end_price (start_price * 0.98) then "downtrend"
    else "sideways".

(** [_get_trend(idx)] with the default look-back of 5 bars. *)
Definition _get_trend (idx : nat) : string := _get_trend_lookback idx 5.

(** [self.patterns.append({...})] *)
Definition _add_pattern (idx : nat) (name sig rel descr : string)
    (patterns : list Pattern) : list Pattern :=
  patterns ++ [mkPattern (timestamp (nth idx r dummy_candle)) name sig rel descr
                         (iloc r Close idx) (Z.of_nat idx)].

(** [for i in range(lo, len(self.data)): body] on [self.patterns]. *)
Definition scan (lo : nat) (body : nat -> list Pattern -> list Pattern)
    (patterns : list Pattern) : list Pattern :=
  fold_left (fun ps i => body i ps) (range lo (length r)) patterns.

Definition _detect_doji : list Pattern -> list Pattern :=
  scan 0 (fun i ps =>
    let body := _calculate_body_height i in
    let high_low := (iloc r High i - iloc r Low i)%Q in
    if Qgtb high_low 0 && Qltb (body / high_low) 0.1 then
      let trend := _get_trend i in
      let sig := if String.eqb trend "uptrend" then "Bearish Reversal"
                 else if String.eqb trend "downtrend" then "Bullish Reversal"
                 else "Indecision" in
      _add_pattern i "Doji" sig "Medium"
                   "Unentschlossenheit im Markt, mögliche Trendwende" ps
    else ps).

Definition _detect_hammer : list Pattern -> list Pattern :=
  scan 1 (fun i ps =>
    let body := _calculate_body_height i in
    let lower_shadow := _calculate_lower_shadow i in
    let upper_shadow := _calculate_upper_shadow i in
    if Qgtb lower_shadow (body * 2) && Qltb upper_shadow (body * 0.3)
       && String.eqb (_get_trend i) "downtrend"
    then _add_pattern i "Hammer" "Bullish Reversal" "High"
                      "Starkes bullisches Umkehrsignal nach Abwärtstrend" ps
    else ps).

Definition _detect_hanging_man : list Pattern -> list Pattern :=
  scan 1 (fun i ps =>
    let body := _calculate_body_height i in
    let lower_shadow := _calculate_lower_shadow i in
    let upper_shadow := _calculate_upper_shadow i in
    if Qgtb lower_shadow (body * 2) && Qltb upper_shadow (body * 0.3)
       && String.eqb (_get_trend i) "uptrend"
    then _add_pattern i "Hanging Man" "Bearish Reversal" "Medium"
                      "Mögliches bearisches Umkehrsignal nach Aufwärtstrend" ps
    else ps).

Definition _detect_shooting_star : list Pattern -> list Pattern :=
  scan 1 (fun i ps =>
    let body := _calculate_body_height i in
    let upper_shadow := _calculate_upper_shadow i in
    let lower_shadow := _calculate_lower_shadow i in
    if Qgtb upper_shadow (body * 2) && Qltb lower_shadow (body * 0.3)
       && String.eqb (_get_trend i) "uptrend"
    then _add_pattern i "Shooting Star" "Bearish Reversal" "High"
                      "Starkes bearisches Umkehrsignal nach Aufwärtstrend" ps
    else ps).

Definition _detect_inverted_hammer : list Pattern -> list Pattern :=
  scan 1 (fun i ps =>
    let body := _calculate_body_height i in
    let upper_shadow := _calculate_upper_shadow i in
    let lower_shadow := _calculate_lower_shadow i in
    if Qgtb upper_shadow (body * 2) && Qltb lower_shadow (body * 0.3)
       && String.eqb (_get_trend i) "downtrend"
    then _add_pattern i "Inverted Hammer" "Bullish Reversal" "Medium"
                      "Mögliches bullisches Umkehrsignal nach Abwärtstrend" ps
    else ps).

Definition _detect_spinning_top : list Pattern -> list Pattern :=
  scan 0 (fun i ps =>
    let body := _calculate_body_height i in
    let upper_shadow := _calculate_upper_shadow i in
    let lower_shadow := _calculate_lower_shadow i in
    let high_low := (iloc r High i - iloc r Low i)%Q in
    if Qgtb high_low 0 && Qltb (body / high_low) 0.3
       && Qgtb upper_shadow body && Qgtb lower_shadow body
    then _add_pattern i "Spinning Top" "Neutral" "Low"
                      "Unentschlossenheit, mögliche Konsolidierung" ps
    else ps).

Definition _detect_marubozu : list Pattern -> list Pattern :=
  scan 0 (fun i ps =>
    let body := _calculate_body_height i in
    let high_low := (iloc r High i - iloc r Low i)%Q in
    if Qgtb high_low 0 && Qgtb (body / high_low) 0.95 then
      if _is_bullish_candle i
      then _add_pattern i "Bullish Marubozu" "Strong Bullish" "High"
                        "Sehr starkes bullisches Signal, Käufer kontrollieren" ps
      else _add_pattern i "Bearish Marubozu" "Strong Bearish" "High"
                        "Sehr starkes bearisches Signal, Verkäufer kontrollieren" ps
    else ps).

Definition _detect_long_legged_doji : list Pattern -> list Pattern :=
  scan 0 (fun i ps =>
    let body := _calculate_body_height i in
    let upper_shadow := _calculate_upper_shadow i in
    let lower_shadow := _calculate_lower_shadow i in
    let high_low := (iloc r High i - iloc r Low i)%Q in
    if Qgtb high_low 0 && Qltb (body / high_low) 0.05
       && Qgtb upper_shadow (body * 5) && Qgtb lower_shadow (body * 5)
    then _add_pattern i "Long-Legged Doji" "High Indecision" "Medium"
                      "Extreme Unentschlossenheit, wichtiger Wendepunkt möglich" ps
    else ps).

Definition _detect_dragonfly_doji : list Pattern -> list Pattern :=
  scan 0 (fun i ps =>
    let body := _calculate_body_height i in
    let upper_shadow := _calculate_upper_shadow i in
    let lower_shadow := _calculate_lower_shadow i in
    let high_low := (iloc r High i - iloc r Low i)%Q in
    if Qgtb high_low 0 && Qltb (body / high_low) 0.05
       && Qgtb lower_shadow (high_low * 0.7) && Qltb upper_shadow (high_low * 0.1)
    then
      if String.eqb (_get_trend i) "downtrend"
      then _add_pattern i "Dragonfly Doji" "Bullish Reversal" "High"
                        "Starkes bullisches Umkehrsignal am Boden" ps
      else _add_pattern i "Dragonfly Doji" "Support Found" "Medium"
                        "Unterstützung gefunden" ps
    else ps).

Definition _detect_gravestone_doji : list Pattern -> list Pattern :=
  scan 0 (fun i ps =>
    let body := _calculate_body_height i in
    let upper_shadow := _calculate_upper_shadow i in
    let lower_shadow := _calculate_lower_shadow i in
    let high_low := (iloc r High i - iloc r Low i)%Q in
    if Qgtb high_low 0 && Qltb (body / high_low) 0.05
       && Qgtb upper_shadow (high_low * 0.7) && Qltb lower_shadow (high_low * 0.1)
    then
      if String.eqb (_get_trend i) "uptrend"
      then _add_pattern i "Gravestone Doji" "Bearish Reversal" "High"
                        "Starkes bearisches Umkehrsignal am Top" ps
      else _add_pattern i "Gravestone Doji" "Resistance Found" "Medium"
                        "Widerstand gefunden" ps
    else ps).

Definition _detect_engulfing : list Pattern -> list Pattern :=
  scan 1 (fun i ps =>
    if _is_bearish_candle (i - 1) && _is_bullish_candle i
       && Qltb (iloc r Open i) (iloc r Close (i - 1))
       && Qgtb (iloc r Close i) (iloc r Open (i - 1))
       && String.eqb (_get_trend i) "downtrend"
    then _add_pattern i "Bullish Engulfing" "Bullish Reversal" "High"
                      "Starkes bullisches Umkehrmuster" ps
    else if _is_bullish_candle (i - 1) && _is_bearish_candle i
            && Qgtb (iloc r Open i) (iloc r Close (i - 1))
            && Qltb (iloc r Close i) (iloc r Open (i - 1))
            && String.eqb (_get_trend i) "uptrend"
    then _add_pattern i "Bearish Engulfing" "Bearish Reversal" "High"
                      "Starkes bearisches Umkehrmuster" ps
    else ps).

Definition _detect_harami : list Pattern -> list Pattern :=
  scan 1 (fun i ps =>
    if _is_bearish_candle (i - 1) && _is_bullish_candle i
       && Qgtb (iloc r Open i) (iloc r Close (i - 1))
       && Qltb (iloc r Close i) (iloc r Open (i - 1))
       && String.eqb (_get_trend i) "downtrend"
    then _add_pattern i "Bullish Harami" "Bullish Reversal" "Medium"
                      "Mögliche bullische Umkehr" ps
    else if _is_bullish_candle (i - 1) && _is_bearish_candle i
            && Qltb (iloc r Open i) (iloc r Close (i - 1))
            && Qgtb (iloc r Close i) (iloc r Open (i - 1))
            && String.eqb (_get_trend i) "uptrend"
    then _add_pattern i "Bearish Harami" "Bearish Reversal" "Medium"
                      "Mögliche bearische Umkehr" ps
    else ps).

Definition _detect_piercing_line : list Pattern -> list Pattern :=
  scan 1 (fun i ps =>
    if _is_bearish_candle (i - 1) && _is_bullish_candle i
       && Qltb (iloc r Open i) (iloc r Low (i - 1))
       && Qgtb (iloc r Close i) ((iloc r Open (i - 1) + iloc r Close (i - 1)) / 2)
       && Qltb (iloc r Close i) (iloc r Open (i - 1))
       && String.eqb (_get_trend i) "downtrend"
    then _add_pattern i "Piercing Line" "Bullish Reversal" "High"
                      "Starkes bullisches Umkehrsignal" ps
    else ps).

Definition _detect_dark_cloud_cover : list Pattern -> list Pattern :=
  scan 1 (fun i ps =>
    if _is_bullish_candle (i - 1) && _is_bearish_candle i
       && Qgtb (iloc r Open i) (iloc r High (i - 1))
       && Qltb (iloc r Close i) ((iloc r Open (i - 1) + iloc r Close (i - 1)) / 2)
       && Qgtb (iloc r Close i) (iloc r Open (i - 1))
       && String.eqb (_get_trend i) "uptrend"
    then _add_pattern i "Dark Cloud Cover" "Bearish Reversal" "High"
                      "Starkes bearisches Umkehrsignal" ps
    else ps).

Definition _detect_tweezer_tops_bottoms : list Pattern -> list Pattern :=
  scan 1 (fun i ps =>
    if Qltb (Qabs (iloc r High i - iloc r High (i - 1))) (iloc r High i * 0.001)
       && String.eqb (_get_trend i) "uptrend"
    then _add_pattern i "Tweezer Top" "Bearish Reversal" "Medium"
                      "Doppelter Widerstand, mögliche Umkehr" ps
    else if Qltb (Qabs (iloc r Low i - iloc r Low (i - 1))) (iloc r Low i * 0.001)
            && String.eqb (_get_trend i) "downtrend"
    then _add_pattern i "Tweezer Bottom" "Bullish Reversal" "Medium"
                      "Doppelte Unterstützung, mögliche Umkehr" ps
    else ps).

Definition _detect_morning_star : list Pattern -> list Pattern :=
  scan 2 (fun i ps =>
    if _is_bearish_candle (i - 2)
       && Qltb (_calculate_body_height (i - 1)) (_calculate_body_height (i - 2) * 0.3)
       && _is_bullish_candle i
       && Qgtb (iloc r Close i) ((iloc r Open (i - 2) + iloc r Close (i - 2)) / 2)
       && String.eqb (_get_trend (i - 2)) "downtrend"
    then _add_pattern i "Morning Star" "Bullish Reversal" "Very High"
                      "Sehr starkes bullisches Umkehrmuster" ps
    else ps).

Definition _detect_evening_star : list Pattern -> list Pattern :=
  scan 2 (fun i ps =>
    if _is_bullish_candle (i - 2)
       && Qltb (_calculate_body_height (i - 1)) (_calculate_body_height (i - 2) * 0.3)
       && _is_bearish_candle i
       && Qltb (iloc r Close i) ((iloc r Open (i - 2) + iloc r Close (i - 2)) / 2)
       && String.eqb (_get_trend (i - 2)) "uptrend"
    then _add_pattern i "Evening Star" "Bearish Reversal" "Very High"
                      "Sehr starkes bearisches Umkehrmuster" ps
    else ps).

Definition _detect_three_white_soldiers : list Pattern -> list Pattern :=
  scan 2 (fun i ps =>
    if _is_bullish_candle (i - 2) && _is_bullish_candle (i - 1) && _is_bullish_candle i
       && Qgtb (iloc r Close (i - 1)) (iloc r Close (i - 2))
       && Qgtb (iloc r Close i) (iloc r Close (i - 1))
       && Qgtb (iloc r Open (i - 1)) (iloc r Open (i - 2))
       && Qgtb (iloc r Open i) (iloc r Open (i - 1))
    then _add_pattern i "Three White Soldiers" "Strong Bullish" "Very High"
                      "Sehr starker Aufwärtstrend" ps
    else ps).

Definition _detect_three_black_crows : list Pattern -> list Pattern :=
  scan 2 (fun i ps =>
    if _is_bearish_candle (i - 2) && _is_bearish_candle (i - 1) && _is_bearish_candle i
       && Qltb (iloc r Close (i - 1)) (iloc r Close (i - 2))
       && Qltb (iloc r Close i) (iloc r Close (i - 1))
       && Qltb (iloc r Open (i - 1)) (iloc r Open (i - 2))
       && Qltb (iloc r Open i) (iloc r Open (i - 1))
    then _add_pattern i "Three Black Crows" "Strong Bearish" "Very High"
                      "Sehr starker Abwärtstrend" ps
    else ps).

Definition _detect_three_inside_up_down : list Pattern -> list Pattern :=
  scan 2 (fun i ps =>
    if _is_bearish_candle (i - 2) && _is_bullish_candle (i - 1)
       && Qltb (iloc r Close (i - 1)) (iloc r Open (i - 2))
       && Qgtb (iloc r Open (i - 1)) (iloc r Close (i - 2))
       && _is_bullish_candle i
       && Qgtb (iloc r Close i) (iloc r Close (i - 1))
    then _add_pattern i "Three Inside Up" "Bullish Reversal" "High"
                      "Bestätigte bullische Umkehr" ps
    else if _is_bullish_candle (i - 2) && _is_bearish_candle (i - 1)
            && Qgtb (iloc r Close (i - 1)) (iloc r Open (i - 2))
            && Qltb (iloc r Open (i - 1)) (iloc r Close (i - 2))
            && _is_bearish_candle i
            && Qltb (iloc r Close i) (iloc r Close (i - 1))
    then _add_pattern i "Three Inside Down" "Bearish Reversal" "High"
                      "Bestätigte bearische Umkehr" ps
    else ps).

Definition _detect_three_outside_up_down : list Pattern -> list Pattern :=
  scan 2 (fun i ps =>
    if _is_bearish_candle (i - 2) && _is_bullish_candle (i - 1)
       && Qltb (iloc r Open (i - 1)) (iloc r Close (i - 2))
       && Qgtb (iloc r Close (i - 1)) (iloc r Open (i - 2))
       && _is_bullish_candle i
       && Qgtb (iloc r Close i) (iloc r Close (i - 1))
    then _add_pattern i "Three Outside Up" "Bullish Reversal" "High"
                      "Starke bullische Umkehr mit Engulfing" ps
    else if _is_bullish_candle (i - 2) && _is_bearish_candle (i - 1)
            && Qgtb (iloc r Open (i - 1)) (iloc r Close (i - 2))
            && Qltb (iloc r Close (i - 1)) (iloc r Open (i - 2))
            && _is_bearish_candle i
            && Qltb (iloc r Close i) (iloc r Close (i - 1))
    then _add_pattern i "Three Outside Down" "Bearish Reversal" "High"
                      "Starke bearische Umkehr mit Engulfing" ps
    else ps).

Definition _detect_rising_falling_three_methods : list Pattern -> list Pattern :=
  scan 4 (fun i ps =>
    if _is_bullish_candle (i - 4)
       && Qgtb (_calculate_body_height (i - 4)) (_calculate_body_height (i - 3))
       && Qgtb (_calculate_body_height (i - 4)) (_calculate_body_height (i - 2))
       && Qgtb (_calculate_body_height (i - 4)) (_calculate_body_height (i - 1))
       && forallb (fun j => Qltb (iloc r Close j) (iloc r High (i - 4))
                            && Qgtb (iloc r Close j) (iloc r Low (i - 4)))
                  (range (i - 3) i)
       && _is_bullish_candle i
       && Qgtb (iloc r Close i) (iloc r Close (i - 4))
    then _add_pattern i "Rising Three Methods" "Bullish Continuation" "High"
                      "Bullischer Trend setzt sich fort" ps
    else if _is_bearish_candle (i - 4)
            && Qgtb (_calculate_body_height (i - 4)) (_calculate_body_height (i - 3))
            && Qgtb (_calculate_body_height (i - 4)) (_calculate_body_height (i - 2))
            && Qgtb (_calculate_body_height (i - 4)) (_calculate_body_height (i - 1))
            && forallb (fun j => Qgtb (iloc r Close j) (iloc r Low (i - 4))
                                 && Qltb (iloc r Close j) (iloc r High (i - 4)))
                       (range (i - 3) i)
            && _is_bearish_candle i
            && Qltb (iloc r Close i) (iloc r Close (i - 4))
    then _add_pattern i "Falling Three Methods" "Bearish Continuation" "High"
                      "Bearischer Trend setzt sich fort" ps
    else ps).

(** The detectors in the order in which detect_all_patterns calls
    them, each with the names of the patterns of its family. *)
Definition detectors : list ((list Pattern -> list Pattern) * list string) :=
  [ (_detect_doji, ["Doji"]);
    (_detect_hammer, ["Hammer"]);
    (_detect_hanging_man, ["Hanging Man"]);
    (_detect_shooting_star, ["Shooting Star"]);
    (_detect_inverted_hammer, ["Inverted Hammer"]);
    (_detect_spinning_top, ["Spinning Top"]);
    (_detect_marubozu, ["Bullish Marubozu"; "Bearish Marubozu"]);
    (_detect_long_legged_doji, ["Long-Legged Doji"]);
    (_detect_dragonfly_doji, ["Dragonfly Doji"]);
    (_detect_gravestone_doji, ["Gravestone Doji"]);
    (_detect_engulfing, ["Bullish Engulfing"; "Bearish Engulfing"]);
    (_detect_harami, ["Bullish Harami"; "Bearish Harami"]);
    (_detect_piercing_line, ["Piercing Line"]);
    (_detect_dark_cloud_cover, ["Dark Cloud Cover"]);
    (_detect_tweezer_tops_bottoms, ["Tweezer Top"; "Tweezer Bottom"]);
    (_detect_morning_star, ["Morning Star"]);
    (_detect_evening_star, ["Evening Star"]);
    (_detect_three_white_soldiers, ["Three White Soldiers"]);
    (_detect_three_black_crows, ["Three Black Crows"]);
    (_detect_three_inside_up_down, ["Three Inside Up"; "Three Inside Down"]);
    (_detect_three_outside_up_down, ["Three Outside Up"; "Three Outside Down"]);
    (_detect_rising_falling_three_methods,
     ["Rising Three Methods"; "Falling Three Methods"]) ].

(** [self.patterns = []], then one detector after the other on
    [self.patterns]. *)
Definition detect_all_patterns : list Pattern :=
  let patterns := [] in
  let patterns := _detect_doji patterns in
  let patterns := _detect_hammer patterns in
  let patterns := _detect_hanging_man patterns in
  let patterns := _detect_shooting_star patterns in
  let patterns := _detect_inverted_hammer patterns in
  let patterns := _detect_spinning_top patterns in
  let patterns := _detect_marubozu patterns in
  let patterns := _detect_long_legged_doji patterns in
  let patterns := _detect_dragonfly_doji patterns in
  let patterns := _detect_gravestone_doji patterns in
  let patterns := _detect_engulfing patterns in
  let patterns := _detect_harami patterns in
  let patterns := _detect_piercing_line patterns in
  let patterns := _detect_dark_cloud_cover patterns in
  let patterns := _detect_tweezer_tops_bottoms patterns in
  let patterns := _detect_morning_star patterns in
  let patterns := _detect_evening_star patterns in
  let patterns := _detect_three_white_soldiers patterns in
  let patterns := _detect_three_black_crows patterns in
  let patterns := _detect_three_inside_up_down patterns in
  let patterns := _detect_three_outside_up_down patterns in
  let patterns := _detect_rising_falling_three_methods patterns in
  patterns.
End CandlestickPatterns.

Record PatternStatistics : Type := mkPatternStatistics {
  total_patterns : nat;
  bullish_patterns : nat;
  bearish_patterns : nat;
  neutral_patterns : nat;
  high_reliability : nat;
  recent_patterns : list Pattern;
  pattern_types : gmap string nat
}.

(** get_pattern_statistics on [self.patterns]; [None] is the empty dict
    returned when there is no pattern. *)
Definition get_pattern_statistics (patterns : list Pattern) : option PatternStatistics :=
  match patterns with
  | [] => None
  | _ =>
      Some (mkPatternStatistics
              (length patterns)
              (length (List.filter (fun p => contains "Bullish" (signal p)) patterns))
              (length (List.filter (fun p => contains "Bearish" (signal p)) patterns))
              (length (List.filter (fun p => contains "Neutral" (signal p)
                                             || contains "Continuation" (signal p))
                                   patterns))
              (length (List.filter (fun p => String.eqb (reliability p) "High"
                                             || String.eqb (reliability p) "Very High")
                                   patterns))
              (slice_last 5 patterns)
              (fold_left (fun types p =>
                            let types := match types !! pattern p with
                                         | None => <[pattern p := 0%nat]> types
                                         | Some _ => types
                                         end in
                            <[pattern p := S (default 0%nat (types !! pattern p))]> types)
                         patterns ∅))
  end.

(** ** Choice of the pattern shown at an index (main.py, advanced_charts.py) *)

Definition reliability_order : gmap string Z :=
  <["Very High" := 4]> (<["High" := 3]> (<["Medium" := 2]> (<["Low" := 1]> ∅))).

(** The sort key [reliability_order.get(p.get('reliability', 'Low'), 0)]. *)
Definition reliability_rank (p : Pattern) : Z :=
  default 0 (reliability_order !! reliability p).

(** The loop that fills [pattern_groups], for a frame of [n] rows. *)
Definition group_patterns (n : Z) (patterns : list Pattern) : gmap Z (list Pattern) :=
  fold_left (fun pattern_groups p =>
               let idx := index p in
               if (0 <=? idx) && (idx <? n) then
                 let pattern_groups :=
                   match pattern_groups !! idx with
                   | None => <[idx := []]> pattern_groups
                   | Some _ => pattern_groups
                   end in
                 <[idx := default [] (pattern_groups !! idx) ++ [p]]> pattern_groups
               else pattern_groups)
            patterns ∅.

(** [patterns_at_idx.sort(key=..., reverse=True)]: by falling rank, the
    patterns of one rank in the order they had. *)
Definition sort_by_reliability (patterns_at_idx : list Pattern) : list Pattern :=
  py_sorted (fun y x => reliability_rank x <? reliability_rank y) patterns_at_idx.

(** The indices that the chart marks (the last [limit] ones, 30 in
    main.py and 20 in advanced_charts.py), each with the pattern chosen
    for it: the first one after sorting. *)
Definition main_patterns (limit n : Z) (patterns : list Pattern) : list (Z * Pattern) :=
  let pattern_groups := group_patterns n patterns in
  let sorted_indices :=
    slice_last limit (py_sorted Z.ltb (map fst (map_to_list pattern_groups))) in
  omap (fun idx =>
          match pattern_groups !! idx with
          | Some patterns_at_idx =>
              match sort_by_reliability patterns_at_idx with
              | main_pattern :: _ => Some (idx, main_pattern)
              | [] => None
              end
          | None => None
          end)
       sorted_indices.

(** The patterns detected at an index, in detection order. *)
Definition at_index (idx : Z) (patterns : list Pattern) : list Pattern :=
  List.filter (fun p => index p =? idx) patterns.

(** What [pattern_groups] holds for an index after the patterns [l]. *)
Definition expected_group (n idx : Z) (l : list Pattern) : option (list Pattern) :=
  if (0 <=? idx) && (idx <? n) then
    match at_index idx l with
    | [] => None
    | g => Some g
    end
  else None.

(** ** The JSON snapshot (llm_client.py) *)

(** The values that reach [_prepare_data_for_json].  [NpFloat64] is an
    instance of both [np.floating] and [float], [NpFloat32] of
    [np.floating] only, [PyFloat] of [float] only.  A series is given by
    the items of its [to_dict()], a data frame by its records. *)
#[local] Unset Elimination Schemes.
Inductive PyData : Type :=
  | NpInteger (z : Z)
  | NpFloat64 (x : fl)
  | NpFloat32 (x : fl)
  | NdArray (elems : list PyData)
  | PdSeries (items : list (string * PyData))
  | PdDataFrame (records : list (list (string * PyData)))
  | PyDict (items : list (string * PyData))
  | PyList (elems : list PyData)
  | PyTimestamp (text : string)
  | PyNone
  | PyFloat (x : fl)
  | PyInt (z : Z)
  | PyStr (text : string)
  | PyBool (b : bool).
#[local] Set Elimination Schemes.

(** [np.isnan(x) or np.isinf(x)] *)
Definition nan_or_inf (x : fl) : bool :=
  match x with
  | Fin _ => false
  | _ => true
  end.

Definition is_None (d : PyData) : bool :=
  match d with
  | PyNone => true
  | _ => false
  end.

(** [isinstance(x, float) and (np.isnan(x) or np.isinf(x))] *)
Definition float_nan_or_inf (d : PyData) : bool :=
  match d with
  | NpFloat64 x | PyFloat x => nan_or_inf x
  | _ => false
  end.

(** A cell that [replace([inf, -inf], nan).dropna()] takes for missing. *)
Definition cell_missing (d : PyData) : bool :=
  match d with
  | NpFloat64 x | NpFloat32 x | PyFloat x => nan_or_inf x
  | PyNone => true
  | _ => false
  end.

(** [pd.isna] of a scalar. *)
Definition pd_isna (d : PyData) : bool :=
  match d with
  | PyNone => true
  | NpFloat64 NaN | NpFloat32 NaN | PyFloat NaN => true
  | _ => false
  end.

Fixpoint _prepare_data_for_json (data : PyData) : PyData :=
  match data with
  | NpInteger z => PyFloat (Fin (inject_Z z))
  | NpFloat64 x | NpFloat32 x => if nan_or_inf x then PyNone else PyFloat x
  | NdArray elems =>
      PyList (flat_map (fun x => if float_nan_or_inf x then []
                                 else [_prepare_data_for_json x]) elems)
  | PdSeries items | PyDict items =>
      PyDict (flat_map (fun kv => if is_None (snd kv) then []
                                  else [(fst kv, _prepare_data_for_json (snd kv))])
                       items)
  | PdDataFrame records =>
      PyList (map PyDict
                  (List.filter (fun row => forallb (fun kv => negb (cell_missing (snd kv)))
                                                   row)
                               records))
  | PyList elems =>
      PyList (flat_map (fun item => if is_None item then []
                                    else [_prepare_data_for_json item]) elems)
  | PyTimestamp text => PyStr text
  | _ => if pd_isna data then PyNone else data
  end.

(** Every number in the value is finite. *)
Fixpoint all_finite (d : PyData) : bool :=
  match d with
  | NpFloat64 x | NpFloat32 x | PyFloat x => negb (nan_or_inf x)
  | NdArray elems | PyList elems => forallb all_finite elems
  | PdSeries items | PyDict items => forallb (fun kv => all_finite (snd kv)) items
  | PdDataFrame records =>
      forallb (forallb (fun kv => all_finite (snd kv))) records
  | _ => true
  end.

Definition is_scalar (d : PyData) : bool :=
  match d with
  | NdArray _ | PdSeries _ | PdDataFrame _ | PyDict _ | PyList _ => false
  | _ => true
  end.

(** No infinity in the value is a builtin float, and the cells of the
    data frames are scalars. *)
Fixpoint no_float_inf (d : PyData) : bool :=
  match d with
  | PyFloat PInf | PyFloat NInf => false
  | NdArray elems | PyList elems => forallb no_float_inf elems
  | PdSeries items | PyDict items => forallb (fun kv => no_float_inf (snd kv)) items
  | PdDataFrame records => forallb (forallb (fun kv => is_scalar (snd kv))) records
  | _ => true
  end.

(** ** Invariants of the tallies *)

(** The score never leaves the band spanned by the weight. *)
Definition balanced (s : Score) : Prop :=
  (- total_weight s <= trend_score s)%Q /\ (trend_score s <= total_weight s)%Q.

(** The number of votes cast. *)
Definition cast_votes (v : Votes) : Z :=
  bullish_signals v + bearish_signals v + neutral_signals v.

(** No counter is negative and no more votes are cast than counted. *)
Definition votes_wf (v : Votes) : Prop :=
  0 <= bullish_signals v /\ 0 <= bearish_signals v /\ 0 <= neutral_signals v /\
  cast_votes v <= total_signals v.

(** Every block keeps the counters well formed and takes no vote back. *)
Definition keeps_votes (f : Votes -> Votes) : Prop :=
  forall v, (votes_wf v -> votes_wf (f v)) /\ cast_votes v <= cast_votes (f v).

(** ** The shape of the hit list *)

(** What one round of a scan adds at position [i]: nothing, or one
    pattern of the family at index [i]. *)
Definition hit_at (names : list string) (i : nat) (hit : list Pattern) : Prop :=
  hit = [] \/ exists p, hit = [p] /\ index p = Z.of_nat i /\ In (pattern p) names.

(** A loop body appends its hit to the list it is given. *)
Definition appends (names : list string) (body : nat -> list Pattern -> list Pattern)
  : Prop :=
  forall i ps, body i ps = ps ++ body i [] /\ hit_at names i (body i []).

(** The hits of one family: indices strictly ascending, names of the
    family. *)
Definition family_sorted (names : list string) (hits : list Pattern) : Prop :=
  StronglySorted Z.lt (map index hits) /\
  Forall (fun p => In (pattern p) names) hits.

(** ** Sample inputs *)

Definition candle (o h l c : Q) : Candle := mkCandle 0 o h l c 0.

(** Five bars with a local low of 2 and a local high of 7 around the
    last close, 3. *)
Definition sr_frame : DataFrame :=
  mkDataFrame [candle 4 5 3 4; candle 5 6 2 5; candle 6 7 4 6;
               candle 4 5 3 4; candle 3 4 1 3] ∅.

Definition sr_self : TechnicalAnalysis := mkTA (Some sr_frame) no_indicators None None.

(** One bar with high 2 and low 1. *)
Definition fib_frame : DataFrame := mkDataFrame [candle 1 2 1 2] ∅.

Definition fib_self : TechnicalAnalysis := mkTA (Some fib_frame) no_indicators None None.

(** An object without data, and one whose frame has no rows. *)
Definition absent_self : TechnicalAnalysis := mkTA None no_indicators None None.

Definition empty_self : TechnicalAnalysis :=
  mkTA (Some (mkDataFrame [] ∅)) no_indicators None None.

(** An indicator library that fails on every frame. *)
Definition failing_library (include_vwap : bool) (df : DataFrame) (ind : Indicators)
  : result (DataFrame * Indicators) := Raise LibraryError.

(** An object whose only indicator is an RSI of 0, the value of a
    series that only ever fell. *)
Definition rsi_zero_self : TechnicalAnalysis :=
  mkTA (Some sr_frame)
       (mkIndicators (Some (Some (Fin 0))) None None None None None None None false)
       None None.

(** The same with an RSI of 25. *)
Definition rsi_low_self : TechnicalAnalysis :=
  mkTA (Some sr_frame)
       (mkIndicators (Some (Some (Fin 25))) None None None None None None None false)
       None None.

(** An object whose only indicator is a MACD with a histogram of 0, on
    a frame without indicator columns. *)
Definition macd_flat_self : TechnicalAnalysis :=
  mkTA (Some sr_frame)
       (mkIndicators None (Some (mkMACD (Some (Fin 0)) (Some (Fin 0)) (Some (Fin 0))))
                     None None None None None None false)
       None None.

(** An object as calculate_all_indicators leaves it: the frame carries
    the average and volume columns, the dict the indicator values. *)
Definition scored_frame : DataFrame :=
  mkDataFrame (rows sr_frame)
    (<["EMA_9" := fun _ => Fin 2.5]>
       (<["EMA_21" := fun _ => Fin 2]>
          (<["EMA_50" := fun _ => Fin 2]>
             (<["EMA_200" := fun _ => NaN]>
                (<["OBV" := fun i => Fin (inject_Z (Z.of_nat i) * 100)]> ∅))))).

Definition scored_self : TechnicalAnalysis :=
  mkTA (Some scored_frame)
       (mkIndicators (Some (Some (Fin 72)))
                     (Some (mkMACD (Some (Fin 1.2)) (Some (Fin 0.7)) (Some (Fin 0.5))))
                     (Some (mkBollinger (Some (Fin 5)) (Some (Fin 3)) (Some (Fin 1))
                                        (Some (Fin 4)) (Some (Fin 0.5))))
                     (Some (mkStochastic (Some (Fin 80)) (Some (Fin 75))))
                     (Some (mkADX (Some (Fin 30)) (Some (Fin 25)) (Some (Fin 15))))
                     (Some (Some (Fin 400)))
                     (Some (Some (Fin 55)))
                     None true)
       None None.

(** What get_market_sentiment returns for it. *)
Definition scored_sentiment : Sentiment :=
  mkSentiment "Sehr Bullisch 🚀" (3975000 # 70000) "Starke Aufwärtssignale"
              (Joined [RsiOverbought (Fin 72); MacdPositive (Fin 0.5); AdxBullish;
                       EmaCount 3 0])
              (Some (5, 2, 0)).

(** Seven rising bars without wicks. *)
Definition rising_frame : list Candle :=
  [candle 10 12 10 12; candle 11 13 11 13; candle 12 14 12 14; candle 13 15 13 15;
   candle 14 16 14 16; candle 15 17 15 17; candle 16 18 16 18].

(** Two patterns at index 3, the one of medium reliability detected
    first. *)
Definition doji_at_3 : Pattern :=
  mkPattern 3 "Doji" "Indecision" "Medium"
            "Unentschlossenheit im Markt, mögliche Trendwende" 10 3.

Definition hammer_at_3 : Pattern :=
  mkPattern 3 "Hammer" "Bullish Reversal" "High"
            "Starkes bullisches Umkehrsignal nach Abwärtstrend" 10 3.

(** A snapshot with missing and infinite values of every kind. *)
Definition dirty_snapshot : PyData :=
  PyDict [("indicators",
           PyDict [("RSI", NpFloat64 NaN); ("ATR", NpFloat64 PInf);
                   ("MFI", NpFloat64 (Fin 55)); ("CCI", PyNone)]);
          ("levels", NdArray [NpFloat64 (Fin 1); NpFloat64 NaN; NpFloat32 NInf]);
          ("change", PyFloat NaN);
          ("frame", PdDataFrame [[("Close", PyFloat (Fin 2)); ("ROC", PyFloat PInf)];
                                 [("Close", PyFloat (Fin 3)); ("ROC", PyFloat (Fin 1))]])].

(** A snapshot whose current price is the builtin float infinity. *)
Definition inf_snapshot : PyData :=
  PyDict [("current_price", PyFloat PInf); ("ticker", PyStr "INDEX")].

(** ** IndicatorEngine: pivot points *)

(** [_calculate_pivots(df)]: the entry that it stores under 'Pivots'.
    It reads the last row, which raises on a frame without rows. *)
Definition _calculate_pivots (df : DataFrame) : result Pivots_t :=
  if df_empty df then Raise IndexError
  else
    let last_high := iloc_last (rows df) High in
    let last_low := iloc_last (rows df) Low in
    let last_close := iloc_last (rows df) Close in
    let pivot := ((last_high + last_low + last_close) / 3)%Q in
    let r1 := (2 * pivot - last_low)%Q in
    let r2 := (pivot + (last_high - last_low))%Q in
    let r3 := (last_high + 2 * (pivot - last_low))%Q in
    let s1 := (2 * pivot - last_high)%Q in
    let s2 := (pivot - (last_high - last_low))%Q in
    let s3 := (last_low - 2 * (last_high - pivot))%Q in
    Ok (mkPivots pivot r1 r2 r3 s1 s2 s3).

(** ** PatternRecognizer: the patterns that need a trend *)

(** The patterns that fire only after an up- or a downtrend before the
    bar itself. *)
Definition trend_patterns : list string :=
  ["Hammer"; "Hanging Man"; "Shooting Star"; "Inverted Hammer";
   "Bullish Engulfing"; "Bearish Engulfing"; "Bullish Harami"; "Bearish Harami";
   "Piercing Line"; "Dark Cloud Cover"; "Tweezer Top"; "Tweezer Bottom"].

(** The patterns that need a trend before their first bar, two bars
    earlier. *)
Definition star_patterns : list string := ["Morning Star"; "Evening Star"].

(** A hit describes the bar at position [i] of the frame, and a pattern
    that needs a trend has the five bars of the look-back before it. *)
Definition describes_bar (r : list Candle) (i : nat) (p : Pattern) : Prop :=
  index p = Z.of_nat i /\
  price p = iloc r Close i /\
  date p = timestamp (nth i r dummy_candle) /\
  (In (pattern p) trend_patterns -> (5 <= i)%nat) /\
  (In (pattern p) star_patterns -> (7 <= i)%nat).

(** ** The JSON snapshot: the types of the result *)



(** ** TargetCalculator: calculate_price_targets *)

(** One entry of the lists of targets. *)
Record Target : Type := mkTarget {
  tgt_level : string;
  tgt_price : Q;
  tgt_distance : fl
}.

Record PriceTargets : Type := mkPriceTargets {
  bullish_targets : list Target;
  bearish_targets : list Target
}.

(** [round(x, 2)] of a float: an infinity and NaN are kept. *)
Definition fl_round2 (a : fl) : fl :=
  match a with
  | Fin q => Fin (round2 q)
  | _ => a
  end.

(** [round(((price - current_price) / current_price) * 100, 2)]; the
    prices are numpy floats, whose division by zero raises nothing. *)
Definition distance_pct (p cur : Q) : fl :=
  fl_round2 (fl_mul (fl_div (Fin (p - cur)) (Fin cur)) (Fin 100)).

(** [for y in items: if keep(value(y)): targets.append({...})] *)
Definition collect_targets {B : Type} (keep : Q -> bool) (label : B -> string)
    (value : B -> Q) (cur : Q) (items : list B) : list Target :=
  map (fun y => mkTarget (label y) (round2 (value y)) (distance_pct (value y) cur))
      (List.filter (fun y => keep (value y)) items).

(** [d.items()] of a dict of levels: calculate_fibonacci_levels, the
    only place that assigns the attribute, fills the dict in the order
    of the configured levels, which is the order of the enumeration. *)
Definition level_items (levels : list Q) (d : gmap string Q) : list (string * Q) :=
  omap (fun l => (fun v => (fmt_pct1 l, v)) <$> d !! fmt_pct1 l) levels.

(** [[(i, pivots.get(f'r{i}')) for i in range(1, 4)]] *)
Definition pivot_resistances (pv : Pivots_t) : list (string * Q) :=
  [("1", r1 pv); ("2", r2 pv); ("3", r3 pv)].

Definition pivot_supports (pv : Pivots_t) : list (string * Q) :=
  [("1", s1 pv); ("2", s2 pv); ("3", s3 pv)].

Definition calculate_price_targets (self : TechnicalAnalysis) : option PriceTargets :=
  match data self with
  | None => None
  | Some df =>
      if df_empty df then None
      else
        let cur := iloc_last (rows df) Close in
        let above := fun p => Qgtb p cur in
        let below := fun p => Qltb p cur in
        let fib_bullish :=
          match fibonacci_levels self with
          | Some fib =>
              collect_targets above (fun kv => "Fib Retracement " +:+ kv.1) snd cur
                              (level_items FIBONACCI_LEVELS (retracement fib))
              ++ collect_targets above (fun kv => "Fib Extension " +:+ kv.1) snd cur
                                 (level_items EXTENSION_LEVELS (extension fib))
          | None => []
          end in
        let fib_bearish :=
          match fibonacci_levels self with
          | Some fib =>
              collect_targets below (fun kv => "Fib Retracement " +:+ kv.1) snd cur
                              (level_items FIBONACCI_LEVELS (retracement fib))
          | None => []
          end in
        let pivot_bullish :=
          match ind_Pivots (indicators self) with
          | Some pv =>
              collect_targets (fun r => negb (Qeq_bool r 0) && above r)
                              (fun kv => "Resistance R" +:+ kv.1) snd cur
                              (pivot_resistances pv)
          | None => []
          end in
        let pivot_bearish :=
          match ind_Pivots (indicators self) with
          | Some pv =>
              collect_targets (fun s => negb (Qeq_bool s 0) && below s)
                              (fun kv => "Support S" +:+ kv.1) snd cur
                              (pivot_supports pv)
          | None => []
          end in
        let sr_bullish :=
          match support_resistance self with
          | Some sr =>
              collect_targets above (fun _ => "Key Resistance") id cur (resistance sr)
          | None => []
          end in
        let sr_bearish :=
          match support_resistance self with
          | Some sr =>
              collect_targets below (fun _ => "Key Support") id cur (support sr)
          | None => []
          end in
        let bullish := fib_bullish ++ pivot_bullish ++ sr_bullish in
        let bearish := fib_bearish ++ pivot_bearish ++ sr_bearish in
        Some (mkPriceTargets
                (slice_first 5
                   (py_sorted (fun a b => fl_ltb (tgt_distance a) (tgt_distance b)) bullish))
                (slice_first 5
                   (py_sorted (fun a b => fl_ltb (fl_abs (tgt_distance a))
                                                 (fl_abs (tgt_distance b))) bearish)))
  end.

(** A state in which every step of the analysis has run on [sr_frame]. *)
Definition analysed_self : TechnicalAnalysis :=
  let s1 := (calculate_fibonacci_levels sr_self).2 in
  let s2 := (identify_support_resistance s1 3 3).2 in
  mkTA (data s2)
       (mkIndicators None None None None None None None
          (match _calculate_pivots sr_frame with Ok pv => Some pv | Raise _ => None end)
          false)
       (fibonacci_levels s2) (support_resistance s2).

(** The distance of [a] is a number and not larger in magnitude than
    the distance of [b]. *)
Definition nearer_or_equal (a b : Target) : Prop :=
  match tgt_distance a, tgt_distance b with
  | Fin da, Fin db => (Qabs da <= Qabs db)%Q
  | _, _ => False
  end.

(** ** LLMClient: the market direction of a report *)

(** The factors that _determine_market_direction collects; each stands
    for the text the code formats from the value it carries. *)
Inductive Factor : Type :=
  | FactorRsiOverbought (rsi : fl)
  | FactorRsiBullish (rsi : fl)
  | FactorRsiOversold (rsi : fl)
  | FactorRsiBearish (rsi : fl)
  | FactorMacdPositive (hist : fl)
  | FactorMacdNegative (hist : fl)
  | FactorBullishDominate (bullish_prob : Q)
  | FactorBearishDominate (bearish_prob : Q).

Record MarketDirection : Type := mkMarketDirection {
  md_primary : string;
  md_recommendation : string;
  md_strength : Z;
  md_score : Z;
  md_factors : list Factor
}.

(** The first part of _determine_market_direction: [score] and
    [factors] after the blocks of the RSI, of the MACD and of the
    probabilities.  The dict of probabilities without keys is [None]. *)
Definition market_score (ind : Indicators) (probabilities : option Probabilities)
  : Z * list Factor :=
  let score := 0 in
  let factors := [] in
  let '(score, factors) :=
    match get_scalar (ind_RSI ind) with
    | Some rsi =>
        if fl_truthy rsi then
          if fl_gtb rsi (Fin 70) then (score - 2, factors ++ [FactorRsiOverbought rsi])
          else if fl_gtb rsi (Fin 50) then (score + 1, factors ++ [FactorRsiBullish rsi])
          else if fl_ltb rsi (Fin 30) then (score + 2, factors ++ [FactorRsiOversold rsi])
          else (score - 1, factors ++ [FactorRsiBearish rsi])
        else (score, factors)
    | None => (score, factors)
    end in
  let '(score, factors) :=
    match ind_MACD ind with
    | Some macd =>
        match macd_histogram macd with
        | Some hist =>
            if fl_gtb hist (Fin 0) then (score + 2, factors ++ [FactorMacdPositive hist])
            else (score - 2, factors ++ [FactorMacdNegative hist])
        | None => (score, factors)
        end
    | None => (score, factors)
    end in
  let bullish_prob :=
    match probabilities with Some p => bullish_probability p | None => 33%Q end in
  let bearish_prob :=
    match probabilities with Some p => bearish_probability p | None => 33%Q end in
  if Qgtb bullish_prob (bearish_prob * 1.5) then
    (score + 2, factors ++ [FactorBullishDominate bullish_prob])
  else if Qgtb bearish_prob (bullish_prob * 1.5) then
    (score - 2, factors ++ [FactorBearishDominate bearish_prob])
  else (score, factors).

Definition _determine_market_direction (ind : Indicators)
    (probabilities : option Probabilities) (language : string) : MarketDirection :=
  let '(score, factors) := market_score ind probabilities in
  let '(primary, recommendation, strength) :=
    if String.eqb language "en" then
      if 3 <=? score then
        ("STRONG BULLISH 🚀", "BUY - Strong upward signals", Z.min 10 (7 + score / 2))
      else if 1 <=? score then
        ("BULLISH 📈", "CAUTIOUS BUY - Positive signals prevail", 6)
      else if -1 <=? score then
        ("NEUTRAL ➡️", "WAIT - No clear direction", 5)
      else if -3 <=? score then
        ("BEARISH 📉", "CAUTIOUS SELL - Negative signals prevail", 4)
      else
        ("STRONG BEARISH 🔻", "SELL - Strong downward signals", Z.max 1 (3 + score / 2))
    else
      if 3 <=? score then
        ("STARK BULLISCH 🚀", "KAUFEN - Starke Aufwärtssignale", Z.min 10 (7 + score / 2))
      else if 1 <=? score then
        ("BULLISCH 📈", "VORSICHTIG KAUFEN - Positive Signale überwiegen", 6)
      else if -1 <=? score then
        ("NEUTRAL ➡️", "ABWARTEN - Keine klare Richtung", 5)
      else if -3 <=? score then
        ("BEARISCH 📉", "VORSICHTIG VERKAUFEN - Negative Signale überwiegen", 4)
      else
        ("STARK BEARISCH 🔻", "VERKAUFEN - Starke Abwärtssignale", Z.max 1 (3 + score / 2))
  in
  mkMarketDirection primary recommendation strength score factors.

(** ** AdvancedCharts: the bricks of the Renko chart *)

(** What the conversion [int(x)] of a float that is not a number and a
    comparison with [None] raise, next to the exceptions above. *)
Inductive ChartError : Type :=
  | ValueError
  | OverflowError
  | TypeError
  | Builtin (e : exn).

(** [int(x)]: the fraction is cut off. *)
Definition py_int (x : Q) : Z := Z.quot (Qnum x) (Zpos (Qden x)).

Record Brick : Type := mkBrick {
  brick_price : Q;
  brick_direction : Z
}.

(** [for _ in range(num_bricks): current_price += direction * brick_size;
    renko_bricks.append({'price': current_price, 'direction': direction})] *)
Fixpoint add_bricks (num_bricks : nat) (direction : Z) (brick_size : Q)
    (st : Q * list Brick) : Q * list Brick :=
  match num_bricks with
  | O => st
  | S n =>
      let current_price := (st.1 + inject_Z direction * brick_size)%Q in
      add_bricks n direction brick_size
                 (current_price, st.2 ++ [mkBrick current_price direction])
  end.

(** The body of the loop over the closes, on [current_price] and
    [renko_bricks].  The closes are numpy floats: with a brick size of
    zero the quotient is an infinity, or NaN when the price has not
    moved, and [int] raises; no close is at a distance of NaN or of
    plus infinity, and the quotient by minus infinity is cut to zero
    bricks. *)
Definition renko_step (brick_size : fl) (st : Q * list Brick) (price : Q)
  : (Q * list Brick) + ChartError :=
  let current_price := st.1 in
  let move := Qabs (price - current_price) in
  match brick_size with
  | NaN | PInf | NInf => inl st
  | Fin b =>
      if Qle_bool b move then
        if Qeq_bool b 0 then
          if Qeq_bool move 0 then inr ValueError else inr OverflowError
        else
          let num_bricks := py_int (move / b) in
          let direction := if Qgtb price current_price then 1 else -1 in
          inl (add_bricks (Z.to_nat num_bricks) direction b st)
      else inl st
  end.

Fixpoint renko_loop (brick_size : fl) (st : Q * list Brick) (prices : list Q)
  : (Q * list Brick) + ChartError :=
  match prices with
  | [] => inl st
  | price :: rest =>
      match renko_step brick_size st price with
      | inl st' => renko_loop brick_size st' rest
      | inr e => inr e
      end
  end.

(** [renko_bricks] of create_renko_chart, for the closes of the frame
    and the brick size that is given or was derived; [prices[0]] raises
    on a frame without rows. *)
Definition renko_bricks (prices : list Q) (brick_size : fl) : list Brick + ChartError :=
  match prices with
  | [] => inr (Builtin IndexError)
  | first :: rest =>
      match renko_loop brick_size (first, []) rest with
      | inl st => inl st.2
      | inr e => inr e
      end
  end.



(** ** LLMClient: the sections of the report that go by the direction *)

(** The three fixed texts of _generate_action_items. *)
Inductive ActionItems : Type :=
  | LongActions
  | ShortActions
  | WaitActions.

Definition _generate_action_items (market_direction : MarketDirection) : ActionItems :=
  if contains "BULLISCH" (md_primary market_direction) then LongActions
  else if contains "BEARISCH" (md_primary market_direction) then ShortActions
  else WaitActions.

(** The three opening sentences of _get_trend_description. *)
Inductive TrendBase : Type :=
  | BullishTendency
  | BearishTendency
  | NeutralPhase.

(** The opening sentence and, when there are factors, the two first of
    them that the text goes on to name. *)
Definition _get_trend_description (market_direction : MarketDirection)
  : TrendBase * option (list Factor) :=
  let direction := md_primary market_direction in
  let factors := md_factors market_direction in
  let base :=
    if contains "BULLISCH" direction then BullishTendency
    else if contains "BEARISCH" direction then BearishTendency
    else NeutralPhase in
  (base, match factors with [] => None | _ => Some (slice_first 2 factors) end).

(** ** main.py: the ticks of the time axis *)

(** [list(range(0, stop, step))] for a [stop] that is not negative; a
    step of zero raises. *)
Definition range_by (stop step : Z) : list Z + ChartError :=
  if step =? 0 then inr ValueError
  else if step <? 0 then inl []
  else inl (map (fun k => Z.of_nat k * step)
                (seq 0 (Z.to_nat ((stop + step - 1) / step)))).

(** The label of a tick: the date with the time of day, or the date
    alone; each stands for the text that [strftime] makes of the index
    label of the row. *)
Inductive TickLabel : Type :=
  | DayAndTime (date : Z)
  | Day (date : Z).

(** [for i in ticks: x_labels.append(fmt(data_copy['Date'].iloc[i]))];
    [iloc] raises outside the frame. *)
Fixpoint tick_labels (fmt : Z -> TickLabel) (r : list Candle) (ticks : list Z)
  : list TickLabel + ChartError :=
  match ticks with
  | [] => inl []
  | i :: rest =>
      match (if i <? 0 then None else r !! Z.to_nat i) with
      | None => inr (Builtin IndexError)
      | Some c =>
          match tick_labels fmt r rest with
          | inl labels => inl (fmt (timestamp c) :: labels)
          | inr e => inr e
          end
      end
  end.

(** [x_labels] and [x_ticks] of prepare_data_without_gaps; the frame
    that it returns with them has the rows of [data], with the index in
    the column Date. *)
Definition prepare_data_without_gaps (data : DataFrame) (interval : string)
  : (list TickLabel * list Z) + ChartError :=
  let num_points := Z.of_nat (df_len data) in
  let step :=
    if 100 <? num_points then num_points / 20
    else Z.max 1 (num_points / 10) in
  let fmt :=
    if existsb (String.eqb interval) ["1m"; "5m"; "15m"; "30m"; "1h"]
    then DayAndTime else Day in
  match range_by num_points step with
  | inr e => inr e
  | inl x_ticks =>
      match tick_labels fmt (rows data) x_ticks with
      | inr e => inr e
      | inl x_labels => inl (x_labels, x_ticks)
      end
  end.

(** ** AdvancedCharts: the columns of the Point & Figure chart *)

Record PnfColumn : Type := mkPnfColumn {
  column : list Q;
  column_type : string
}.

(** The variables of the loop: [pnf_data], [current_column],
    [current_direction] ([None] before the second close) and
    [current_price]. *)
Record PnfState : Type := mkPnfState {
  pnf_data : list PnfColumn;
  current_column : list Q;
  current_direction : option Z;
  pnf_price : Q
}.

(** [for _ in range(num_boxes): current_price += current_direction * box_size;
    current_column.append(current_price)] *)
Fixpoint add_boxes (num_boxes : nat) (direction : Z) (box_size : Q)
    (st : Q * list Q) : Q * list Q :=
  match num_boxes with
  | O => st
  | S n =>
      let current_price := (st.1 + inject_Z direction * box_size)%Q in
      add_boxes n direction box_size (current_price, st.2 ++ [current_price])
  end.

(** ['X' if current_direction > 0 else 'O'] *)
Definition xo (direction : Z) : string := if 0 <? direction then "X" else "O".

(** [a >= b] and [a <= b]; every comparison with NaN is false. *)
Definition fl_geb (a b : fl) : bool := notna a && notna b && negb (fl_ltb a b).

Definition fl_leb (a b : fl) : bool := fl_geb b a.

(** [int(x)] of a float: NaN and the infinities raise. *)
Definition fl_to_int (x : fl) : Z + ChartError :=
  match x with
  | Fin q => inl (py_int q)
  | NaN => inr ValueError
  | PInf | NInf => inr OverflowError
  end.

(** The body of the loop over the closes.  The closes are numpy floats,
    whose division by a box size of zero raises nothing. *)
Definition pnf_step (box_size : Q) (reversal : Z) (st : PnfState) (price : Q)
  : PnfState + ChartError :=
  let cur := pnf_price st in
  let move := fl_div (Fin (price - cur)) (Fin box_size) in
  let '(direction, col) :=
    match current_direction st with
    | None => (if fl_gtb move (Fin 0) then 1 else -1, [cur])
    | Some d => (d, current_column st)
    end in
  let along := fl_mul (Fin (inject_Z direction)) move in
  if fl_geb along (Fin 1) then
    match fl_to_int (fl_abs move) with
    | inr e => inr e
    | inl num_boxes =>
        let st' := add_boxes (Z.to_nat num_boxes) direction box_size (cur, col) in
        inl (mkPnfState (pnf_data st) st'.2 (Some direction) st'.1)
    end
  else if fl_leb along (Fin (inject_Z (- reversal))) then
    let data' := pnf_data st ++ [mkPnfColumn col (xo direction)] in
    let direction' := direction * -1 in
    match fl_to_int (fl_abs move) with
    | inr e => inr e
    | inl num_boxes =>
        let st' := add_boxes (Z.to_nat num_boxes) direction' box_size (cur, [cur]) in
        inl (mkPnfState data' st'.2 (Some direction') st'.1)
    end
  else inl (mkPnfState (pnf_data st) col (Some direction) cur).

Fixpoint pnf_loop (box_size : Q) (reversal : Z) (st : PnfState) (prices : list Q)
  : PnfState + ChartError :=
  match prices with
  | [] => inl st
  | price :: rest =>
      match pnf_step box_size reversal st price with
      | inl st' => pnf_loop box_size reversal st' rest
      | inr e => inr e
      end
  end.

(** The box size that is given, or a fiftieth of the range of the
    frame. *)
Definition pnf_box_size (data : DataFrame) (box_size : option Q) : Q :=
  match box_size with
  | Some b => b
  | None =>
      let price_range :=
        (list_max_Q (map High (rows data)) - list_min_Q (map Low (rows data)))%Q in
      (price_range / 50)%Q
  end.

(** [pnf_data] of create_point_and_figure_chart, for a box size that is
    a number; [prices[0]] raises on a frame without rows. *)
Definition pnf_columns (data : DataFrame) (box_size : option Q) (reversal : Z)
  : list PnfColumn + ChartError :=
  let box_size := pnf_box_size data box_size in
  match map Close (rows data) with
  | [] => inr (Builtin IndexError)
  | first :: rest =>
      match pnf_loop box_size reversal (mkPnfState [] [] None first) rest with
      | inr e => inr e
      | inl st =>
          match current_column st, current_direction st with
          | [], _ => inl (pnf_data st)
          | _ :: _, None => inr TypeError
          | _ :: _, Some d =>
              inl (pnf_data st ++ [mkPnfColumn (current_column st) (xo d)])
          end
      end
  end.







(** ** PatternRecognizer: what a hit says about its bar *)

(** The patterns whose signal goes by the trend before the bar. *)
Definition reversal_patterns : list string :=
  trend_patterns ++ ["Doji"; "Dragonfly Doji"; "Gravestone Doji"].

(** The patterns whose last bar closes above its open, and those whose
    last bar closes below it. *)
Definition rising_bar_patterns : list string :=
  ["Bullish Marubozu"; "Bullish Engulfing"; "Bullish Harami"; "Piercing Line";
   "Morning Star"; "Three White Soldiers"; "Three Inside Up"; "Three Outside Up";
   "Rising Three Methods"].

Definition falling_bar_patterns : list string :=
  ["Bearish Marubozu"; "Bearish Engulfing"; "Bearish Harami"; "Dark Cloud Cover";
   "Evening Star"; "Three Black Crows"; "Three Inside Down"; "Three Outside Down";
   "Falling Three Methods"].

(** A reversal signal is against the trend that [_get_trend] finds at
    position [i]. *)
Definition against_trend (r : list Candle) (i : nat) (p : Pattern) : Prop :=
  (signal p = "Bullish Reversal" -> _get_trend r i = "downtrend") /\
  (signal p = "Bearish Reversal" -> _get_trend r i = "uptrend").

(** What a hit at position [i] says about the trend before the pattern
    and about the bar at [i]. *)
Definition reads_bar (r : list Candle) (i : nat) (p : Pattern) : Prop :=
  index p = Z.of_nat i /\
  (In (pattern p) reversal_patterns -> against_trend r i p) /\
  (In (pattern p) star_patterns -> against_trend r (i - 2) p) /\
  (In (pattern p) rising_bar_patterns -> (iloc r Open i < iloc r Close i)%Q) /\
  (In (pattern p) falling_bar_patterns -> (iloc r Close i < iloc r Open i)%Q).

(** * Part II: properties *)

(** ** Python lists *)

Section PyListFacts.
Context {A : Type}.
Implicit Types (l : list A) (x y : A).

Lemma In_insert_sorted before x y l :
  In y (insert_sorted before x l) <-> y = x \/ In y l.
Proof.
  induction l as [|z l IH]; simpl.
  - intuition.
  - destruct (before z x); simpl; rewrite ?IH; intuition.
Qed.

Lemma In_py_sorted before y l : In y (py_sorted before l) <-> In y l.
Proof.
  induction l as [|x l IH]; simpl; [tauto|].
  rewrite In_insert_sorted, IH. intuition.
Qed.

Lemma length_insert_sorted before x l :
  length (insert_sorted before x l) = S (length l).
Proof.
  induction l as [|z l IH]; simpl; [reflexivity|].
  destruct (before z x); simpl; congruence.
Qed.

Lemma length_py_sorted before l : length (py_sorted before l) = length l.
Proof.
  induction l as [|x l IH]; simpl; [reflexivity|].
  rewrite length_insert_sorted. congruence.
Qed.

Lemma In_slice_last k l x : In x (slice_last k l) -> In x l.
Proof.
  unfold slice_last. rewrite <- !list_elem_of_In.
  destruct (0 <? k); apply subseteq_drop.
Qed.

Lemma In_slice_first k l x : In x (slice_first k l) -> In x l.
Proof.
  unfold slice_first. rewrite <- !list_elem_of_In.
  destruct (0 <=? k); apply subseteq_take.
Qed.

Lemma In_unique_from eqb l seen x :
  In x (fold_left (fun seen x => if existsb (eqb x) seen then seen else seen ++ [x])
                  l seen) ->
  In x seen \/ In x l.
Proof.
  revert seen. induction l as [|y l IH]; simpl; intros seen H; [tauto|].
  apply IH in H. destruct (existsb (eqb y) seen).
  - tauto.
  - destruct H as [H|H]; [|tauto].
    apply in_app_or in H. simpl in H. intuition.
Qed.

Lemma In_unique eqb l x : In x (unique eqb l) -> In x l.
Proof.
  intros H. apply In_unique_from in H. simpl in H. tauto.
Qed.
End PyListFacts.

Lemma Qltb_lt (a b : Q) : Qltb a b = true <-> (a < b)%Q.
Proof.
  unfold Qltb. rewrite negb_true_iff, <- not_true_iff_false, Qle_bool_iff.
  split; [apply Qnot_le_lt | apply Qlt_not_le].
Qed.

Lemma Qltb_ge (a b : Q) : Qltb a b = false <-> (b <= a)%Q.
Proof.
  unfold Qltb. rewrite negb_false_iff. apply Qle_bool_iff.
Qed.

(** ** LevelDetector: support and resistance *)

Lemma df_empty_false (df : DataFrame) : df_empty df = false <-> rows df <> [].
Proof.
  unfold df_empty. destruct (rows df); split; congruence.
Qed.

Lemma local_extrema_In (col : list Q) (extreme : list (option Q)) (x : Q) :
  In x (local_extrema col extreme) -> In x col.
Proof.
  unfold local_extrema. intros H. apply In_unique in H.
  apply in_map_iff in H. destruct H as [[v m] [<- H]].
  apply filter_In in H. destruct H as [H _].
  apply in_combine_l in H. exact H.
Qed.

(** C1. For every series that is not empty, identify_support_resistance
    returns levels around the current price, the last close: every
    support level is strictly below it and every resistance level is
    strictly above it; each level is a low (a high) of the series. *)
Theorem identify_support_resistance_sides
    (self : TechnicalAnalysis) (df : DataFrame) (window num_levels : Z) :
  data self = Some df ->
  df_empty df = false ->
  exists sr self',
    identify_support_resistance self window num_levels = (Some sr, self') /\
    support_resistance self' = Some sr /\
    current_price sr = iloc_last (rows df) Close /\
    (forall s, In s (support sr) ->
       (s < current_price sr)%Q /\ In s (map Low (rows df))) /\
    (forall r, In r (resistance sr) ->
       (current_price sr < r)%Q /\ In r (map High (rows df))).
Proof.
  intros Hdata Hne. unfold identify_support_resistance.
  rewrite Hdata, Hne. eexists _, _. split; [reflexivity|].
  simpl. split; [reflexivity|]. split; [reflexivity|].
  set (price := iloc_last (rows df) Close).
  split.
  - intros s Hs.
    assert (In s (List.filter (fun level => Qltb level price)
                    (local_extrema (map Low (rows df))
                       (rolling_center list_min_Q window (map Low (rows df)))))) as H.
    { destruct (_ <? _) in Hs; [|exact Hs].
      apply In_slice_last in Hs. apply In_py_sorted in Hs. exact Hs. }
    apply filter_In in H. destruct H as [Hin Hlt].
    split; [apply Qltb_lt, Hlt | eapply local_extrema_In, Hin].
  - intros r Hr.
    assert (In r (List.filter (fun level => Qgtb level price)
                    (local_extrema (map High (rows df))
                       (rolling_center list_max_Q window (map High (rows df)))))) as H.
    { destruct (_ <? _) in Hr; [|exact Hr].
      apply In_slice_first in Hr. apply In_py_sorted in Hr. exact Hr. }
    apply filter_In in H. destruct H as [Hin Hlt].
    split; [apply Qltb_lt, Hlt | eapply local_extrema_In, Hin].
Qed.

Example identify_support_resistance_sr_frame :
  fst (identify_support_resistance sr_self 3 5)
  = Some (mkSupportResistance [2%Q] [7%Q] 3%Q).
Proof. vm_compute. reflexivity. Qed.

Lemma identify_support_resistance_sides_witness :
  exists sr self',
    identify_support_resistance sr_self 3 5 = (Some sr, self') /\
    support_resistance self' = Some sr /\
    current_price sr = iloc_last (rows sr_frame) Close /\
    (forall s, In s (support sr) ->
       (s < current_price sr)%Q /\ In s (map Low (rows sr_frame))) /\
    (forall r, In r (resistance sr) ->
       (current_price sr < r)%Q /\ In r (map High (rows sr_frame))).
Proof.
  apply (identify_support_resistance_sides sr_self sr_frame 3 5); reflexivity.
Defined.

(** ** LevelDetector: Fibonacci levels *)

Lemma fold_min_le (t : list Q) (x : Q) :
  (fold_left Qmin t x <= x)%Q /\ forall y, In y t -> (fold_left Qmin t x <= y)%Q.
Proof.
  revert x. induction t as [|z t IH]; intros x; simpl.
  - split; [apply Qle_refl | tauto].
  - destruct (IH (Qmin x z)) as [H1 H2]. split.
    + eapply Qle_trans; [exact H1 | apply Q.le_min_l].
    + intros y [<-|Hy]; [|auto].
      eapply Qle_trans; [exact H1 | apply Q.le_min_r].
Qed.

Lemma fold_max_ge (t : list Q) (x : Q) :
  (x <= fold_left Qmax t x)%Q /\ forall y, In y t -> (y <= fold_left Qmax t x)%Q.
Proof.
  revert x. induction t as [|z t IH]; intros x; simpl.
  - split; [apply Qle_refl | tauto].
  - destruct (IH (Qmax x z)) as [H1 H2]. split.
    + eapply Qle_trans; [apply Q.le_max_l | exact H1].
    + intros y [<-|Hy]; [|auto].
      eapply Qle_trans; [apply Q.le_max_r | exact H1].
Qed.

Lemma list_min_Q_le (l : list Q) (y : Q) : In y l -> (list_min_Q l <= y)%Q.
Proof.
  destruct l as [|x t]; simpl; [tauto|].
  destruct (fold_min_le t x) as [H1 H2].
  intros [<-|Hy]; [exact H1 | exact (H2 _ Hy)].
Qed.

Lemma list_max_Q_ge (l : list Q) (y : Q) : In y l -> (y <= list_max_Q l)%Q.
Proof.
  destruct l as [|x t]; simpl; [tauto|].
  destruct (fold_max_ge t x) as [H1 H2].
  intros [<-|Hy]; [exact H1 | exact (H2 _ Hy)].
Qed.

(** The low of a series of well-formed bars is at most its high. *)
Lemma low_le_high (r : list Candle) :
  r <> [] ->
  Forall (fun c => (Low c <= High c)%Q) r ->
  (list_min_Q (map Low r) <= list_max_Q (map High r))%Q.
Proof.
  destruct r as [|c r]; [congruence|]. intros _ Hwf.
  apply Forall_inv in Hwf.
  apply Qle_trans with (Low c); [apply list_min_Q_le; simpl; tauto|].
  apply Qle_trans with (High c); [exact Hwf|].
  apply list_max_Q_ge; simpl; tauto.
Qed.

Section DictLoop.
Context {B : Type} (key : B -> string) (val : B -> Q).

Lemma assign_all_other (l : list B) (d : gmap string Q) (k : string) :
  ~ In k (map key l) -> assign_all key val l d !! k = d !! k.
Proof.
  revert d. induction l as [|y l IH]; intros d Hk; simpl in *; [reflexivity|].
  unfold assign_all in *. simpl. rewrite IH by tauto.
  apply lookup_insert_ne. intros E. apply Hk. left. exact E.
Qed.

Lemma assign_all_lookup (l : list B) (d : gmap string Q) (x : B) :
  List.NoDup (map key l) -> In x l -> assign_all key val l d !! key x = Some (val x).
Proof.
  revert d. induction l as [|y l IH]; intros d Hnd Hx; simpl in *; [tauto|].
  inversion Hnd as [|? ? Hy Hnd']; subst.
  destruct Hx as [->|Hx].
  - unfold assign_all. simpl. fold (assign_all key val l (<[key x := val x]> d)).
    rewrite assign_all_other by exact Hy. apply lookup_insert_eq.
  - unfold assign_all in *. simpl. apply IH; assumption.
Qed.
End DictLoop.

Lemma fibonacci_keys_distinct : List.NoDup (map fmt_pct1 FIBONACCI_LEVELS).
Proof. apply NoDup_ListNoDup, (bool_decide_unpack _). vm_compute. reflexivity. Qed.

Lemma extension_keys_distinct : List.NoDup (map fmt_pct1 EXTENSION_LEVELS).
Proof. apply NoDup_ListNoDup, (bool_decide_unpack _). vm_compute. reflexivity. Qed.

Example fibonacci_keys :
  map fmt_pct1 FIBONACCI_LEVELS
  = ["0.0%"; "23.6%"; "38.2%"; "50.0%"; "61.8%"; "78.6%"; "100.0%"; "161.8%"; "261.8%"].
Proof. vm_compute. reflexivity. Qed.

(** C7, as stated, fails: for the single bar with high 2 and low 1 the
    level of the configured ratio 1.618 is 2 - 1 * 1.618 = 0.382, which
    is below the high (and below the low), not above it. *)
Lemma fibonacci_ratio_above_one_not_above_high :
  exists fib self' v,
    calculate_fibonacci_levels fib_self = (Some fib, self') /\
    In 1.618%Q FIBONACCI_LEVELS /\ (1 < 1.618)%Q /\
    retracement fib !! fmt_pct1 1.618 = Some v /\
    v = (fib_high fib - (fib_high fib - fib_low fib) * 1.618)%Q /\
    ~ (fib_high fib < v)%Q.
Proof.
  eexists _, _, _. split; [reflexivity|].
  cbn [fib_high fib_low retracement].
  split; [simpl; tauto|]. split; [reflexivity|].
  split; [vm_compute; reflexivity|].
  split; [reflexivity|]. vm_compute. discriminate.
Qed.

(** C7, amended. For every series of well-formed bars (low <= high) that
    is not empty, each retracement level of a configured ratio is
    high - range * ratio, with high the largest High, low the smallest
    Low and range = high - low; it lies at or below the high, and for a
    configured ratio greater than 1 at or below the low.  The levels
    above the high are the extension levels, which are computed for the
    fixed ratios 1.272, 1.414, 1.618, 2.0 and 2.618 as
    high + range * (ratio - 1). *)
Theorem calculate_fibonacci_levels_levels (self : TechnicalAnalysis) (df : DataFrame) :
  data self = Some df ->
  df_empty df = false ->
  Forall (fun c => (Low c <= High c)%Q) (rows df) ->
  exists fib self',
    calculate_fibonacci_levels self = (Some fib, self') /\
    fibonacci_levels self' = Some fib /\
    fib_high fib = list_max_Q (map High (rows df)) /\
    fib_low fib = list_min_Q (map Low (rows df)) /\
    (forall ratio, In ratio FIBONACCI_LEVELS ->
       exists v, retracement fib !! fmt_pct1 ratio = Some v /\
                 v = (fib_high fib - (fib_high fib - fib_low fib) * ratio)%Q /\
                 (v <= fib_high fib)%Q /\
                 ((1 < ratio)%Q -> (v <= fib_low fib)%Q)) /\
    (forall ratio, In ratio EXTENSION_LEVELS ->
       exists v, extension fib !! fmt_pct1 ratio = Some v /\
                 v = (fib_high fib + (fib_high fib - fib_low fib) * (ratio - 1))%Q /\
                 (fib_high fib <= v)%Q).
Proof.
  intros Hdata Hne Hwf. unfold calculate_fibonacci_levels.
  rewrite Hdata, Hne. eexists _, _. split; [reflexivity|].
  cbn [fib_high fib_low retracement extension fibonacci_levels].
  split; [reflexivity|]. split; [reflexivity|]. split; [reflexivity|].
  assert (list_min_Q (map Low (rows df)) <= list_max_Q (map High (rows df)))%Q as Hlh.
  { apply low_le_high; [apply df_empty_false, Hne | exact Hwf]. }
  set (high := list_max_Q (map High (rows df))) in *.
  set (low := list_min_Q (map Low (rows df))) in *.
  split.
  - intros ratio Hin. eexists. split.
    + apply (assign_all_lookup fmt_pct1
               (fun level => (high - (high - low) * level)%Q)
               FIBONACCI_LEVELS ∅ ratio fibonacci_keys_distinct Hin).
    + split; [reflexivity|].
      simpl in Hin.
      repeat (destruct Hin as [<-|Hin]; [split; [lra | intros H; lra]|]).
      destruct Hin.
  - intros ratio Hin. eexists. split.
    + apply (assign_all_lookup fmt_pct1
               (fun level => (high + (high - low) * (level - 1))%Q)
               EXTENSION_LEVELS ∅ ratio extension_keys_distinct Hin).
    + split; [reflexivity|].
      simpl in Hin.
      repeat (destruct Hin as [<-|Hin]; [lra|]).
      destruct Hin.
Qed.

Lemma calculate_fibonacci_levels_levels_witness :
  exists fib self',
    calculate_fibonacci_levels fib_self = (Some fib, self') /\
    fibonacci_levels self' = Some fib /\
    fib_high fib = list_max_Q (map High (rows fib_frame)) /\
    fib_low fib = list_min_Q (map Low (rows fib_frame)) /\
    (forall ratio, In ratio FIBONACCI_LEVELS ->
       exists v, retracement fib !! fmt_pct1 ratio = Some v /\
                 v = (fib_high fib - (fib_high fib - fib_low fib) * ratio)%Q /\
                 (v <= fib_high fib)%Q /\
                 ((1 < ratio)%Q -> (v <= fib_low fib)%Q)) /\
    (forall ratio, In ratio EXTENSION_LEVELS ->
       exists v, extension fib !! fmt_pct1 ratio = Some v /\
                 v = (fib_high fib + (fib_high fib - fib_low fib) * (ratio - 1))%Q /\
                 (fib_high fib <= v)%Q).
Proof.
  apply (calculate_fibonacci_levels_levels fib_self fib_frame).
  - reflexivity.
  - reflexivity.
  - repeat constructor. simpl. lra.
Defined.

(** ** Empty input *)

(** C8. When the series is absent or empty, calculate_all_indicators,
    calculate_fibonacci_levels and identify_support_resistance return
    None and leave the object as it is; calculate_all_indicators does so
    without calling the indicator library, whatever that would raise. *)
Theorem empty_series_returns_None
    (run_indicators : bool -> DataFrame -> Indicators -> result (DataFrame * Indicators))
    (self : TechnicalAnalysis) (include_vwap : bool) (window num_levels : Z) :
  no_data self = true ->
  calculate_all_indicators run_indicators self include_vwap = Ok (None, self) /\
  calculate_fibonacci_levels self = (None, self) /\
  identify_support_resistance self window num_levels = (None, self).
Proof.
  unfold no_data, calculate_all_indicators, calculate_fibonacci_levels,
    identify_support_resistance.
  destruct (data self) as [df|]; [intros ->|intros _]; repeat split.
Qed.

Lemma empty_series_returns_None_witness :
  (calculate_all_indicators failing_library absent_self true = Ok (None, absent_self) /\
   calculate_fibonacci_levels absent_self = (None, absent_self) /\
   identify_support_resistance absent_self 20 5 = (None, absent_self)) /\
  (calculate_all_indicators failing_library empty_self false = Ok (None, empty_self) /\
   calculate_fibonacci_levels empty_self = (None, empty_self) /\
   identify_support_resistance empty_self 20 5 = (None, empty_self)).
Proof.
  split.
  - apply (empty_series_returns_None failing_library absent_self true 20 5). reflexivity.
  - apply (empty_series_returns_None failing_library empty_self false 20 5). reflexivity.
Defined.

(** ** ScoreAggregator: trend strength *)

Lemma bump_balanced (ds dw : Q) (rs : list Reason) (s : Score) :
  (- dw <= ds)%Q -> (ds <= dw)%Q -> balanced s -> balanced (bump ds dw rs s).
Proof.
  unfold balanced, bump. simpl. intros H1 H2 [H3 H4]. split; lra.
Qed.

Ltac balanced_cases :=
  repeat match goal with
    | |- balanced (match ?x with _ => _ end) => destruct x
    | |- balanced (if ?b then _ else _) => destruct b
    end;
  try assumption;
  try (apply bump_balanced; [lra | lra | assumption]).

Lemma rsi_score_balanced ind s : balanced s -> balanced (rsi_score ind s).
Proof. intros H. unfold rsi_score. balanced_cases. Qed.

Lemma macd_score_balanced ind s : balanced s -> balanced (macd_score ind s).
Proof. intros H. unfold macd_score. balanced_cases. Qed.

Lemma adx_score_balanced ind s : balanced s -> balanced (adx_score ind s).
Proof. intros H. unfold adx_score. balanced_cases. Qed.

Lemma bollinger_score_balanced ind s : balanced s -> balanced (bollinger_score ind s).
Proof. intros H. unfold bollinger_score. balanced_cases. Qed.

Lemma ma_step_bounds df price t period :
  (- ma_weight t <= ma_score t <= ma_weight t)%Q ->
  (- ma_weight (ma_step df price t period) <= ma_score (ma_step df price t period)
   <= ma_weight (ma_step df price t period))%Q.
Proof.
  intros H. unfold ma_step.
  destruct (col_last df (ema_column period)) as [v|]; [|exact H].
  destruct (notna v); [|exact H].
  destruct (fl_gtb (Fin price) v); simpl; lra.
Qed.

Lemma ma_tally_bounds df :
  (- ma_weight (ma_tally df) <= ma_score (ma_tally df) <= ma_weight (ma_tally df))%Q.
Proof.
  unfold ma_tally.
  generalize [9%N; 21%N; 50%N; 200%N].
  assert (- ma_weight (mkMaTally 0 0 0 0) <= ma_score (mkMaTally 0 0 0 0)
          <= ma_weight (mkMaTally 0 0 0 0))%Q as H by (simpl; lra).
  revert H. generalize (mkMaTally 0 0 0 0).
  intros t H l. revert t H.
  induction l as [|p l IH]; intros t H; simpl; [exact H|].
  apply IH, ma_step_bounds, H.
Qed.

Lemma ma_score_step_balanced d s : balanced s -> balanced (ma_score_step d s).
Proof.
  intros H. unfold ma_score_step.
  destruct d as [df|]; [|exact H].
  destruct (df_empty df); [exact H|].
  destruct (Qltb 0 (ma_weight (ma_tally df))); [|exact H].
  destruct (ma_tally_bounds df). apply bump_balanced; assumption.
Qed.

Lemma obv_score_balanced ind d s s' :
  balanced s -> obv_score ind d s = Ok s' -> balanced s'.
Proof.
  intros H. unfold obv_score.
  repeat match goal with
    | |- (match ?x with _ => _ end) = _ -> _ => destruct x
    | |- (if ?b then _ else _) = _ -> _ => destruct b
    end;
  intros E; inversion E; subst; try assumption;
  apply bump_balanced; (lra || assumption).
Qed.

Lemma accumulate_trend_balanced self s : accumulate_trend self = Ok s -> balanced s.
Proof.
  unfold accumulate_trend. apply obv_score_balanced.
  apply bollinger_score_balanced, ma_score_step_balanced, adx_score_balanced,
    macd_score_balanced, rsi_score_balanced.
  unfold balanced. simpl. lra.
Qed.

Lemma Qclamp_bounds (lo hi x : Q) :
  (lo <= hi)%Q -> (lo <= Qclamp lo hi x)%Q /\ (Qclamp lo hi x <= hi)%Q.
Proof.
  intros H. unfold Qclamp. split.
  - apply Q.min_glb; [exact H | apply Q.le_max_l].
  - apply Q.le_min_l.
Qed.

Lemma Qclamp_inside (lo hi x : Q) :
  (lo <= x)%Q -> (x <= hi)%Q -> (Qclamp lo hi x == x)%Q.
Proof.
  intros H1 H2. unfold Qclamp.
  rewrite (Q.max_r lo x) by exact H1. apply Q.min_r. exact H2.
Qed.

(** A ratio of a value to a bound of its magnitude is in [-1, 1]. *)
Lemma ratio_bounds (a w : Q) :
  (0 < w)%Q -> (- w <= a)%Q -> (a <= w)%Q -> (-1 <= a / w)%Q /\ (a / w <= 1)%Q.
Proof.
  intros Hw H1 H2. split.
  - apply Qle_shift_div_l; [exact Hw | lra].
  - apply Qle_shift_div_r; [exact Hw | lra].
Qed.

Lemma normalize_bounds (s : Score) :
  balanced s -> (-50 <= normalize s)%Q /\ (normalize s <= 50)%Q.
Proof.
  intros [H1 H2]. unfold normalize.
  destruct (Qltb 0 (total_weight s)) eqn:Hw; [|lra].
  apply Qltb_lt in Hw.
  destruct (ratio_bounds _ _ Hw H1 H2) as [H3 H4].
  rewrite Qclamp_inside; lra.
Qed.

(** C5. calculate_trend_strength returns 0 (and the text for missing
    indicators) when no indicator is available; otherwise the total
    weight accumulated by the indicator blocks is never negative, and
    the function returns the normalized score
    (trend_score / total_weight) * 50 clamped to [-100, 100] when the
    weight is positive and exactly 0 when the weight is zero.  (The
    function raises only when the volume block reads a frame without
    rows.) *)
Theorem calculate_trend_strength_normalized (self : TechnicalAnalysis) :
  (indicators_empty (indicators self) = true /\
   calculate_trend_strength self = Ok (0%Q, NoIndicators))
  \/
  (indicators_empty (indicators self) = false /\
   match accumulate_trend self with
   | Raise e => calculate_trend_strength self = Raise e
   | Ok s =>
       ((0 < total_weight s)%Q /\
        calculate_trend_strength self
        = Ok (Qclamp (-100) 100 (trend_score s / total_weight s * 50), reasoning_of s) /\
        (-100 <= Qclamp (-100) 100 (trend_score s / total_weight s * 50))%Q /\
        (Qclamp (-100) 100 (trend_score s / total_weight s * 50) <= 100)%Q)
       \/
       ((total_weight s == 0)%Q /\
        calculate_trend_strength self = Ok (0%Q, reasoning_of s))
   end).
Proof.
  unfold calculate_trend_strength.
  destruct (indicators_empty (indicators self)); [left; split; reflexivity|].
  right. split; [reflexivity|].
  destruct (accumulate_trend self) as [s|e] eqn:Hacc; [|reflexivity].
  apply accumulate_trend_balanced in Hacc. destruct Hacc as [H1 H2].
  unfold normalize.
  destruct (Qltb 0 (total_weight s)) eqn:Hw.
  - left. apply Qltb_lt in Hw. split; [exact Hw|]. split; [reflexivity|].
    apply Qclamp_bounds. lra.
  - right. apply Qltb_ge in Hw. split; [lra | reflexivity].
Qed.

Example calculate_trend_strength_scored :
  accumulate_trend scored_self
  = Ok (mkScore (0 + 2 + 1.5 + 2 + (0 + 1 + 1 + 1) + 0 + 0)
                (0 + 2 + 1.5 + 2 + (0 + 1 + 1 + 1) + 0.5 + 1)
                [RsiOverbought (Fin 72); MacdPositive (Fin 0.5); AdxBullish;
                 EmaCount 3 0]) /\
  exists score, calculate_trend_strength scored_self
                = Ok (score, Joined [RsiOverbought (Fin 72); MacdPositive (Fin 0.5);
                                     AdxBullish; EmaCount 3 0]) /\
                (score == 42.5)%Q.
Proof.
  split; [reflexivity|]. eexists. split; [reflexivity|]. vm_compute. reflexivity.
Qed.

Example calculate_trend_strength_no_indicators :
  calculate_trend_strength sr_self = Ok (0%Q, NoIndicators).
Proof. reflexivity. Qed.

(** The RSI block on a value that Python takes for true: the four bands
    of the specification. *)
Lemma rsi_score_bands (ind : Indicators) (rsi : Q) (s : Score) :
  get_scalar (ind_RSI ind) = Some (Fin rsi) ->
  ~ (rsi == 0)%Q ->
  ((70 < rsi)%Q -> rsi_score ind s = bump 2 2 [RsiOverbought (Fin rsi)] s) /\
  ((50 < rsi)%Q -> (rsi <= 70)%Q -> rsi_score ind s = bump 1 1 [RsiBullish (Fin rsi)] s) /\
  ((rsi < 30)%Q -> rsi_score ind s = bump (-2) 2 [RsiOversold (Fin rsi)] s) /\
  ((30 <= rsi)%Q -> (rsi <= 50)%Q ->
   rsi_score ind s = bump (-1) 1 [RsiBearish (Fin rsi)] s).
Proof.
  intros Hget Hnz. unfold rsi_score. rewrite Hget. simpl.
  destruct (Qeq_bool rsi 0) eqn:Hz; [apply Qeq_bool_iff in Hz; contradiction|].
  simpl. unfold fl_gtb, fl_ltb.
  destruct (Qltb 70 rsi) eqn:H70; [apply Qltb_lt in H70 | apply Qltb_ge in H70];
  destruct (Qltb 50 rsi) eqn:H50; [apply Qltb_lt in H50 | apply Qltb_ge in H50
                                 | apply Qltb_lt in H50 | apply Qltb_ge in H50];
  destruct (Qltb rsi 30) eqn:H30; [apply Qltb_lt in H30 | apply Qltb_ge in H30
                                 | apply Qltb_lt in H30 | apply Qltb_ge in H30
                                 | apply Qltb_lt in H30 | apply Qltb_ge in H30
                                 | apply Qltb_lt in H30 | apply Qltb_ge in H30];
  repeat split; intros; try reflexivity; lra.
Qed.

(** C6 at an RSI of 0: the value is below 30, so the specification asks for a
    contribution of -2 with weight 2 (as an RSI of 25 gets), but the
    block is guarded by the truth value of the RSI and 0 is false: the
    score and the weight stay as they are, and the function returns 0
    without any reason. *)
Theorem rsi_zero_contributes_nothing :
  get_scalar (ind_RSI (indicators rsi_zero_self)) = Some (Fin 0) /\
  (0 < 30)%Q /\
  rsi_score (indicators rsi_zero_self) (mkScore 0 0 []) = mkScore 0 0 [] /\
  accumulate_trend rsi_zero_self = Ok (mkScore 0 0 []) /\
  calculate_trend_strength rsi_zero_self = Ok (0%Q, NoClearSignals) /\
  rsi_score (indicators rsi_low_self) (mkScore 0 0 [])
  = bump (-2) 2 [RsiOversold (Fin 25)] (mkScore 0 0 []).
Proof. repeat split. Qed.

(** ** ScoreAggregator: probabilities *)

Ltac votes_cases :=
  repeat match goal with
    | |- context [match ?x with _ => _ end] => destruct x
    | |- context [if ?b then _ else _] => destruct b
    end.

Ltac votes_arith :=
  unfold votes_wf, cast_votes, vote_band, counted, vote_bullish, vote_bearish,
    vote_neutral in *;
  votes_cases; simpl in *; lia.

Lemma keeps_votes_compose f g : keeps_votes f -> keeps_votes g -> keeps_votes (fun v => g (f v)).
Proof.
  intros Hf Hg v. destruct (Hf v) as [Hf1 Hf2]. destruct (Hg (f v)) as [Hg1 Hg2].
  split; [auto | lia].
Qed.

Lemma rsi_vote_keeps ind : keeps_votes (rsi_vote ind).
Proof. intros v. unfold rsi_vote. split; [intros H|]; votes_arith. Qed.

Lemma macd_vote_keeps ind : keeps_votes (macd_vote ind).
Proof. intros v. unfold macd_vote. split; [intros H|]; votes_arith. Qed.

Lemma stochastic_vote_keeps ind : keeps_votes (stochastic_vote ind).
Proof. intros v. unfold stochastic_vote. split; [intros H|]; votes_arith. Qed.

Lemma bollinger_vote_keeps ind : keeps_votes (bollinger_vote ind).
Proof. intros v. unfold bollinger_vote. split; [intros H|]; votes_arith. Qed.

Lemma mfi_vote_keeps ind : keeps_votes (mfi_vote ind).
Proof. intros v. unfold mfi_vote. split; [intros H|]; votes_arith. Qed.

Lemma ma_vote_keeps df price ma : keeps_votes (fun v => ma_vote df price v ma).
Proof. intros v. unfold ma_vote. split; [intros H|]; votes_arith. Qed.

Lemma obv_vote_keeps df : keeps_votes (obv_vote df).
Proof.
  intros v. unfold obv_vote.
  destruct (columns df !! "OBV") as [col|]; [|split; [tauto | lia]].
  generalize (if fl_neqb (mean_last20 (df_len df) col) (Fin 0)
              then fl_mul (fl_div (fl_sub (col (df_len df - 1)%nat)
                                          (mean_last20 (df_len df) col))
                                  (mean_last20 (df_len df) col)) (Fin 100)
              else Fin 0).
  intros x. split; [intros H|]; votes_arith.
Qed.

Lemma adx_vote_keeps ind : keeps_votes (adx_vote ind).
Proof. intros v. unfold adx_vote. split; [intros H|]; votes_arith. Qed.

Lemma tally_keeps ind df : keeps_votes (fun v =>
  adx_vote ind
    (obv_vote df
       (fold_left (ma_vote df (iloc_last (rows df) Close)) ["EMA_50"; "EMA_200"]
          (mfi_vote ind
             (bollinger_vote ind
                (stochastic_vote ind (macd_vote ind (rsi_vote ind v)))))))).
Proof.
  simpl.
  repeat first
    [ apply (keeps_votes_compose _ (adx_vote ind)); [|apply adx_vote_keeps]
    | apply (keeps_votes_compose _ (obv_vote df)); [|apply obv_vote_keeps]
    | apply (keeps_votes_compose _ (fun v => ma_vote df _ v _)); [|apply ma_vote_keeps]
    | apply (keeps_votes_compose _ (mfi_vote ind)); [|apply mfi_vote_keeps]
    | apply (keeps_votes_compose _ (bollinger_vote ind)); [|apply bollinger_vote_keeps]
    | apply (keeps_votes_compose _ (stochastic_vote ind)); [|apply stochastic_vote_keeps]
    | apply (keeps_votes_compose _ (macd_vote ind)); [|apply macd_vote_keeps] ].
  apply rsi_vote_keeps.
Qed.

Lemma tally_wf ind df : votes_wf (tally ind df).
Proof.
  apply (tally_keeps ind df (mkVotes 0 0 0 0)).
  unfold votes_wf, cast_votes. simpl. lia.
Qed.

(** On a frame with the OBV column, as calculate_all_indicators leaves
    it, the volume block always casts a vote. *)
Lemma obv_column_casts ind df col :
  columns df !! "OBV" = Some col -> 0 < cast_votes (tally ind df).
Proof.
  intros Hcol. unfold tally.
  set (v0 := fold_left _ _ _).
  assert (0 <= cast_votes v0) as H0.
  { assert (votes_wf v0) as Hwf.
    { subst v0. simpl.
      apply ma_vote_keeps, ma_vote_keeps, mfi_vote_keeps, bollinger_vote_keeps,
        stochastic_vote_keeps, macd_vote_keeps, rsi_vote_keeps.
      unfold votes_wf, cast_votes. simpl. lia. }
    unfold votes_wf, cast_votes in *. lia. }
  assert (cast_votes v0 < cast_votes (obv_vote df v0)) as H1.
  { unfold obv_vote. rewrite Hcol.
    generalize (if fl_neqb (mean_last20 (df_len df) col) (Fin 0)
                then fl_mul (fl_div (fl_sub (col (df_len df - 1)%nat)
                                            (mean_last20 (df_len df) col))
                                    (mean_last20 (df_len df) col)) (Fin 100)
                else Fin 0).
    intros x. votes_arith. }
  pose proof (adx_vote_keeps ind (obv_vote df v0)) as [_ H2]. lia.
Qed.

Lemma round_half_even_close (q : Q) :
  (- (1 # 2) <= inject_Z (round_half_even q) - q)%Q /\
  (inject_Z (round_half_even q) - q <= 1 # 2)%Q.
Proof.
  unfold round_half_even.
  pose proof (Qfloor_le q) as Hlo. pose proof (Qlt_floor q) as Hhi.
  rewrite inject_Z_plus in Hhi. change (inject_Z 1) with 1%Q in Hhi.
  destruct (Qltb (q - inject_Z (Qfloor q)) (1 # 2)) eqn:H1;
    [apply Qltb_lt in H1; split; lra | apply Qltb_ge in H1].
  destruct (Qltb (1 # 2) (q - inject_Z (Qfloor q))) eqn:H2;
    [apply Qltb_lt in H2 | apply Qltb_ge in H2].
  - rewrite inject_Z_plus. change (inject_Z 1) with 1%Q. split; lra.
  - destruct (Z.even (Qfloor q));
      [|rewrite inject_Z_plus; change (inject_Z 1) with 1%Q]; split; lra.
Qed.

(** Three values that add up to 100 still add up to 100 within 0.01
    after each was rounded to two decimals. *)
Lemma round2_sum (x y z : Q) :
  (x + y + z == 100)%Q ->
  (99.99 <= round2 x + round2 y + round2 z)%Q /\
  (round2 x + round2 y + round2 z <= 100.01)%Q.
Proof.
  intros Hsum. unfold round2.
  destruct (round_half_even_close (x * 100)) as [Hx1 Hx2].
  destruct (round_half_even_close (y * 100)) as [Hy1 Hy2].
  destruct (round_half_even_close (z * 100)) as [Hz1 Hz2].
  generalize dependent (round_half_even (x * 100)). intros a Ha1 Ha2.
  generalize dependent (round_half_even (y * 100)). intros b Hb1 Hb2.
  generalize dependent (round_half_even (z * 100)). intros c Hc1 Hc2.
  assert (inject_Z 9998 < inject_Z (a + b + c))%Q as Hlo.
  { rewrite !inject_Z_plus. change (inject_Z 9998) with (9998 # 1)%Q. lra. }
  assert (inject_Z (a + b + c) < inject_Z 10002)%Q as Hhi.
  { rewrite !inject_Z_plus. change (inject_Z 10002) with (10002 # 1)%Q. lra. }
  rewrite <- Zlt_Qlt in Hlo, Hhi.
  assert (9999 <= a + b + c) as Hint1 by lia.
  assert (a + b + c <= 10001) as Hint2 by lia.
  rewrite Zle_Qle in Hint1, Hint2. rewrite !inject_Z_plus in Hint1, Hint2.
  change (inject_Z 9999) with (9999 # 1)%Q in Hint1.
  change (inject_Z 10001) with (10001 # 1)%Q in Hint2.
  assert (inject_Z a / 100 + inject_Z b / 100 + inject_Z c / 100
          == (inject_Z a + inject_Z b + inject_Z c) * (1 # 100))%Q as E by field.
  rewrite E. split; lra.
Qed.

Lemma shares_sum (v : Votes) (x y z : Q) :
  shares v = Ok (x, y, z) -> (x + y + z == 100)%Q.
Proof.
  unfold shares. destruct (0 <? total_signals v) eqn:Ht.
  - set (bp := (inject_Z (bullish_signals v) / inject_Z (total_signals v) * 100)%Q).
    set (ep := (inject_Z (bearish_signals v) / inject_Z (total_signals v) * 100)%Q).
    set (np := (inject_Z (neutral_signals v) / inject_Z (total_signals v) * 100)%Q).
    destruct (Qeq_bool (bp + ep + np) 100) eqn:H100; simpl.
    + intros E. inversion E; subst. apply Qeq_bool_iff, H100.
    + destruct (Qeq_bool (bp + ep + np) 0) eqn:H0; [discriminate|].
      apply Qeq_bool_neq in H0.
      intros E. inversion E; subst. field. exact H0.
  - intros E. inversion E; subst. reflexivity.
Qed.

Lemma shares_returns (v : Votes) :
  total_signals v <= 0 \/ 0 < cast_votes v ->
  exists x y z, shares v = Ok (x, y, z).
Proof.
  intros H. unfold shares. destruct (0 <? total_signals v) eqn:Ht.
  - apply Z.ltb_lt in Ht. destruct H as [H|H]; [lia|].
    set (bp := (inject_Z (bullish_signals v) / inject_Z (total_signals v) * 100)%Q).
    set (ep := (inject_Z (bearish_signals v) / inject_Z (total_signals v) * 100)%Q).
    set (np := (inject_Z (neutral_signals v) / inject_Z (total_signals v) * 100)%Q).
    destruct (Qeq_bool (bp + ep + np) 100); simpl; [eauto|].
    destruct (Qeq_bool (bp + ep + np) 0) eqn:H0; [|eauto].
    exfalso. apply Qeq_bool_iff in H0.
    assert (0 < inject_Z (total_signals v))%Q as Htq.
    { rewrite <- (Zlt_Qlt 0). exact Ht. }
    assert (0 < inject_Z (cast_votes v))%Q as Hcq.
    { rewrite <- (Zlt_Qlt 0). exact H. }
    assert (bp + ep + np == inject_Z (cast_votes v) / inject_Z (total_signals v) * 100)%Q
      as E.
    { unfold bp, ep, np, cast_votes. rewrite !inject_Z_plus. field. lra. }
    rewrite E in H0.
    assert (0 < inject_Z (cast_votes v) / inject_Z (total_signals v))%Q as Hpos.
    { apply Qlt_shift_div_l; [exact Htq | lra]. }
    lra.
  - eauto.
Qed.

Example calculate_probabilities_scored :
  calculate_probabilities scored_self
  = Ok (Some (mkProbabilities 71.43 0.00 28.57 (mkVotes 5 0 2 7))).
Proof. vm_compute. reflexivity. Qed.

(** C2, as stated, fails: without indicators (or without rows) the
    function returns None, not probabilities. *)
Lemma calculate_probabilities_not_total :
  ~ (forall self : TechnicalAnalysis,
       exists p, calculate_probabilities self = Ok (Some p) /\
                 (99.99 <= bullish_probability p + bearish_probability p
                           + neutral_probability p)%Q /\
                 (bullish_probability p + bearish_probability p
                  + neutral_probability p <= 100.01)%Q) /\
  calculate_probabilities sr_self = Ok None /\
  calculate_probabilities empty_self = Ok None.
Proof.
  split; [|split; reflexivity].
  intros H. destruct (H sr_self) as [p [Hp _]]. discriminate Hp.
Qed.

(** The tally counts a signal for a MACD histogram of 0 without casting
    a vote; when nothing else votes, the shares are 0.0 / 0.0. *)
Example calculate_probabilities_macd_flat :
  tally (indicators macd_flat_self) sr_frame = mkVotes 0 0 0 1 /\
  calculate_probabilities macd_flat_self = Raise ZeroDivisionError.
Proof. split; reflexivity. Qed.

(** With the OBV column in the frame, as after calculate_all_indicators,
    a vote is always cast and the probabilities are returned. *)
Lemma calculate_probabilities_after_indicators
    (self : TechnicalAnalysis) (df : DataFrame) (col : nat -> fl) :
  data self = Some df ->
  df_empty df = false ->
  indicators_empty (indicators self) = false ->
  columns df !! "OBV" = Some col ->
  exists p,
    calculate_probabilities self = Ok (Some p) /\
    (99.99 <= bullish_probability p + bearish_probability p + neutral_probability p)%Q /\
    (bullish_probability p + bearish_probability p + neutral_probability p <= 100.01)%Q.
Proof.
  intros Hdata Hne Hind Hcol. unfold calculate_probabilities.
  rewrite Hdata, Hne, Hind. simpl.
  destruct (shares_returns (tally (indicators self) df)) as (x & y & z & Hs).
  { right. eapply obv_column_casts, Hcol. }
  rewrite Hs. eexists. split; [reflexivity|]. simpl.
  apply round2_sum. eapply shares_sum, Hs.
Qed.

(** C2, amended. For every series and indicator state that are not
    empty, and in which a vote was cast or no signal was counted,
    calculate_probabilities returns probabilities whose sum is 100 within
    0.01, next to the counters of the tally. *)
Theorem calculate_probabilities_sum (self : TechnicalAnalysis) (df : DataFrame) :
  data self = Some df ->
  df_empty df = false ->
  indicators_empty (indicators self) = false ->
  total_signals (tally (indicators self) df) <= 0 \/
    0 < cast_votes (tally (indicators self) df) ->
  exists p,
    calculate_probabilities self = Ok (Some p) /\
    votes p = tally (indicators self) df /\
    (99.99 <= bullish_probability p + bearish_probability p + neutral_probability p)%Q /\
    (bullish_probability p + bearish_probability p + neutral_probability p <= 100.01)%Q.
Proof.
  intros Hdata Hne Hind Hcast. unfold calculate_probabilities.
  rewrite Hdata, Hne, Hind. simpl.
  destruct (shares_returns _ Hcast) as (x & y & z & Hs).
  rewrite Hs. eexists. split; [reflexivity|]. simpl.
  split; [reflexivity|].
  apply round2_sum. eapply shares_sum, Hs.
Qed.

Lemma calculate_probabilities_sum_witness :
  exists p,
    calculate_probabilities scored_self = Ok (Some p) /\
    votes p = tally (indicators scored_self) scored_frame /\
    (99.99 <= bullish_probability p + bearish_probability p + neutral_probability p)%Q /\
    (bullish_probability p + bearish_probability p + neutral_probability p <= 100.01)%Q.
Proof.
  apply (calculate_probabilities_sum scored_self scored_frame).
  - reflexivity.
  - reflexivity.
  - reflexivity.
  - right. vm_compute. reflexivity.
Defined.

(** ** ScoreAggregator: sentiment *)

Lemma calculate_trend_strength_range (self : TechnicalAnalysis) (x : Q) (text : Reasoning) :
  calculate_trend_strength self = Ok (x, text) -> (-50 <= x)%Q /\ (x <= 50)%Q.
Proof.
  unfold calculate_trend_strength.
  destruct (indicators_empty (indicators self)).
  - intros E. inversion E; subst. split; lra.
  - destruct (accumulate_trend self) as [s|e] eqn:Hacc; [|discriminate].
    intros E. inversion E; subst.
    apply normalize_bounds. eapply accumulate_trend_balanced, Hacc.
Qed.

Lemma calculate_probabilities_votes (self : TechnicalAnalysis) (p : Probabilities) :
  calculate_probabilities self = Ok (Some p) -> votes_wf (votes p).
Proof.
  unfold calculate_probabilities.
  destruct (data self) as [df|]; [|discriminate].
  destruct (df_empty df || indicators_empty (indicators self)); [discriminate|].
  destruct (shares (tally (indicators self) df)) as [[[x y] z]|e]; [|discriminate].
  intros E. inversion E; subst. simpl. apply tally_wf.
Qed.

(** The adjustment by the distribution of the signals is at most 20. *)
Lemma signal_bias_bounds (v : Votes) :
  votes_wf v -> 0 < total_signals v ->
  (-20 <= inject_Z (bullish_signals v - bearish_signals v)
          / inject_Z (total_signals v) * 20)%Q /\
  (inject_Z (bullish_signals v - bearish_signals v)
   / inject_Z (total_signals v) * 20 <= 20)%Q.
Proof.
  intros (Hb & He & Hn & Hc) Ht. unfold cast_votes in Hc.
  assert (0 < inject_Z (total_signals v))%Q as Htq.
  { rewrite <- (Zlt_Qlt 0). exact Ht. }
  assert (- inject_Z (total_signals v)
          <= inject_Z (bullish_signals v - bearish_signals v))%Q as H1.
  { rewrite <- inject_Z_opp, <- Zle_Qle. lia. }
  assert (inject_Z (bullish_signals v - bearish_signals v)
          <= inject_Z (total_signals v))%Q as H2.
  { rewrite <- Zle_Qle. lia. }
  destruct (ratio_bounds _ _ Htq H1 H2) as [H3 H4].
  split; lra.
Qed.

Lemma sentiment_strength_range (self : TechnicalAnalysis) (r : Sentiment) :
  get_market_sentiment self = Ok r ->
  (-70 <= trend_strength r)%Q /\ (trend_strength r <= 70)%Q.
Proof.
  unfold get_market_sentiment.
  destruct (calculate_trend_strength self) as [[x text]|e] eqn:Hts; [|discriminate].
  destruct (calculate_probabilities self) as [[p|]|e] eqn:Hp; try discriminate.
  apply calculate_trend_strength_range in Hts. destruct Hts as [Hlo Hhi].
  apply calculate_probabilities_votes in Hp.
  destruct (0 <? total_signals (votes p)) eqn:Ht.
  - apply Z.ltb_lt in Ht.
    destruct (signal_bias_bounds _ Hp Ht) as [Hb1 Hb2].
    destruct (classify _ _ _) as [label main].
    intros E. inversion E; subst. simpl. split; lra.
  - destruct (classify _ _ _) as [label main].
    intros E. inversion E; subst. simpl. split; lra.
Qed.

Lemma obv_score_returns (ind : Indicators) (df : DataFrame) (s : Score) :
  df_empty df = false -> exists s', obv_score ind (Some df) s = Ok s'.
Proof.
  intros Hne. unfold obv_score. rewrite Hne.
  destruct (truthy (get_scalar (ind_OBV ind))); [|eauto].
  destruct (columns df !! "OBV") as [col|]; [|eauto].
  repeat match goal with
    | |- context [if ?b then _ else _] => destruct b
    end; eauto.
Qed.

(** get_market_sentiment returns whenever calculate_probabilities
    returns probabilities. *)
Lemma get_market_sentiment_returns (self : TechnicalAnalysis) (p : Probabilities) :
  calculate_probabilities self = Ok (Some p) ->
  exists r, get_market_sentiment self = Ok r /\
            (0 < total_signals (votes p) ->
             exists x text, calculate_trend_strength self = Ok (x, text) /\
               trend_strength r
               = (x + inject_Z (bullish_signals (votes p) - bearish_signals (votes p))
                      / inject_Z (total_signals (votes p)) * 20)%Q).
Proof.
  intros Hp. unfold get_market_sentiment. rewrite Hp.
  assert (exists x text, calculate_trend_strength self = Ok (x, text)) as (x & text & Hts).
  { unfold calculate_probabilities in Hp. unfold calculate_trend_strength.
    destruct (data self) as [df|] eqn:Hdata; [|discriminate].
    destruct (df_empty df) eqn:Hne; [discriminate|]. simpl in Hp.
    destruct (indicators_empty (indicators self)); [discriminate|].
    unfold accumulate_trend. rewrite Hdata.
    edestruct obv_score_returns as [s' Hs']; [exact Hne|].
    rewrite Hs'. eauto. }
  rewrite Hts.
  destruct (0 <? total_signals (votes p)) eqn:Ht.
  - destruct (classify _ _ _) as [label main]. eexists. split; [reflexivity|].
    intros _. exists x, text. split; reflexivity.
  - destruct (classify _ _ _) as [label main]. eexists. split; [reflexivity|].
    apply Z.ltb_ge in Ht. lia.
Qed.

Example get_market_sentiment_scored :
  get_market_sentiment scored_self = Ok scored_sentiment /\
  (trend_strength scored_sentiment == 42.5 + (5 # 7) * 20)%Q.
Proof. split; vm_compute; reflexivity. Qed.

(** Without indicators the function does not return: it reads counters
    that were never assigned. *)
Example get_market_sentiment_no_indicators :
  get_market_sentiment sr_self = Raise UnboundLocalError.
Proof. reflexivity. Qed.

(** C3. The trend strength that get_market_sentiment returns, the
    normalized score plus the adjustment by the distribution of the
    signals, lies in [-100, 100]. *)
Theorem get_market_sentiment_strength_range (self : TechnicalAnalysis) (r : Sentiment) :
  get_market_sentiment self = Ok r ->
  (-100 <= trend_strength r)%Q /\ (trend_strength r <= 100)%Q.
Proof.
  intros H. apply sentiment_strength_range in H. destruct H. split; lra.
Qed.

Lemma get_market_sentiment_strength_range_witness :
  get_market_sentiment scored_self = Ok scored_sentiment /\
  (-100 <= trend_strength scored_sentiment)%Q /\
  (trend_strength scored_sentiment <= 100)%Q.
Proof.
  split; [vm_compute; reflexivity|].
  apply (get_market_sentiment_strength_range scored_self).
  vm_compute. reflexivity.
Defined.

(** ** PatternRecognizer: the order of the hit list *)

Lemma fold_scan_flat_map (body : nat -> list Pattern -> list Pattern) (l : list nat) :
  (forall i ps, body i ps = ps ++ body i []) ->
  forall ps, fold_left (fun ps i => body i ps) l ps
             = ps ++ flat_map (fun i => body i []) l.
Proof.
  intros Happ. induction l as [|i l IH]; intros ps; simpl.
  - rewrite app_nil_r. reflexivity.
  - rewrite IH, (Happ i ps), <- app_assoc. reflexivity.
Qed.

Lemma flat_map_hits_sorted (names : list string) (f : nat -> list Pattern) (l : list nat) :
  (forall i, hit_at names i (f i)) ->
  StronglySorted lt l ->
  family_sorted names (flat_map f l) /\
  Forall (fun p => exists i, In i l /\ index p = Z.of_nat i) (flat_map f l).
Proof.
  intros Hhit. induction 1 as [|i l Hs IH Hlt]; simpl.
  - repeat split; constructor.
  - destruct IH as [[IH1 IH2] IH3].
    assert (Forall (fun p => exists j, In j (i :: l) /\ index p = Z.of_nat j)
                   (flat_map f l)) as IH4.
    { eapply Forall_impl; [exact IH3|]. intros p (j & Hj & E). exists j. simpl. tauto. }
    destruct (Hhit i) as [->|(p & -> & Hidx & Hname)]; simpl.
    + repeat split; assumption.
    + repeat split.
      * constructor; [exact IH1|].
        apply List.Forall_forall. intros x Hx.
        apply in_map_iff in Hx. destruct Hx as (q & <- & Hq).
        rewrite List.Forall_forall in IH3. destruct (IH3 q Hq) as (j & Hj & E).
        rewrite Hidx, E. rewrite List.Forall_forall in Hlt. apply Hlt in Hj. lia.
      * constructor; assumption.
      * constructor; [|exact IH4]. exists i. simpl. tauto.
Qed.

Lemma seq_sorted (lo k : nat) : StronglySorted lt (seq lo k).
Proof.
  revert lo. induction k as [|k IH]; intros lo; simpl; constructor.
  - apply IH.
  - rewrite Forall_forall. intros j Hj.
    apply list_elem_of_In, in_seq in Hj. lia.
Qed.

(** A scan whose body appends its hit extends the list by the hits of
    its family in ascending order of the index. *)
Lemma scan_family (r : list Candle) (lo : nat) (names : list string)
    (body : nat -> list Pattern -> list Pattern) :
  appends names body ->
  forall ps, scan r lo body ps = ps ++ scan r lo body [] /\
             family_sorted names (scan r lo body []).
Proof.
  intros Happ ps. unfold scan.
  rewrite !(fold_scan_flat_map body) by (intros; apply Happ).
  split; [reflexivity|]. simpl.
  destruct (flat_map_hits_sorted names (fun i => body i []) (range lo (length r)))
    as [H _]; [intros i; apply (Happ i []) | apply seq_sorted | exact H].
Qed.

Ltac detector_body :=
  let i := fresh "i" in
  let ps := fresh "ps" in
  intros i ps; cbv zeta;
  repeat match goal with
    | |- context [if ?b then _ else _] => destruct b
    end;
  unfold _add_pattern, hit_at; simpl; rewrite ?app_nil_r;
  (split;
   [ reflexivity
   | first [ left; reflexivity
           | right; eexists; split; [reflexivity|]; split; [reflexivity|];
             simpl; tauto ] ]).

Lemma detectors_families (r : list Candle) :
  Forall (fun d => forall ps, fst d ps = ps ++ fst d [] /\
                              family_sorted (snd d) (fst d []))
         (detectors r).
Proof.
  unfold detectors.
  repeat (apply List.Forall_cons;
          [ intros ps; cbn [fst snd];
            match goal with |- ?d r ps = _ /\ _ => unfold d end;
            apply scan_family; detector_body |]).
  apply List.Forall_nil.
Qed.

Lemma run_detectors (ds : list ((list Pattern -> list Pattern) * list string)) :
  Forall (fun d => forall ps, fst d ps = ps ++ fst d []) ds ->
  forall ps, fold_left (fun ps d => fst d ps) ds ps
             = ps ++ concat (map (fun d => fst d []) ds).
Proof.
  induction 1 as [|d ds Hd _ IH]; intros ps; simpl.
  - rewrite app_nil_r. reflexivity.
  - rewrite IH, (Hd ps), <- app_assoc. reflexivity.
Qed.

Example detect_all_patterns_rising :
  map (fun p => (pattern p, index p)) (detect_all_patterns rising_frame)
  = [("Bullish Marubozu", 0); ("Bullish Marubozu", 1); ("Bullish Marubozu", 2);
     ("Bullish Marubozu", 3); ("Bullish Marubozu", 4); ("Bullish Marubozu", 5);
     ("Bullish Marubozu", 6); ("Three White Soldiers", 2);
     ("Three White Soldiers", 3); ("Three White Soldiers", 4);
     ("Three White Soldiers", 5); ("Three White Soldiers", 6)].
Proof. vm_compute. reflexivity. Qed.

(** C10. detect_all_patterns returns the hits family by family, in the
    order in which the detectors are called, and the hits of each family
    in ascending order of the index.  The list as a whole is not in
    order of the index: on seven rising bars the last five elements,
    which get_pattern_statistics returns as recent_patterns, contain the
    hit at index 2 but not a hit at index 6. *)
Theorem detect_all_patterns_order :
  (forall r : list Candle,
     detect_all_patterns r = concat (map (fun d => fst d []) (detectors r)) /\
     Forall (fun d => family_sorted (snd d) (fst d [])) (detectors r)) /\
  (exists stats p q,
     get_pattern_statistics (detect_all_patterns rising_frame) = Some stats /\
     recent_patterns stats = slice_last 5 (detect_all_patterns rising_frame) /\
     In p (recent_patterns stats) /\
     In q (detect_all_patterns rising_frame) /\
     ~ In q (recent_patterns stats) /\
     index p = 2 /\ index q = 6).
Proof.
  split.
  - intros r. pose proof (detectors_families r) as H. split.
    + change (detect_all_patterns r)
        with (fold_left (fun ps d => fst d ps) (detectors r) []).
      apply (run_detectors (detectors r)).
      eapply Forall_impl; [exact H|]. intros d Hd ps. apply Hd.
    + eapply Forall_impl; [exact H|]. intros d Hd. apply (Hd []).
  - exists (mkPatternStatistics 12 12 0 0 12
              (slice_last 5 (detect_all_patterns rising_frame))
              (<["Three White Soldiers" := 5%nat]> (<["Bullish Marubozu" := 7%nat]> ∅))),
           (mkPattern 0 "Three White Soldiers" "Strong Bullish" "Very High"
                      "Sehr starker Aufwärtstrend" 14 2),
           (mkPattern 0 "Bullish Marubozu" "Strong Bullish" "High"
                      "Sehr starkes bullisches Signal, Käufer kontrollieren" 18 6).
    split; [vm_compute; reflexivity|].
    split; [reflexivity|].
    split; [vm_compute; tauto|].
    split; [vm_compute; tauto|].
    split; [|split; reflexivity].
    intros H. vm_compute in H.
    repeat (destruct H as [H|H]; [discriminate H|]). exact H.
Qed.

(** ** Choice of the pattern shown at an index *)

(** The first element of a list sorted by falling key is the first
    element of the list with the largest key. *)
Lemma sorted_desc_head {A : Type} (key : A -> Z) (l : list A) (p : A) (rest : list A) :
  py_sorted (fun y x => key x <? key y) l = p :: rest ->
  exists l1 l2, l = l1 ++ p :: l2 /\
                (forall q, In q l1 -> key q < key p) /\
                (forall q, In q l2 -> key q <= key p).
Proof.
  revert p rest. induction l as [|x l IH]; intros p rest; simpl; [discriminate|].
  destruct (py_sorted (fun y x => key x <? key y) l) as [|p' rest'] eqn:Hs; simpl.
  - intros E. inversion E; subst.
    assert (l = []) as ->.
    { apply (f_equal length) in Hs. rewrite length_py_sorted in Hs.
      destruct l; [reflexivity | discriminate]. }
    exists [], []. repeat split; simpl; tauto.
  - destruct (IH p' rest' eq_refl) as (l1 & l2 & -> & H1 & H2).
    destruct (key x <? key p') eqn:Hk; intros E; inversion E; subst.
    + apply Z.ltb_lt in Hk. exists (x :: l1), l2.
      repeat split; [|exact H2]. intros q [<-|Hq]; auto.
    + apply Z.ltb_ge in Hk. exists [], (l1 ++ p' :: l2).
      repeat split; [simpl; tauto|].
      intros q Hq. apply in_app_or in Hq. destruct Hq as [Hq|[<-|Hq]].
      * specialize (H1 q Hq). lia.
      * lia.
      * specialize (H2 q Hq). lia.
Qed.

Lemma at_index_snoc (idx : Z) (l : list Pattern) (p : Pattern) :
  at_index idx (l ++ [p]) = at_index idx l ++ (if index p =? idx then [p] else []).
Proof.
  unfold at_index. rewrite List.filter_app. simpl.
  destruct (index p =? idx); reflexivity.
Qed.

Lemma group_patterns_lookup (n : Z) (patterns : list Pattern) (idx : Z) :
  group_patterns n patterns !! idx = expected_group n idx patterns.
Proof.
  induction patterns as [|p l IH] using rev_ind.
  - unfold expected_group, group_patterns. simpl. rewrite lookup_empty.
    destruct ((0 <=? idx) && (idx <? n)); reflexivity.
  - unfold group_patterns in *. rewrite fold_left_app. simpl.
    set (groups := fold_left _ l ∅) in *.
    unfold expected_group in *. rewrite at_index_snoc.
    destruct ((0 <=? index p) && (index p <? n)) eqn:Hin.
    + destruct (Z.eq_dec (index p) idx) as [E|E].
      * subst idx. rewrite Hin in *. rewrite Z.eqb_refl, lookup_insert_eq.
        destruct (groups !! index p) as [g|] eqn:Hg.
        -- rewrite Hg. simpl.
           destruct (at_index (index p) l) as [|a g']; [discriminate|].
           inversion IH; subst. reflexivity.
        -- rewrite lookup_insert_eq. simpl.
           destruct (at_index (index p) l) as [|a g']; [reflexivity | discriminate].
      * rewrite lookup_insert_ne by exact E.
        assert ((match groups !! index p with
                 | Some _ => groups
                 | None => <[index p := []]> groups
                 end) !! idx = groups !! idx) as ->.
        { destruct (groups !! index p); [reflexivity|].
          apply lookup_insert_ne. exact E. }
        rewrite IH. apply Z.eqb_neq in E. rewrite E, app_nil_r. reflexivity.
    + rewrite IH.
      destruct ((0 <=? idx) && (idx <? n)) eqn:Hidx; [|reflexivity].
      assert ((index p =? idx) = false) as ->.
      { apply Z.eqb_neq. intros E. subst idx. congruence. }
      rewrite app_nil_r. reflexivity.
Qed.

Example reliability_ranks :
  map (fun rel => default 0 (reliability_order !! rel))
      ["Very High"; "High"; "Medium"; "Low"; "Unknown"]
  = [4; 3; 2; 1; 0].
Proof. vm_compute. reflexivity. Qed.

(** C4. The pattern chosen for an index is one of the patterns detected
    at that index with the highest reliability rank (Very High 4 >
    High 3 > Medium 2 > Low 1), and the first of them in detection
    order: every pattern detected before it at the index has a strictly
    lower rank, every one after it none higher.  In particular, when a
    pattern of reliability High was detected at the index, the chosen
    pattern is not one of reliability Medium. *)
Theorem main_pattern_highest_reliability
    (limit n : Z) (patterns : list Pattern) (idx : Z) (p : Pattern) :
  In (idx, p) (main_patterns limit n patterns) ->
  0 <= idx < n /\
  (exists earlier later,
     at_index idx patterns = earlier ++ p :: later /\
     (forall q, In q earlier -> reliability_rank q < reliability_rank p) /\
     (forall q, In q later -> reliability_rank q <= reliability_rank p)) /\
  (forall q, In q patterns -> index q = idx ->
             reliability_rank q <= reliability_rank p) /\
  (forall q, In q patterns -> index q = idx -> reliability q = "High" ->
             reliability p <> "Medium").
Proof.
  intros Hin. unfold main_patterns in Hin.
  apply list_elem_of_In, list_elem_of_omap in Hin.
  destruct Hin as (idx' & _ & Hf).
  rewrite group_patterns_lookup in Hf. unfold expected_group in Hf.
  destruct ((0 <=? idx') && (idx' <? n)) eqn:Hrange; [|discriminate].
  destruct (at_index idx' patterns) as [|a g] eqn:Hg; [discriminate|].
  destruct (sort_by_reliability (a :: g)) as [|m rest] eqn:Hs; [discriminate|].
  inversion Hf; subst idx' m. clear Hf.
  apply sorted_desc_head in Hs. destruct Hs as (l1 & l2 & E & H1 & H2).
  assert (forall q, In q patterns -> index q = idx ->
                    reliability_rank q <= reliability_rank p) as Hmax.
  { intros q Hq Hidx.
    assert (In q (at_index idx patterns)) as Hq'.
    { unfold at_index. apply filter_In. split; [exact Hq | apply Z.eqb_eq, Hidx]. }
    rewrite Hg, E in Hq'. apply in_app_or in Hq'.
    destruct Hq' as [Hq'|[<-|Hq']]; [specialize (H1 q Hq'); lia | lia | auto]. }
  split; [lia|]. split; [|split; [exact Hmax|]].
  - exists l1, l2. rewrite <- E. repeat split; assumption.
  - intros q Hq Hidx Hhigh Hmed. specialize (Hmax q Hq Hidx).
    unfold reliability_rank in Hmax. rewrite Hhigh, Hmed in Hmax.
    vm_compute in Hmax. apply Hmax. reflexivity.
Qed.

Example main_patterns_high_medium :
  main_patterns 30 5 [doji_at_3; hammer_at_3] = [(3, hammer_at_3)] /\
  main_patterns 30 5 [hammer_at_3; doji_at_3] = [(3, hammer_at_3)] /\
  main_patterns 20 5 [doji_at_3; hammer_at_3] = [(3, hammer_at_3)].
Proof. repeat split; vm_compute; reflexivity. Qed.

Lemma main_pattern_highest_reliability_witness :
  In (3, hammer_at_3) (main_patterns 30 5 [doji_at_3; hammer_at_3]) /\
  (0 <= 3 < 5 /\
   (exists earlier later,
      at_index 3 [doji_at_3; hammer_at_3] = earlier ++ hammer_at_3 :: later /\
      (forall q, In q earlier -> reliability_rank q < reliability_rank hammer_at_3) /\
      (forall q, In q later -> reliability_rank q <= reliability_rank hammer_at_3)) /\
   (forall q, In q [doji_at_3; hammer_at_3] -> index q = 3 ->
              reliability_rank q <= reliability_rank hammer_at_3) /\
   (forall q, In q [doji_at_3; hammer_at_3] -> index q = 3 -> reliability q = "High" ->
              reliability hammer_at_3 <> "Medium")).
Proof.
  assert (In (3, hammer_at_3) (main_patterns 30 5 [doji_at_3; hammer_at_3])) as H.
  { vm_compute. left. reflexivity. }
  split; [exact H|].
  apply (main_pattern_highest_reliability 30 5 [doji_at_3; hammer_at_3] 3 hammer_at_3 H).
Defined.

(** ** The JSON snapshot *)

Example _prepare_data_for_json_dirty :
  _prepare_data_for_json dirty_snapshot
  = PyDict [("indicators",
             PyDict [("RSI", PyNone); ("ATR", PyNone); ("MFI", PyFloat (Fin 55))]);
            ("levels", PyList [PyFloat (Fin 1); PyNone]);
            ("change", PyNone);
            ("frame", PyList [PyDict [("Close", PyFloat (Fin 3));
                                      ("ROC", PyFloat (Fin 1))]])].
Proof. reflexivity. Qed.

Lemma scalar_cell_finite (d : PyData) :
  is_scalar d = true -> cell_missing d = false -> all_finite d = true.
Proof.
  destruct d; simpl; try reflexivity; try discriminate; intros _ ->; reflexivity.
Qed.

(** NaN of every kind, the infinities of numpy and the rows of a frame
    with a missing or infinite cell are scrubbed: when no infinity is a
    builtin float, every number of the result is finite. *)
Lemma _prepare_data_for_json_finite (d : PyData) :
  no_float_inf d = true -> all_finite (_prepare_data_for_json d) = true.
Proof.
  revert d. fix rec 1. intros d.
  destruct d as [z|x|x|elems|items|records|items|elems|text| |x|z|text|b];
    simpl; intros H; try reflexivity.
  - destruct x; reflexivity.
  - destruct x; reflexivity.
  - induction elems as [|e t IH]; simpl in *; [reflexivity|].
    apply andb_true_iff in H. destruct H as [He Ht].
    destruct (float_nan_or_inf e); simpl; [exact (IH Ht)|].
    rewrite (rec e He). exact (IH Ht).
  - induction items as [|[k e] t IH]; simpl in *; [reflexivity|].
    apply andb_true_iff in H. destruct H as [He Ht].
    destruct (is_None e); simpl; [exact (IH Ht)|].
    rewrite (rec e He). exact (IH Ht).
  - clear rec. induction records as [|row t IH]; simpl in *; [reflexivity|].
    apply andb_true_iff in H. destruct H as [Hrow Ht].
    destruct (forallb (fun kv => negb (cell_missing kv.2)) row) eqn:Hkeep;
      simpl; [|exact (IH Ht)].
    rewrite (IH Ht), andb_true_r.
    clear IH Ht t. induction row as [|[k c] row IH]; simpl in *; [reflexivity|].
    apply andb_true_iff in Hrow. destruct Hrow as [Hc Hrow].
    apply andb_true_iff in Hkeep. destruct Hkeep as [Hm Hkeep].
    apply negb_true_iff in Hm.
    rewrite (scalar_cell_finite c Hc Hm). exact (IH Hrow Hkeep).
  - induction items as [|[k e] t IH]; simpl in *; [reflexivity|].
    apply andb_true_iff in H. destruct H as [He Ht].
    destruct (is_None e); simpl; [exact (IH Ht)|].
    rewrite (rec e He). exact (IH Ht).
  - induction elems as [|e t IH]; simpl in *; [reflexivity|].
    apply andb_true_iff in H. destruct H as [He Ht].
    destruct (is_None e); simpl; [exact (IH Ht)|].
    rewrite (rec e He). exact (IH Ht).
  - destruct x; simpl in *; try reflexivity; discriminate.
Qed.

(** C9 at the builtin float infinity: the branch for numpy scalars does
    not apply to it, and pd.isna, which the last test relies on, is
    false for an infinity; the value is returned as it is, as a scalar
    and inside a dict, while the same infinity as a numpy scalar and a
    builtin NaN both become None. *)
Theorem builtin_infinity_not_scrubbed :
  _prepare_data_for_json (PyFloat PInf) = PyFloat PInf /\
  _prepare_data_for_json (PyFloat NInf) = PyFloat NInf /\
  _prepare_data_for_json inf_snapshot = inf_snapshot /\
  all_finite (_prepare_data_for_json inf_snapshot) = false /\
  _prepare_data_for_json (NpFloat64 PInf) = PyNone /\
  _prepare_data_for_json (PyFloat NaN) = PyNone.
Proof. repeat split. Qed.

(** * Part III: further properties of the program *)

(** ** ScoreAggregator: what the scores can be *)

(** X1. The clamp of calculate_trend_strength is never active: every
    block adds to the score at most the weight it adds, so the
    normalized score that the function returns lies in [-50, 50]. *)
Theorem trend_strength_within_fifty (self : TechnicalAnalysis) (x : Q) (text : Reasoning) :
  calculate_trend_strength self = Ok (x, text) ->
  (-50 <= x)%Q /\ (x <= 50)%Q /\
  (forall s, accumulate_trend self = Ok s ->
             indicators_empty (indicators self) = false ->
             (0 < total_weight s)%Q ->
             (x == trend_score s / total_weight s * 50)%Q).
Proof.
  unfold calculate_trend_strength.
  destruct (indicators_empty (indicators self)).
  - intros E. inversion E; subst. repeat split; try lra. intros; discriminate.
  - destruct (accumulate_trend self) as [s|e] eqn:Hacc; [|discriminate].
    intros E. inversion E; subst.
    pose proof (accumulate_trend_balanced self s Hacc) as Hbal.
    destruct (normalize_bounds s Hbal) as [Hlo Hhi].
    repeat split; try assumption.
    intros s' Hs' _ Hw. inversion Hs'; subst s'.
    unfold normalize. apply Qltb_lt in Hw. rewrite Hw. apply Qltb_lt in Hw.
    destruct Hbal as [H1 H2].
    destruct (ratio_bounds _ _ Hw H1 H2) as [H3 H4].
    apply Qclamp_inside; lra.
Qed.

Lemma trend_strength_within_fifty_witness :
  exists x text,
    calculate_trend_strength scored_self = Ok (x, text) /\
    (-50 <= x)%Q /\ (x <= 50)%Q /\
    (forall s, accumulate_trend scored_self = Ok s ->
               indicators_empty (indicators scored_self) = false ->
               (0 < total_weight s)%Q ->
               (x == trend_score s / total_weight s * 50)%Q).
Proof.
  eexists _, _. split; [vm_compute; reflexivity|].
  eapply (trend_strength_within_fifty scored_self _ _). vm_compute. reflexivity.
Defined.

Lemma round_half_even_range (q : Q) (lo hi : Z) :
  (inject_Z lo <= q)%Q -> (q <= inject_Z hi)%Q ->
  lo <= round_half_even q <= hi.
Proof.
  intros Hlo Hhi. destruct (round_half_even_close q) as [H1 H2].
  assert (inject_Z (lo - 1) < inject_Z (round_half_even q))%Q as Ha.
  { unfold Z.sub. rewrite inject_Z_plus, inject_Z_opp.
    change (inject_Z 1) with 1%Q. lra. }
  assert (inject_Z (round_half_even q) < inject_Z (hi + 1))%Q as Hb.
  { rewrite inject_Z_plus. change (inject_Z 1) with 1%Q. lra. }
  rewrite <- Zlt_Qlt in Ha, Hb. lia.
Qed.

Lemma round2_percent (q : Q) :
  (0 <= q)%Q -> (q <= 100)%Q -> (0 <= round2 q)%Q /\ (round2 q <= 100)%Q.
Proof.
  intros Hlo Hhi. unfold round2.
  destruct (round_half_even_range (q * 100) 0 10000) as [H1 H2].
  - change (inject_Z 0) with 0%Q. lra.
  - change (inject_Z 10000) with (10000 # 1)%Q. lra.
  - rewrite Zle_Qle in H1, H2.
    change (inject_Z 0) with 0%Q in H1. change (inject_Z 10000) with (10000 # 1)%Q in H2.
    set (k := inject_Z (round_half_even (q * 100))) in *.
    assert (k / 100 == k * (1 # 100))%Q as E by field.
    rewrite E. split; lra.
Qed.

Lemma share_percent (a t : Z) :
  0 <= a <= t -> 0 < t ->
  (0 <= inject_Z a / inject_Z t * 100)%Q /\ (inject_Z a / inject_Z t * 100 <= 100)%Q.
Proof.
  intros [Ha Hat] Ht.
  assert (0 < inject_Z t)%Q as Htq by (rewrite <- (Zlt_Qlt 0); exact Ht).
  assert (0 <= inject_Z a)%Q as Haq by (rewrite <- (Zle_Qle 0); exact Ha).
  assert (inject_Z a <= inject_Z t)%Q as Hatq by (rewrite <- Zle_Qle; exact Hat).
  assert (0 <= inject_Z a / inject_Z t)%Q as H1.
  { apply Qle_shift_div_l; [exact Htq | lra]. }
  assert (inject_Z a / inject_Z t <= 1)%Q as H2.
  { apply Qle_shift_div_r; [exact Htq | lra]. }
  split; lra.
Qed.

Lemma shares_percent (v : Votes) (x y z : Q) :
  votes_wf v -> shares v = Ok (x, y, z) ->
  ((0 <= x)%Q /\ (x <= 100)%Q) /\ ((0 <= y)%Q /\ (y <= 100)%Q) /\
  ((0 <= z)%Q /\ (z <= 100)%Q).
Proof.
  intros (Hb & He & Hn & Hc) Hs. unfold cast_votes in Hc.
  pose proof (shares_sum v x y z Hs) as Hsum.
  unfold shares in Hs. destruct (0 <? total_signals v) eqn:Ht.
  - apply Z.ltb_lt in Ht.
    destruct (share_percent (bullish_signals v) (total_signals v)) as [Hx1 Hx2];
      [lia | exact Ht |].
    destruct (share_percent (bearish_signals v) (total_signals v)) as [Hy1 Hy2];
      [lia | exact Ht |].
    destruct (share_percent (neutral_signals v) (total_signals v)) as [Hz1 Hz2];
      [lia | exact Ht |].
    set (bp := (inject_Z (bullish_signals v) / inject_Z (total_signals v) * 100)%Q) in *.
    set (ep := (inject_Z (bearish_signals v) / inject_Z (total_signals v) * 100)%Q) in *.
    set (np := (inject_Z (neutral_signals v) / inject_Z (total_signals v) * 100)%Q) in *.
    destruct (Qeq_bool (bp + ep + np) 100) eqn:H100; simpl in Hs.
    + inversion Hs; subst. repeat split; assumption.
    + destruct (Qeq_bool (bp + ep + np) 0) eqn:H0; [discriminate|].
      apply Qeq_bool_neq in H0. inversion Hs; subst x y z. clear Hs.
      assert (0 < bp + ep + np)%Q as Hpos.
      { destruct (Qlt_le_dec 0 (bp + ep + np)) as [H|H]; [exact H|].
        exfalso. apply H0. lra. }
      assert (0 <= bp / (bp + ep + np))%Q as Ha
        by (apply Qle_shift_div_l; [exact Hpos | lra]).
      assert (0 <= ep / (bp + ep + np))%Q as Hb'
        by (apply Qle_shift_div_l; [exact Hpos | lra]).
      assert (0 <= np / (bp + ep + np))%Q as Hc'
        by (apply Qle_shift_div_l; [exact Hpos | lra]).
      repeat split; lra.
  - inversion Hs; subst. repeat split; lra.
Qed.

(** X2. Whatever the indicators are, each of the three probabilities
    that calculate_probabilities returns lies in [0, 100]. *)
Theorem probabilities_are_percentages (self : TechnicalAnalysis) (p : Probabilities) :
  calculate_probabilities self = Ok (Some p) ->
  ((0 <= bullish_probability p)%Q /\ (bullish_probability p <= 100)%Q) /\
  ((0 <= bearish_probability p)%Q /\ (bearish_probability p <= 100)%Q) /\
  ((0 <= neutral_probability p)%Q /\ (neutral_probability p <= 100)%Q).
Proof.
  unfold calculate_probabilities.
  destruct (data self) as [df|]; [|discriminate].
  destruct (df_empty df || indicators_empty (indicators self)); [discriminate|].
  destruct (shares (tally (indicators self) df)) as [[[x y] z]|e] eqn:Hs; [|discriminate].
  intros E. inversion E; subst. simpl.
  destruct (shares_percent _ x y z (tally_wf _ _) Hs) as ([? ?] & [? ?] & [? ?]).
  repeat split; apply round2_percent; assumption.
Qed.

Lemma probabilities_are_percentages_witness :
  exists p,
    calculate_probabilities scored_self = Ok (Some p) /\
    ((0 <= bullish_probability p)%Q /\ (bullish_probability p <= 100)%Q) /\
    ((0 <= bearish_probability p)%Q /\ (bearish_probability p <= 100)%Q) /\
    ((0 <= neutral_probability p)%Q /\ (neutral_probability p <= 100)%Q).
Proof.
  eexists. split; [vm_compute; reflexivity|].
  apply (probabilities_are_percentages scored_self). vm_compute. reflexivity.
Defined.

Ltac total_arith :=
  unfold vote_band, counted, vote_bullish, vote_bearish, vote_neutral;
  votes_cases; simpl; lia.

Lemma rsi_vote_total ind v :
  total_signals v <= total_signals (rsi_vote ind v) <= total_signals v + 1.
Proof. unfold rsi_vote. total_arith. Qed.

Lemma macd_vote_total ind v :
  total_signals v <= total_signals (macd_vote ind v) <= total_signals v + 1.
Proof. unfold macd_vote. total_arith. Qed.

Lemma stochastic_vote_total ind v :
  total_signals v <= total_signals (stochastic_vote ind v) <= total_signals v + 1.
Proof. unfold stochastic_vote. total_arith. Qed.

Lemma bollinger_vote_total ind v :
  total_signals v <= total_signals (bollinger_vote ind v) <= total_signals v + 1.
Proof. unfold bollinger_vote. total_arith. Qed.

Lemma mfi_vote_total ind v :
  total_signals v <= total_signals (mfi_vote ind v) <= total_signals v + 1.
Proof. unfold mfi_vote. total_arith. Qed.

Lemma ma_vote_total df price ma v :
  total_signals v <= total_signals (ma_vote df price v ma) <= total_signals v + 1.
Proof. unfold ma_vote. total_arith. Qed.

Lemma obv_vote_total df v :
  total_signals v <= total_signals (obv_vote df v) <= total_signals v + 1.
Proof.
  unfold obv_vote. destruct (columns df !! "OBV") as [col|]; [|lia].
  generalize (if fl_neqb (mean_last20 (df_len df) col) (Fin 0)
              then fl_mul (fl_div (fl_sub (col (df_len df - 1)%nat)
                                          (mean_last20 (df_len df) col))
                                  (mean_last20 (df_len df) col)) (Fin 100)
              else Fin 0).
  intros x. total_arith.
Qed.

Lemma adx_vote_total ind v :
  total_signals v <= total_signals (adx_vote ind v) <= total_signals v + 2.
Proof. unfold adx_vote. total_arith. Qed.

Lemma tally_total (ind : Indicators) (df : DataFrame) :
  0 <= total_signals (tally ind df) <= 10.
Proof.
  unfold tally. simpl.
  set (v0 := mkVotes 0 0 0 0).
  pose proof (rsi_vote_total ind v0) as H1. set (v1 := rsi_vote ind v0) in *.
  pose proof (macd_vote_total ind v1) as H2. set (v2 := macd_vote ind v1) in *.
  pose proof (stochastic_vote_total ind v2) as H3. set (v3 := stochastic_vote ind v2) in *.
  pose proof (bollinger_vote_total ind v3) as H4. set (v4 := bollinger_vote ind v3) in *.
  pose proof (mfi_vote_total ind v4) as H5. set (v5 := mfi_vote ind v4) in *.
  pose proof (ma_vote_total df (iloc_last (rows df) Close) "EMA_50" v5) as H6.
  set (v6 := ma_vote df _ v5 "EMA_50") in *.
  pose proof (ma_vote_total df (iloc_last (rows df) Close) "EMA_200" v6) as H7.
  set (v7 := ma_vote df _ v6 "EMA_200") in *.
  pose proof (obv_vote_total df v7) as H8. set (v8 := obv_vote df v7) in *.
  pose proof (adx_vote_total ind v8) as H9.
  change (total_signals v0) with 0 in H1. lia.
Qed.

(** X3. The counters that calculate_probabilities returns are
    consistent: none is negative, the votes cast never exceed the
    signals counted, and at most 10 signals are counted. *)
Theorem probabilities_counters (self : TechnicalAnalysis) (p : Probabilities) :
  calculate_probabilities self = Ok (Some p) ->
  0 <= bullish_signals (votes p) /\
  0 <= bearish_signals (votes p) /\
  0 <= neutral_signals (votes p) /\
  bullish_signals (votes p) + bearish_signals (votes p) + neutral_signals (votes p)
    <= total_signals (votes p) /\
  total_signals (votes p) <= 10.
Proof.
  unfold calculate_probabilities.
  destruct (data self) as [df|]; [|discriminate].
  destruct (df_empty df || indicators_empty (indicators self)); [discriminate|].
  destruct (shares (tally (indicators self) df)) as [[[x y] z]|e]; [|discriminate].
  intros E. inversion E; subst. simpl.
  destruct (tally_wf (indicators self) df) as (Hb & He & Hn & Hc).
  destruct (tally_total (indicators self) df) as [_ Ht].
  unfold cast_votes in Hc. repeat split; assumption.
Qed.

Lemma probabilities_counters_witness :
  exists p,
    calculate_probabilities scored_self = Ok (Some p) /\
    0 <= bullish_signals (votes p) /\
    0 <= bearish_signals (votes p) /\
    0 <= neutral_signals (votes p) /\
    bullish_signals (votes p) + bearish_signals (votes p) + neutral_signals (votes p)
      <= total_signals (votes p) /\
    total_signals (votes p) <= 10.
Proof.
  eexists. split; [vm_compute; reflexivity|].
  apply (probabilities_counters scored_self). vm_compute. reflexivity.
Defined.

Lemma shares_raises (v : Votes) (e : exn) :
  votes_wf v ->
  (shares v = Raise e <->
   e = ZeroDivisionError /\ 0 < total_signals v /\ cast_votes v = 0).
Proof.
  intros Hwf. split.
  - intros Hs.
    destruct (Z.eq_dec (cast_votes v) 0) as [Hc|Hc].
    + unfold shares in Hs. destruct (0 <? total_signals v) eqn:Ht; [|discriminate].
      apply Z.ltb_lt in Ht.
      destruct (negb _); [|discriminate].
      destruct (Qeq_bool _ 0); [|discriminate].
      inversion Hs. auto.
    + destruct (shares_returns v) as (x & y & z & E); [|congruence].
      destruct Hwf as (Hb & He & Hn & _). unfold cast_votes in *.
      destruct (Z_le_gt_dec (total_signals v) 0); [left; assumption | right; lia].
  - intros (-> & Ht & Hc).
    destruct Hwf as (Hb & He & Hn & _). unfold cast_votes in Hc.
    assert (bullish_signals v = 0) as Eb by lia.
    assert (bearish_signals v = 0) as Ee by lia.
    assert (neutral_signals v = 0) as En by lia.
    unfold shares. apply Z.ltb_lt in Ht. rewrite Ht, Eb, Ee, En.
    assert (forall t : Q, Qeq_bool (0 / t * 100 + 0 / t * 100 + 0 / t * 100) 100 = false) as E1.
    { intros t. apply not_true_iff_false. intros H. apply Qeq_bool_iff in H.
      unfold Qdiv in H. rewrite !Qmult_0_l in H. discriminate H. }
    assert (forall t : Q, Qeq_bool (0 / t * 100 + 0 / t * 100 + 0 / t * 100) 0 = true) as E2.
    { intros t. apply Qeq_bool_iff. unfold Qdiv. rewrite !Qmult_0_l. reflexivity. }
    change (inject_Z 0) with 0%Q. rewrite E1, E2. reflexivity.
Qed.

(** X4. calculate_probabilities raises in one situation only, the
    division of 0.0 by 0.0: data and indicators are there, a signal was
    counted and no vote was cast.  In particular it cannot raise on a
    frame with the OBV column. *)
Theorem calculate_probabilities_raises (self : TechnicalAnalysis) (e : exn) :
  calculate_probabilities self = Raise e <->
  e = ZeroDivisionError /\
  exists df, data self = Some df /\ df_empty df = false /\
             indicators_empty (indicators self) = false /\
             0 < total_signals (tally (indicators self) df) /\
             cast_votes (tally (indicators self) df) = 0 /\
             columns df !! "OBV" = None.
Proof.
  unfold calculate_probabilities. split.
  - destruct (data self) as [df|]; [|discriminate].
    destruct (df_empty df) eqn:Hne; [discriminate|].
    destruct (indicators_empty (indicators self)) eqn:Hind; [discriminate|]. simpl.
    destruct (shares (tally (indicators self) df)) as [[[x y] z]|e'] eqn:Hs; [discriminate|].
    intros E. inversion E; subst e'.
    apply shares_raises in Hs; [|apply tally_wf].
    destruct Hs as (-> & Ht & Hc). split; [reflexivity|].
    exists df. repeat split; try assumption.
    destruct (columns df !! "OBV") as [col|] eqn:Hcol; [|reflexivity].
    pose proof (obv_column_casts (indicators self) df col Hcol). lia.
  - intros (-> & df & Hdata & Hne & Hind & Ht & Hc & _).
    rewrite Hdata, Hne, Hind. simpl.
    assert (shares (tally (indicators self) df) = Raise ZeroDivisionError) as ->.
    { apply shares_raises; [apply tally_wf | auto]. }
    reflexivity.
Qed.

(** ** ScoreAggregator: the sentiment label *)

Lemma classify_label (neutral total : Z) (x : Q) :
  (fst (classify neutral total x) = "Sehr Bullisch 🚀" /\ (25 <= x)%Q) \/
  (fst (classify neutral total x) = "Bullisch 📈" /\ (10 <= x)%Q /\ (x < 25)%Q) \/
  (fst (classify neutral total x) = "Neutral ➡️" /\ (-15 < x)%Q /\ (x < 15)%Q) \/
  (fst (classify neutral total x) = "Bearisch 📉" /\ (-25 <= x)%Q /\ (x < -10)%Q) \/
  (fst (classify neutral total x) = "Sehr Bearisch 🔻" /\ (x < -25)%Q).
Proof.
  unfold classify.
  destruct (Qltb (inject_Z total * 0.6) (inject_Z neutral) && Qltb (Qabs x) 15) eqn:Hov.
  - right. right. left. split; [reflexivity|].
    apply andb_true_iff in Hov. destruct Hov as [_ Hov]. apply Qltb_lt in Hov.
    apply Qabs_Qlt_condition in Hov. exact Hov.
  - clear Hov.
    destruct (Qle_bool 25 x) eqn:H25; [left; split; [reflexivity | apply Qle_bool_iff, H25]|].
    apply not_true_iff_false in H25. rewrite Qle_bool_iff in H25. apply Qnot_le_lt in H25.
    destruct (Qle_bool 10 x) eqn:H10.
    { right. left. apply Qle_bool_iff in H10. repeat split; assumption. }
    apply not_true_iff_false in H10. rewrite Qle_bool_iff in H10. apply Qnot_le_lt in H10.
    destruct (Qle_bool (-10) x) eqn:Hm10.
    { right. right. left. apply Qle_bool_iff in Hm10. repeat split; lra. }
    apply not_true_iff_false in Hm10. rewrite Qle_bool_iff in Hm10. apply Qnot_le_lt in Hm10.
    destruct (Qle_bool (-25) x) eqn:Hm25.
    { right. right. right. left. apply Qle_bool_iff in Hm25. repeat split; assumption. }
    apply not_true_iff_false in Hm25. rewrite Qle_bool_iff in Hm25. apply Qnot_le_lt in Hm25.
    right. right. right. right. split; [reflexivity | exact Hm25].
Qed.

(** X5. The label that get_market_sentiment returns agrees with the
    trend strength it returns next to it: very bullish from 25, bullish
    in [10, 25), bearish in [-25, -10), very bearish below -25; neutral
    is returned only for a strength in (-15, 15), the band of the
    override for mostly neutral signals. *)
Theorem sentiment_label_matches_strength (self : TechnicalAnalysis) (r : Sentiment) :
  get_market_sentiment self = Ok r ->
  (sentiment r = "Sehr Bullisch 🚀" /\ (25 <= trend_strength r)%Q) \/
  (sentiment r = "Bullisch 📈" /\ (10 <= trend_strength r)%Q /\ (trend_strength r < 25)%Q) \/
  (sentiment r = "Neutral ➡️" /\ (-15 < trend_strength r)%Q /\ (trend_strength r < 15)%Q) \/
  (sentiment r = "Bearisch 📉" /\ (-25 <= trend_strength r)%Q /\ (trend_strength r < -10)%Q) \/
  (sentiment r = "Sehr Bearisch 🔻" /\ (trend_strength r < -25)%Q).
Proof.
  unfold get_market_sentiment.
  destruct (calculate_trend_strength self) as [[x text]|e]; [|discriminate].
  destruct (calculate_probabilities self) as [[p|]|e]; try discriminate.
  destruct (0 <? total_signals (votes p)).
  - pose proof (classify_label (neutral_signals (votes p)) (total_signals (votes p))
                  (x + inject_Z (bullish_signals (votes p) - bearish_signals (votes p))
                       / inject_Z (total_signals (votes p)) * 20)) as H.
    destruct (classify _ _ _) as [label main].
    intros E. inversion E; subst. exact H.
  - pose proof (classify_label (neutral_signals (votes p)) (total_signals (votes p)) x)
      as H.
    destruct (classify _ _ _) as [label main].
    intros E. inversion E; subst. exact H.
Qed.

Lemma sentiment_label_matches_strength_witness :
  get_market_sentiment scored_self = Ok scored_sentiment /\
  ((sentiment scored_sentiment = "Sehr Bullisch 🚀" /\
    (25 <= trend_strength scored_sentiment)%Q) \/
   (sentiment scored_sentiment = "Bullisch 📈" /\
    (10 <= trend_strength scored_sentiment)%Q /\ (trend_strength scored_sentiment < 25)%Q) \/
   (sentiment scored_sentiment = "Neutral ➡️" /\
    (-15 < trend_strength scored_sentiment)%Q /\ (trend_strength scored_sentiment < 15)%Q) \/
   (sentiment scored_sentiment = "Bearisch 📉" /\
    (-25 <= trend_strength scored_sentiment)%Q /\
    (trend_strength scored_sentiment < -10)%Q) \/
   (sentiment scored_sentiment = "Sehr Bearisch 🔻" /\
    (trend_strength scored_sentiment < -25)%Q)).
Proof.
  split; [vm_compute; reflexivity|].
  apply (sentiment_label_matches_strength scored_self). vm_compute. reflexivity.
Defined.

Lemma accumulate_trend_raises (self : TechnicalAnalysis) (e : exn) :
  accumulate_trend self = Raise e -> e = IndexError.
Proof.
  unfold accumulate_trend, obv_score.
  repeat match goal with
    | |- (match ?x with _ => _ end) = _ -> _ => destruct x
    | |- (if ?b then _ else _) = _ -> _ => destruct b
    end; intros E; inversion E; reflexivity.
Qed.

(** X6. Without data or without indicators get_market_sentiment never
    returns: calculate_probabilities gives None, the counters that the
    classification reads are never assigned, and the call ends in an
    UnboundLocalError (or in the IndexError of the volume block of
    calculate_trend_strength, which runs first). *)
Theorem get_market_sentiment_needs_data (self : TechnicalAnalysis) :
  no_data self = true \/ indicators_empty (indicators self) = true ->
  calculate_probabilities self = Ok None /\
  (get_market_sentiment self = Raise UnboundLocalError \/
   get_market_sentiment self = Raise IndexError).
Proof.
  intros H.
  assert (calculate_probabilities self = Ok None) as Hp.
  { unfold calculate_probabilities, no_data in *.
    destruct (data self) as [df|]; [|reflexivity].
    destruct H as [->| ->]; [reflexivity | rewrite orb_true_r; reflexivity]. }
  split; [exact Hp|].
  unfold get_market_sentiment. rewrite Hp.
  destruct (calculate_trend_strength self) as [[x text]|e] eqn:Hts; [left; reflexivity|].
  right. unfold calculate_trend_strength in Hts.
  destruct (indicators_empty (indicators self)); [discriminate|].
  destruct (accumulate_trend self) as [s|e'] eqn:Hacc; [discriminate|].
  inversion Hts; subst e'. apply accumulate_trend_raises in Hacc. subst e. reflexivity.
Qed.

Lemma get_market_sentiment_needs_data_witness :
  (calculate_probabilities absent_self = Ok None /\
   (get_market_sentiment absent_self = Raise UnboundLocalError \/
    get_market_sentiment absent_self = Raise IndexError)) /\
  (calculate_probabilities sr_self = Ok None /\
   (get_market_sentiment sr_self = Raise UnboundLocalError \/
    get_market_sentiment sr_self = Raise IndexError)).
Proof.
  split.
  - apply (get_market_sentiment_needs_data absent_self). left. reflexivity.
  - apply (get_market_sentiment_needs_data sr_self). right. reflexivity.
Defined.

(** ** LevelDetector: pivots and the number of levels *)



(** Insertion by [insert_sorted] keeps a list sorted, for an order that
    no two elements satisfy in both directions. *)
Lemma insert_sorted_Sorted {A : Type} (before : A -> A -> bool) (x : A) (l : list A) :
  (forall a b, before a b = true -> before b a = false) ->
  Sorted (fun a b => before b a = false) l ->
  Sorted (fun a b => before b a = false) (insert_sorted before x l).
Proof.
  intros Hasym. induction l as [|y ys IH]; simpl; intros Hs.
  - repeat constructor.
  - destruct (before y x) eqn:Hyx.
    + inversion Hs as [|? ? Hs' Hhd]; subst. constructor; [apply IH, Hs'|].
      destruct ys as [|z zs]; simpl.
      * constructor. apply Hasym, Hyx.
      * destruct (before z x); constructor.
        -- inversion Hhd; assumption.
        -- apply Hasym, Hyx.
    + constructor; [exact Hs|]. constructor. exact Hyx.
Qed.

Lemma py_sorted_Sorted {A : Type} (before : A -> A -> bool) (l : list A) :
  (forall a b, before a b = true -> before b a = false) ->
  Sorted (fun a b => before b a = false) (py_sorted before l).
Proof.
  intros Hasym. induction l as [|x l IH]; simpl; [constructor|].
  apply insert_sorted_Sorted; assumption.
Qed.

Lemma sorted_Q_ascending (l : list Q) : StronglySorted Qle (sorted_Q l).
Proof.
  apply Sorted_StronglySorted; [intros a b c; apply Qle_trans|].
  unfold sorted_Q.
  assert (Sorted (fun a b => Qltb b a = false) (py_sorted Qltb l)) as H.
  { apply py_sorted_Sorted. intros a b Hab. apply Qltb_lt in Hab.
    apply Qltb_ge. apply Qlt_le_weak, Hab. }
  induction H as [|a t Ht IH Hhd]; constructor; [exact IH|].
  destruct Hhd as [|b t' Hab]; constructor. apply Qltb_ge, Hab.
Qed.

Lemma StronglySorted_app_le {A : Type} (R : A -> A -> Prop) (l1 l2 : list A) :
  StronglySorted R (l1 ++ l2) -> forall a b, In a l1 -> In b l2 -> R a b.
Proof.
  induction l1 as [|x l1 IH]; simpl; intros Hs a b Ha Hb; [tauto|].
  inversion Hs as [|? ? Hs' Hall]; subst.
  destruct Ha as [<-|Ha].
  - rewrite List.Forall_forall in Hall. apply Hall, in_or_app. right. exact Hb.
  - apply IH; assumption.
Qed.

Lemma length_slice_last {A : Type} (k : Z) (l : list A) :
  1 <= k -> Z.of_nat (length (slice_last k l)) <= k.
Proof.
  intros Hk. unfold slice_last.
  destruct (0 <? k) eqn:E; [|apply Z.ltb_ge in E; lia].
  rewrite length_drop. lia.
Qed.

Lemma length_slice_first {A : Type} (k : Z) (l : list A) :
  1 <= k -> Z.of_nat (length (slice_first k l)) <= k.
Proof.
  intros Hk. unfold slice_first.
  destruct (0 <=? k) eqn:E; [|apply Z.leb_gt in E; lia].
  rewrite length_take. lia.
Qed.

(** X8. With num_levels >= 1, identify_support_resistance returns at
    most num_levels support levels and at most num_levels resistance
    levels. *)
Theorem at_most_num_levels
    (self : TechnicalAnalysis) (window num_levels : Z)
    (sr : SupportResistance) (self' : TechnicalAnalysis) :
  1 <= num_levels ->
  identify_support_resistance self window num_levels = (Some sr, self') ->
  Z.of_nat (length (support sr)) <= num_levels /\
  Z.of_nat (length (resistance sr)) <= num_levels.
Proof.
  intros Hk. unfold identify_support_resistance.
  destruct (data self) as [df|]; [|discriminate].
  destruct (df_empty df); [discriminate|].
  intros E. inversion E; subst. clear E. simpl. split.
  - destruct (_ <? _) eqn:Hlen; [apply length_slice_last, Hk | apply Z.ltb_ge, Hlen].
  - destruct (_ <? _) eqn:Hlen; [apply length_slice_first, Hk | apply Z.ltb_ge, Hlen].
Qed.

Lemma at_most_num_levels_witness :
  exists sr self',
    identify_support_resistance sr_self 2 1 = (Some sr, self') /\
    Z.of_nat (length (support sr)) <= 1 /\
    Z.of_nat (length (resistance sr)) <= 1.
Proof.
  eexists _, _. split; [reflexivity|].
  eapply (at_most_num_levels sr_self 2 1 _ _); [lia | reflexivity].
Defined.

Lemma slice_last_nearest (k : Z) (l : list Q) (c : Q) :
  1 <= k -> In c l ->
  In c (slice_last k (sorted_Q l)) \/
  forall s, In s (slice_last k (sorted_Q l)) -> (c <= s)%Q.
Proof.
  intros Hk Hc. unfold slice_last.
  replace (0 <? k) with true by (symmetry; apply Z.ltb_lt; lia).
  set (m := (length (sorted_Q l) - Z.to_nat k)%nat).
  pose proof (sorted_Q_ascending l) as Hs.
  rewrite <- (take_drop m (sorted_Q l)) in Hs.
  assert (In c (take m (sorted_Q l) ++ drop m (sorted_Q l))) as Hin.
  { rewrite take_drop. apply In_py_sorted, Hc. }
  apply in_app_or in Hin. destruct Hin as [Hin|Hin]; [right | left; exact Hin].
  intros s Hsin. eapply StronglySorted_app_le; eassumption.
Qed.

Lemma slice_first_nearest (k : Z) (l : list Q) (c : Q) :
  1 <= k -> In c l ->
  In c (slice_first k (sorted_Q l)) \/
  forall r, In r (slice_first k (sorted_Q l)) -> (r <= c)%Q.
Proof.
  intros Hk Hc. unfold slice_first.
  replace (0 <=? k) with true by (symmetry; apply Z.leb_le; lia).
  set (m := Z.to_nat k).
  pose proof (sorted_Q_ascending l) as Hs.
  rewrite <- (take_drop m (sorted_Q l)) in Hs.
  assert (In c (take m (sorted_Q l) ++ drop m (sorted_Q l))) as Hin.
  { rewrite take_drop. apply In_py_sorted, Hc. }
  apply in_app_or in Hin. destruct Hin as [Hin|Hin]; [left; exact Hin | right].
  intros r Hrin. eapply StronglySorted_app_le; eassumption.
Qed.

(** X9. The levels that identify_support_resistance keeps are the ones
    nearest to the price: with num_levels >= 1, a local low below the
    current price that is not returned as support is at or below every
    support level returned, and a local high above the price that is
    not returned as resistance is at or above every resistance level
    returned. *)
Theorem nearest_levels_kept
    (self : TechnicalAnalysis) (df : DataFrame) (window num_levels : Z)
    (sr : SupportResistance) (self' : TechnicalAnalysis) :
  1 <= num_levels ->
  data self = Some df ->
  identify_support_resistance self window num_levels = (Some sr, self') ->
  (forall c,
     In c (local_extrema (map Low (rows df))
                         (rolling_center list_min_Q window (map Low (rows df)))) ->
     (c < current_price sr)%Q ->
     In c (support sr) \/ forall s, In s (support sr) -> (c <= s)%Q) /\
  (forall c,
     In c (local_extrema (map High (rows df))
                         (rolling_center list_max_Q window (map High (rows df)))) ->
     (current_price sr < c)%Q ->
     In c (resistance sr) \/ forall r, In r (resistance sr) -> (r <= c)%Q).
Proof.
  intros Hk Hdata. unfold identify_support_resistance. rewrite Hdata.
  destruct (df_empty df); [discriminate|].
  intros E. inversion E; subst. clear E. simpl. split.
  - intros c Hc Hlt.
    assert (In c (List.filter (fun level => Qltb level (iloc_last (rows df) Close))
                    (local_extrema (map Low (rows df))
                       (rolling_center list_min_Q window (map Low (rows df)))))) as Hin.
    { apply filter_In. split; [exact Hc | apply Qltb_lt, Hlt]. }
    destruct (_ <? _); [apply slice_last_nearest; assumption | left; exact Hin].
  - intros c Hc Hlt.
    assert (In c (List.filter (fun level => Qgtb level (iloc_last (rows df) Close))
                    (local_extrema (map High (rows df))
                       (rolling_center list_max_Q window (map High (rows df)))))) as Hin.
    { apply filter_In. split; [exact Hc | apply Qltb_lt, Hlt]. }
    destruct (_ <? _); [apply slice_first_nearest; assumption | left; exact Hin].
Qed.

Lemma nearest_levels_kept_witness :
  exists sr self',
    identify_support_resistance sr_self 2 1 = (Some sr, self') /\
    (forall c,
       In c (local_extrema (map Low (rows sr_frame))
                           (rolling_center list_min_Q 2 (map Low (rows sr_frame)))) ->
       (c < current_price sr)%Q ->
       In c (support sr) \/ forall s, In s (support sr) -> (c <= s)%Q) /\
    (forall c,
       In c (local_extrema (map High (rows sr_frame))
                           (rolling_center list_max_Q 2 (map High (rows sr_frame)))) ->
       (current_price sr < c)%Q ->
       In c (resistance sr) \/ forall r, In r (resistance sr) -> (r <= c)%Q).
Proof.
  eexists _, _. split; [reflexivity|].
  eapply (nearest_levels_kept sr_self sr_frame 2 1 _ _); [lia | reflexivity | reflexivity].
Defined.

(** ** PatternRecognizer: what a hit refers to *)

Lemma _get_trend_known (r : list Candle) (i : nat) (t : string) :
  String.eqb (_get_trend r i) t = true -> t <> "unknown" -> (5 <= i)%nat.
Proof.
  unfold _get_trend, _get_trend_lookback. intros H Ht.
  destruct (i <? 5)%nat eqn:Hi; [|apply Nat.ltb_ge, Hi].
  apply String.eqb_eq in H. congruence.
Qed.

Lemma in_scan (r : list Candle) (lo : nat) (body : nat -> list Pattern -> list Pattern)
    (p : Pattern) :
  (forall i ps, body i ps = ps ++ body i []) ->
  In p (scan r lo body []) ->
  exists i, (lo <= i < length r)%nat /\ In p (body i []).
Proof.
  intros Happ. unfold scan. rewrite (fold_scan_flat_map body) by exact Happ. simpl.
  intros Hin. apply in_flat_map in Hin. destruct Hin as (i & Hi & Hp).
  exists i. split; [|exact Hp]. unfold range in Hi. apply in_seq in Hi. lia.
Qed.

Ltac body_appends :=
  let i := fresh "i" in
  let ps := fresh "ps" in
  intros i ps; cbv zeta;
  repeat match goal with
    | |- context [if ?b then _ else _] => destruct b
    end;
  unfold _add_pattern; simpl; rewrite ?app_nil_r; reflexivity.

Ltac trend_facts :=
  repeat match goal with
    | H : (_ && _) = true |- _ => apply andb_true_iff in H; destruct H
    end;
  repeat match goal with
    | H : String.eqb (_get_trend _ _) _ = true |- _ =>
        apply _get_trend_known in H; [|discriminate]
    end.

Ltac body_hit :=
  cbv zeta;
  repeat match goal with
    | |- context [if ?b then _ else _] =>
        let E := fresh "E" in destruct b eqn:E
    end;
  unfold _add_pattern; simpl;
  (intros [<-|[]] || intros []);
  unfold describes_bar, trend_patterns, star_patterns; simpl;
  trend_facts;
  repeat split; try reflexivity;
  intros Hname; try lia;
  repeat (destruct Hname as [Hname|Hname]; [discriminate Hname|]);
  destruct Hname.

Lemma detectors_describe_bars (r : list Candle) :
  Forall (fun d => forall p, In p (fst d []) ->
                             exists i, (i < length r)%nat /\ describes_bar r i p)
         (detectors r).
Proof.
  unfold detectors.
  repeat (apply List.Forall_cons;
          [ intros p Hp; cbn [fst] in Hp;
            match type of Hp with In _ (?d r []) => unfold d in Hp end;
            apply in_scan in Hp; [|body_appends];
            destruct Hp as (i & Hlo & Hp); exists i; split; [lia|];
            revert Hp; body_hit |]).
  apply List.Forall_nil.
Qed.

Lemma detect_all_patterns_concat (r : list Candle) :
  detect_all_patterns r = concat (map (fun d => fst d []) (detectors r)).
Proof.
  change (detect_all_patterns r)
    with (fold_left (fun ps d => fst d ps) (detectors r) []).
  apply (run_detectors (detectors r)).
  eapply Forall_impl; [apply detectors_families|]. intros d Hd ps. apply Hd.
Qed.

Lemma all_hits_describe_bars (r : list Candle) (p : Pattern) :
  In p (detect_all_patterns r) ->
  exists i, (i < length r)%nat /\ describes_bar r i p.
Proof.
  rewrite detect_all_patterns_concat. intros Hin.
  apply in_concat in Hin. destruct Hin as (hits & Hhits & Hp).
  apply in_map_iff in Hhits. destruct Hhits as (d & <- & Hd).
  pose proof (detectors_describe_bars r) as H.
  rewrite List.Forall_forall in H. exact (H d Hd p Hp).
Qed.

(** X10. Every hit of detect_all_patterns refers to a bar of the frame:
    its index is a position of the frame, and its price and date are the
    close and the label of that bar.  A frame without rows gives no
    hit. *)
Theorem hits_refer_to_bars (r : list Candle) :
  Forall (fun p => 0 <= index p < Z.of_nat (length r) /\
                   price p = iloc r Close (Z.to_nat (index p)) /\
                   date p = timestamp (nth (Z.to_nat (index p)) r dummy_candle))
         (detect_all_patterns r) /\
  (r = [] -> detect_all_patterns r = []).
Proof.
  assert (Forall (fun p => 0 <= index p < Z.of_nat (length r) /\
                   price p = iloc r Close (Z.to_nat (index p)) /\
                   date p = timestamp (nth (Z.to_nat (index p)) r dummy_candle))
                 (detect_all_patterns r)) as H.
  { apply List.Forall_forall. intros p Hp.
    destruct (all_hits_describe_bars r p Hp) as (i & Hi & Hidx & Hprice & Hdate & _).
    rewrite Hidx, Nat2Z.id. repeat split; try assumption; lia. }
  split; [exact H|].
  intros ->. destruct (detect_all_patterns []) as [|p ps]; [reflexivity|].
  apply Forall_inv in H. simpl in H. lia.
Qed.

(** X11. The patterns that are tied to a trend are never reported
    within the look-back of the trend: a Hammer, Hanging Man, Shooting
    Star, Inverted Hammer, Engulfing, Harami, Piercing Line, Dark Cloud
    Cover or Tweezer hit has an index of at least 5, and a Morning or
    Evening Star hit an index of at least 7. *)
Theorem trend_patterns_after_lookback (r : list Candle) :
  Forall (fun p => (In (pattern p) trend_patterns -> 5 <= index p) /\
                   (In (pattern p) star_patterns -> 7 <= index p))
         (detect_all_patterns r).
Proof.
  apply List.Forall_forall. intros p Hp.
  destruct (all_hits_describe_bars r p Hp) as (i & Hi & Hidx & _ & _ & H5 & H7).
  rewrite Hidx. split; intros H; [apply H5 in H | apply H7 in H]; lia.
Qed.

(** ** PatternRecognizer: the geometry of a bar *)


(** ** PatternRecognizer: statistics *)

Lemma pattern_types_lookup (ps : list Pattern) (name : string) :
  fold_left (fun types p =>
               let types := match types !! pattern p with
                            | None => <[pattern p := 0%nat]> types
                            | Some _ => types
                            end in
               <[pattern p := S (default 0%nat (types !! pattern p))]> types)
            ps (∅ : gmap string nat) !! name
  = match length (List.filter (fun p => String.eqb (pattern p) name) ps) with
    | O => None
    | S k => Some (S k)
    end.
Proof.
  induction ps as [|p l IH] using rev_ind; [apply lookup_empty|].
  rewrite fold_left_app, List.filter_app, length_app. simpl.
  set (types := fold_left _ l ∅) in *.
  destruct (String.eqb (pattern p) name) eqn:E.
  - apply String.eqb_eq in E. subst name. rewrite lookup_insert_eq. simpl.
    rewrite Nat.add_1_r. f_equal. f_equal.
    destruct (types !! pattern p) as [c|] eqn:Hc.
    + rewrite Hc. simpl.
      destruct (length _); [discriminate | inversion IH; reflexivity].
    + rewrite lookup_insert_eq. simpl.
      destruct (length _); [reflexivity | discriminate].
  - apply String.eqb_neq in E. rewrite lookup_insert_ne by exact E.
    simpl. rewrite Nat.add_0_r, <- IH.
    destruct (types !! pattern p); [reflexivity|].
    apply lookup_insert_ne. exact E.
Qed.

(** X13. get_pattern_statistics returns the empty dict exactly when
    there is no hit.  Otherwise total_patterns is the number of hits,
    pattern_types maps each pattern name that occurs to the number of
    hits with that name (and holds no other name), no class counter
    exceeds the total, and recent_patterns is the end of the hit list,
    of length min(5, total). *)
Theorem pattern_statistics_counts (ps : list Pattern) :
  match get_pattern_statistics ps with
  | None => ps = []
  | Some st =>
      ps <> [] /\
      total_patterns st = length ps /\
      (forall name,
         pattern_types st !! name
         = match length (List.filter (fun p => String.eqb (pattern p) name) ps) with
           | O => None
           | S k => Some (S k)
           end) /\
      (bullish_patterns st <= length ps)%nat /\
      (bearish_patterns st <= length ps)%nat /\
      (neutral_patterns st <= length ps)%nat /\
      (high_reliability st <= length ps)%nat /\
      (exists earlier, ps = earlier ++ recent_patterns st) /\
      length (recent_patterns st) = Nat.min 5 (length ps)
  end.
Proof.
  unfold get_pattern_statistics. destruct ps as [|p0 ps0]; [reflexivity|].
  cbn [total_patterns pattern_types bullish_patterns bearish_patterns
       neutral_patterns high_reliability recent_patterns].
  set (ps := p0 :: ps0).
  split; [discriminate|]. split; [reflexivity|].
  split; [intros name; apply pattern_types_lookup|].
  split; [apply List.filter_length_le|]. split; [apply List.filter_length_le|].
  split; [apply List.filter_length_le|]. split; [apply List.filter_length_le|].
  unfold slice_last. change (0 <? 5) with true. cbv iota.
  split.
  - exists (take (length ps - Z.to_nat 5) ps). symmetry. apply take_drop.
  - rewrite length_drop. change (Z.to_nat 5) with 5%nat. lia.
Qed.

(** ** The marks of the chart *)

Lemma insert_sorted_Permutation {A : Type} (before : A -> A -> bool) (x : A) (l : list A) :
  Permutation (insert_sorted before x l) (x :: l).
Proof.
  induction l as [|y ys IH]; simpl; [reflexivity|].
  destruct (before y x); [|reflexivity].
  rewrite IH. apply perm_swap.
Qed.

Lemma py_sorted_Permutation {A : Type} (before : A -> A -> bool) (l : list A) :
  Permutation (py_sorted before l) l.
Proof.
  induction l as [|x l IH]; simpl; [reflexivity|].
  rewrite insert_sorted_Permutation, IH. reflexivity.
Qed.

Lemma group_keys (n : Z) (ps : list Pattern) (idx : Z) :
  In idx (map fst (map_to_list (group_patterns n ps))) <->
  0 <= idx < n /\ at_index idx ps <> [].
Proof.
  rewrite in_map_iff. split.
  - intros ([k g] & <- & Hin). simpl.
    apply list_elem_of_In, elem_of_map_to_list in Hin.
    rewrite group_patterns_lookup in Hin. unfold expected_group in Hin.
    destruct ((0 <=? k) && (k <? n)) eqn:Hr; [|discriminate].
    destruct (at_index k ps); [discriminate|]. split; [lia | discriminate].
  - intros [Hr Hne].
    destruct (at_index idx ps) as [|a g] eqn:Hg; [congruence|].
    exists (idx, a :: g). split; [reflexivity|].
    apply list_elem_of_In, elem_of_map_to_list.
    rewrite group_patterns_lookup. unfold expected_group. rewrite Hg.
    replace ((0 <=? idx) && (idx <? n)) with true; [reflexivity|].
    symmetry. apply andb_true_iff. split; [apply Z.leb_le | apply Z.ltb_lt]; lia.
Qed.

Lemma group_keys_NoDup (n : Z) (ps : list Pattern) :
  List.NoDup (map fst (map_to_list (group_patterns n ps))).
Proof.
  apply NoDup_ListNoDup.
  replace (map fst (map_to_list (group_patterns n ps)))
    with ((map_to_list (group_patterns n ps)).*1).
  - apply NoDup_fst_map_to_list.
  - generalize (map_to_list (group_patterns n ps)).
    intros l. induction l as [|x l IH]; simpl; [reflexivity | f_equal; exact IH].
Qed.

Lemma Sorted_weaken {A : Type} (R R' : A -> A -> Prop) (l : list A) :
  (forall a b, R a b -> R' a b) -> Sorted R l -> Sorted R' l.
Proof.
  intros Himp. induction 1 as [|a t Ht IH Hhd]; constructor; [exact IH|].
  destruct Hhd as [|b t' Hab]; constructor. apply Himp, Hab.
Qed.

Lemma sorted_indices_ascending (keys : list Z) :
  List.NoDup keys -> StronglySorted Z.lt (py_sorted Z.ltb keys).
Proof.
  intros Hnd.
  assert (List.NoDup (py_sorted Z.ltb keys)) as Hnd'.
  { eapply Permutation_NoDup; [symmetry; apply py_sorted_Permutation | exact Hnd]. }
  assert (StronglySorted Z.le (py_sorted Z.ltb keys)) as Hs.
  { apply Sorted_StronglySorted; [intros a b c; apply Z.le_trans|].
    apply (Sorted_weaken (fun a b => (b <? a) = false)).
    - intros a b Hab. apply Z.ltb_ge, Hab.
    - apply py_sorted_Sorted. intros a b Hab. apply Z.ltb_lt in Hab.
      apply Z.ltb_ge. lia. }
  revert Hnd'. generalize (py_sorted Z.ltb keys) Hs. clear.
  intros l Hs. induction Hs as [|a t Ht IH Hall]; intros Hnd'; constructor.
  - apply IH. inversion Hnd'; assumption.
  - inversion Hnd' as [|? ? Hnotin _]; subst.
    rewrite List.Forall_forall in *. intros b Hb.
    specialize (Hall b Hb). assert (a <> b) by (intros ->; contradiction). lia.
Qed.

Lemma StronglySorted_drop {A : Type} (R : A -> A -> Prop) (m : nat) (l : list A) :
  StronglySorted R l -> StronglySorted R (drop m l).
Proof.
  revert l. induction m as [|m IH]; intros l Hs; [rewrite drop_0; exact Hs|].
  destruct l as [|x l]; simpl; [constructor|].
  apply IH. inversion Hs; assumption.
Qed.

Lemma map_fst_omap {A B : Type} (f : A -> option (A * B)) (l : list A) :
  (forall x, In x l -> exists y, f x = Some (x, y)) ->
  map fst (omap f l) = l.
Proof.
  induction l as [|x l IH]; intros H; [reflexivity|].
  destruct (H x) as [y Hy]; [simpl; tauto|].
  change (omap f (x :: l))
    with (match f x with Some y => y :: omap f l | None => omap f l end).
  rewrite Hy. change (map fst ((x, y) :: omap f l)) with (x :: map fst (omap f l)).
  f_equal. apply IH. intros z Hz. apply H. simpl. tauto.
Qed.

(** The indices that get a mark: the last [limit] of the sorted keys of
    [pattern_groups]; no index loses its mark on the way. *)
Lemma marked_indices (limit n : Z) (ps : list Pattern) :
  map fst (main_patterns limit n ps)
  = slice_last limit (py_sorted Z.ltb (map fst (map_to_list (group_patterns n ps)))).
Proof.
  unfold main_patterns. apply map_fst_omap.
  intros idx Hidx. apply In_slice_last, In_py_sorted, group_keys in Hidx.
  destruct Hidx as [Hr Hne].
  rewrite group_patterns_lookup. unfold expected_group.
  replace ((0 <=? idx) && (idx <? n)) with true
    by (symmetry; apply andb_true_iff; split; [apply Z.leb_le | apply Z.ltb_lt]; lia).
  destruct (at_index idx ps) as [|a g] eqn:Hg; [congruence|].
  destruct (sort_by_reliability (a :: g)) as [|m rest] eqn:Hs.
  - apply (f_equal length) in Hs. unfold sort_by_reliability in Hs.
    rewrite length_py_sorted in Hs. discriminate.
  - eauto.
Qed.

(** X14. With a limit of at least 1 (30 in main.py, 20 in
    advanced_charts.py) the chart marks at most [limit] indices, each
    once and in ascending order; every marked index is a position of
    the frame with a detected pattern, and the marks go to the last
    such positions: one that is left out lies before every marked
    index. *)
Theorem marks_go_to_last_indices (limit n : Z) (ps : list Pattern) :
  1 <= limit ->
  StronglySorted Z.lt (map fst (main_patterns limit n ps)) /\
  Z.of_nat (length (main_patterns limit n ps)) <= limit /\
  (forall idx, In idx (map fst (main_patterns limit n ps)) ->
               0 <= idx < n /\ at_index idx ps <> []) /\
  (forall idx, 0 <= idx < n -> at_index idx ps <> [] ->
               In idx (map fst (main_patterns limit n ps)) \/
               forall j, In j (map fst (main_patterns limit n ps)) -> idx < j).
Proof.
  intros Hlimit.
  pose proof (sorted_indices_ascending _ (group_keys_NoDup n ps)) as Hs.
  assert (Z.of_nat (length (map fst (main_patterns limit n ps))) <= limit) as Hlen.
  { rewrite marked_indices. apply length_slice_last, Hlimit. }
  rewrite length_map in Hlen.
  rewrite marked_indices.
  set (sorted := py_sorted Z.ltb (map fst (map_to_list (group_patterns n ps)))) in *.
  unfold slice_last. replace (0 <? limit) with true by (symmetry; apply Z.ltb_lt; lia).
  set (m := (length sorted - Z.to_nat limit)%nat).
  split; [apply StronglySorted_drop, Hs|]. split; [exact Hlen|]. split.
  - intros idx Hidx. apply group_keys.
    apply (In_py_sorted Z.ltb). fold sorted.
    apply list_elem_of_In. apply list_elem_of_In in Hidx.
    eapply subseteq_drop, Hidx.
  - intros idx Hr Hne.
    assert (In idx (take m sorted ++ drop m sorted)) as Hin.
    { rewrite take_drop. apply In_py_sorted, group_keys. split; assumption. }
    rewrite <- (take_drop m sorted) in Hs.
    apply in_app_or in Hin. destruct Hin as [Hin|Hin]; [right | left; exact Hin].
    intros j Hj. eapply StronglySorted_app_le; eassumption.
Qed.

Lemma marks_go_to_last_indices_witness :
  StronglySorted Z.lt (map fst (main_patterns 30 5 [doji_at_3; hammer_at_3])) /\
  Z.of_nat (length (main_patterns 30 5 [doji_at_3; hammer_at_3])) <= 30 /\
  (forall idx, In idx (map fst (main_patterns 30 5 [doji_at_3; hammer_at_3])) ->
               0 <= idx < 5 /\ at_index idx [doji_at_3; hammer_at_3] <> []) /\
  (forall idx, 0 <= idx < 5 -> at_index idx [doji_at_3; hammer_at_3] <> [] ->
               In idx (map fst (main_patterns 30 5 [doji_at_3; hammer_at_3])) \/
               forall j, In j (map fst (main_patterns 30 5 [doji_at_3; hammer_at_3])) ->
                         idx < j).
Proof.
  apply (marks_go_to_last_indices 30 5 [doji_at_3; hammer_at_3]). lia.
Defined.

(** ** The JSON snapshot: what is converted *)



(** ** TargetCalculator: price targets *)

Lemma round2_sign (q : Q) :
  ((0 <= q)%Q -> (0 <= round2 q)%Q) /\ ((q <= 0)%Q -> (round2 q <= 0)%Q).
Proof.
  unfold round2. destruct (round_half_even_close (q * 100)) as [H1 H2].
  set (k := round_half_even (q * 100)) in *.
  assert (forall x : Q, (x / 100 == x * (1 # 100))%Q) as Hdiv by (intros x; field).
  split; intros Hq; rewrite Hdiv.
  - assert (inject_Z (-1) < inject_Z k)%Q as Hk
      by (change (inject_Z (-1)) with (-1 # 1)%Q; lra).
    rewrite <- Zlt_Qlt in Hk.
    assert (inject_Z 0 <= inject_Z k)%Q as Hk' by (rewrite <- Zle_Qle; lia).
    change (inject_Z 0) with 0%Q in Hk'. lra.
  - assert (inject_Z k < inject_Z 1)%Q as Hk
      by (change (inject_Z 1) with 1%Q; lra).
    rewrite <- Zlt_Qlt in Hk.
    assert (inject_Z k <= inject_Z 0)%Q as Hk' by (rewrite <- Zle_Qle; lia).
    change (inject_Z 0) with 0%Q in Hk'. lra.
Qed.

(** Above a positive price the distance is a number that is not
    negative; below it, one that is not positive. *)
Lemma distance_pct_sign (p cur : Q) :
  (0 < cur)%Q ->
  exists d, distance_pct p cur = Fin d /\
            ((cur < p)%Q -> (0 <= d)%Q) /\ ((p < cur)%Q -> (d <= 0)%Q).
Proof.
  intros Hcur. unfold distance_pct, fl_div.
  destruct (Qeq_bool cur 0) eqn:E.
  { apply Qeq_bool_iff in E. lra. }
  simpl. eexists. split; [reflexivity|].
  destruct (round2_sign ((p - cur) / cur * 100)) as [Hpos Hneg].
  assert (/ cur > 0)%Q as Hinv by (apply Qinv_lt_0_compat, Hcur).
  split; intros Hp.
  - apply Hpos. unfold Qdiv. nra.
  - apply Hneg. unfold Qdiv. nra.
Qed.

Lemma In_collect_targets {B : Type} (keep : Q -> bool) (label : B -> string)
    (value : B -> Q) (cur : Q) (items : list B) (x : Target) :
  In x (collect_targets keep label value cur items) ->
  exists y, keep (value y) = true /\ tgt_distance x = distance_pct (value y) cur.
Proof.
  unfold collect_targets. rewrite in_map_iff. intros [y [<- Hy]].
  apply List.filter_In in Hy. exists y. split; [apply Hy|reflexivity].
Qed.

Lemma fl_ltb_asym (a b : fl) : fl_ltb a b = true -> fl_ltb b a = false.
Proof.
  destruct a, b; simpl; try reflexivity; try discriminate.
  intros H. apply Qltb_lt in H. apply Qltb_ge. lra.
Qed.

Lemma StronglySorted_take {A : Type} (R : A -> A -> Prop) (m : nat) (l : list A) :
  StronglySorted R l -> StronglySorted R (take m l).
Proof.
  revert m. induction l as [|x l IH]; intros m Hs; destruct m; simpl;
    try constructor.
  - apply IH. inversion Hs; assumption.
  - inversion Hs as [|? ? _ Hall]; subst.
    rewrite List.Forall_forall in *. intros y Hy. apply Hall.
    rewrite <- (take_drop m l). apply in_or_app. left. exact Hy.
Qed.

(** A list sorted by a key is sorted by magnitude when the keys are
    numbers of one sign. *)
Lemma sorted_by_distance (key : fl -> fl) (sgn : Q -> Prop) (l : list Target) :
  (forall da db, sgn da -> sgn db ->
                 fl_ltb (key (Fin db)) (key (Fin da)) = false ->
                 (Qabs da <= Qabs db)%Q) ->
  Forall (fun x => exists d, tgt_distance x = Fin d /\ sgn d) l ->
  Sorted (fun a b => fl_ltb (key (tgt_distance b)) (key (tgt_distance a)) = false) l ->
  StronglySorted nearer_or_equal l.
Proof.
  intros Hkey Hall Hs.
  apply Sorted_StronglySorted.
  { intros a b c. unfold nearer_or_equal.
    destruct (tgt_distance a), (tgt_distance b), (tgt_distance c);
      try tauto. apply Qle_trans. }
  induction Hs as [|a t Ht IH Hhd]; [constructor|].
  apply List.Forall_cons_iff in Hall. destruct Hall as [[da [Ha Hsa]] Hall].
  constructor; [apply IH, Hall|].
  destruct Hhd as [|b t' Hab]; constructor.
  apply List.Forall_cons_iff in Hall. destruct Hall as [[db [Hb Hsb]] _].
  unfold nearer_or_equal. rewrite Ha, Hb in *.
  apply (Hkey _ _ Hsa Hsb Hab).
Qed.

(** X16. At a positive last close, calculate_price_targets returns at
    most five targets on each side; the distance of every bullish target
    is a number that is not negative and that of every bearish target
    one that is not positive; both lists are in the order of the
    magnitude of the distance, the nearest target first. *)
Theorem price_targets_nearest_first
    (self : TechnicalAnalysis) (df : DataFrame) (t : PriceTargets) :
  data self = Some df ->
  (0 < iloc_last (rows df) Close)%Q ->
  calculate_price_targets self = Some t ->
  (length (bullish_targets t) <= 5)%nat /\
  (length (bearish_targets t) <= 5)%nat /\
  Forall (fun x => exists d, tgt_distance x = Fin d /\ (0 <= d)%Q) (bullish_targets t) /\
  Forall (fun x => exists d, tgt_distance x = Fin d /\ (d <= 0)%Q) (bearish_targets t) /\
  StronglySorted nearer_or_equal (bullish_targets t) /\
  StronglySorted nearer_or_equal (bearish_targets t).
Proof.
  intros Hdf Hcur. unfold calculate_price_targets. rewrite Hdf.
  destruct (df_empty df); [discriminate|].
  set (cur := iloc_last (rows df) Close) in *.
  set (bullish := _ ++ _ ++ _). set (bearish := _ ++ _ ++ _).
  intros [= <-]. cbn [bullish_targets bearish_targets].
  assert (Forall (fun x => exists d, tgt_distance x = Fin d /\ (0 <= d)%Q) bullish) as Hbull.
  { apply List.Forall_forall. intros x Hx. unfold bullish in Hx.
    assert (exists p, Qgtb p cur = true /\ tgt_distance x = distance_pct p cur)
      as [p [Hp ->]].
    { rewrite !in_app_iff in Hx.
      destruct (fibonacci_levels self), (ind_Pivots (indicators self)),
        (support_resistance self);
        repeat match goal with
               | H : _ \/ _ |- _ => destruct H as [H|H]
               | H : In _ [] |- _ => destruct H
               | H : In _ (_ ++ _) |- _ => apply in_app_or in H
               | H : In _ (collect_targets _ _ _ _ _) |- _ =>
                   apply In_collect_targets in H; destruct H as [y [Hy ->]];
                   try (apply andb_true_iff in Hy; destruct Hy as [_ Hy]);
                   eexists; split; [exact Hy|reflexivity]
               end. }
    apply Qltb_lt in Hp.
    destruct (distance_pct_sign p cur Hcur) as [d [-> [Hpos _]]].
    exists d. split; [reflexivity|apply Hpos, Hp]. }
  assert (Forall (fun x => exists d, tgt_distance x = Fin d /\ (d <= 0)%Q) bearish) as Hbear.
  { apply List.Forall_forall. intros x Hx. unfold bearish in Hx.
    assert (exists p, Qltb p cur = true /\ tgt_distance x = distance_pct p cur)
      as [p [Hp ->]].
    { rewrite !in_app_iff in Hx.
      destruct (fibonacci_levels self), (ind_Pivots (indicators self)),
        (support_resistance self);
        repeat match goal with
               | H : _ \/ _ |- _ => destruct H as [H|H]
               | H : In _ [] |- _ => destruct H
               | H : In _ (_ ++ _) |- _ => apply in_app_or in H
               | H : In _ (collect_targets _ _ _ _ _) |- _ =>
                   apply In_collect_targets in H; destruct H as [y [Hy ->]];
                   try (apply andb_true_iff in Hy; destruct Hy as [_ Hy]);
                   eexists; split; [exact Hy|reflexivity]
               end. }
    apply Qltb_lt in Hp.
    destruct (distance_pct_sign p cur Hcur) as [d [-> [_ Hneg]]].
    exists d. split; [reflexivity|apply Hneg, Hp]. }
  set (by_distance := fun a b : Target => fl_ltb (tgt_distance a) (tgt_distance b)).
  set (by_magnitude := fun a b : Target =>
                         fl_ltb (fl_abs (tgt_distance a)) (fl_abs (tgt_distance b))).
  assert (Forall (fun x => exists d, tgt_distance x = Fin d /\ (0 <= d)%Q)
                 (py_sorted by_distance bullish)) as Hbull'.
  { apply List.Forall_forall. intros x Hx. apply In_py_sorted in Hx.
    rewrite List.Forall_forall in Hbull. apply Hbull, Hx. }
  assert (Forall (fun x => exists d, tgt_distance x = Fin d /\ (d <= 0)%Q)
                 (py_sorted by_magnitude bearish)) as Hbear'.
  { apply List.Forall_forall. intros x Hx. apply In_py_sorted in Hx.
    rewrite List.Forall_forall in Hbear. apply Hbear, Hx. }
  change (slice_first 5 ?l) with (take 5 l).
  repeat split.
  - rewrite length_take. lia.
  - rewrite length_take. lia.
  - apply Forall_take, Hbull'.
  - apply Forall_take, Hbear'.
  - apply StronglySorted_take.
    apply (sorted_by_distance (fun k => k) (fun d => (0 <= d)%Q)); [| exact Hbull' |].
    + intros da db Ha Hb Hab. apply Qltb_ge in Hab.
      rewrite !Qabs_pos by assumption. exact Hab.
    + apply (py_sorted_Sorted by_distance). intros a b. apply fl_ltb_asym.
  - apply StronglySorted_take.
    apply (sorted_by_distance fl_abs (fun d => (d <= 0)%Q)); [| exact Hbear' |].
    + intros da db _ _ Hab. apply Qltb_ge in Hab. exact Hab.
    + apply (py_sorted_Sorted by_magnitude). intros a b. apply fl_ltb_asym.
Qed.

Lemma price_targets_nearest_first_witness :
  exists t : PriceTargets,
    calculate_price_targets analysed_self = Some t /\
    bullish_targets t <> [] /\ bearish_targets t <> [] /\
    StronglySorted nearer_or_equal (bullish_targets t) /\
    StronglySorted nearer_or_equal (bearish_targets t).
Proof.
  destruct (calculate_price_targets analysed_self) as [t|] eqn:E;
    [|vm_compute in E; discriminate].
  exists t.
  destruct (price_targets_nearest_first analysed_self sr_frame t)
    as (_ & _ & _ & _ & Hb & Hs); [reflexivity | reflexivity | exact E |].
  destruct t as [bull bear]. cbn [bullish_targets bearish_targets] in *.
  repeat split; try assumption.
  - intros ->. vm_compute in E. discriminate.
  - intros ->. vm_compute in E. discriminate.
Defined.

(** ** LLMClient: the market direction *)

Lemma market_score_range (ind : Indicators) (probabilities : option Probabilities) :
  -6 <= (market_score ind probabilities).1 <= 6 /\
  (length (market_score ind probabilities).2 <= 3)%nat.
Proof.
  unfold market_score.
  destruct (get_scalar (ind_RSI ind)) as [rsi|];
    [destruct (fl_truthy rsi);
     [destruct (fl_gtb rsi (Fin 70));
      [|destruct (fl_gtb rsi (Fin 50)); [|destruct (fl_ltb rsi (Fin 30))]]|]|];
    (destruct (ind_MACD ind) as [macd|];
     [destruct (macd_histogram macd) as [hist|];
      [destruct (fl_gtb hist (Fin 0))|]|]);
    cbv zeta;
    match goal with
    | |- context [Qgtb ?a ?b] =>
        destruct (Qgtb a b);
        [|match goal with
          | |- context [Qgtb ?c ?d] => destruct (Qgtb c d)
          end]
    end;
    cbn; lia.
Qed.

(** The strength is the same function of the score in both languages. *)
Lemma strength_of_score (ind : Indicators) (probabilities : option Probabilities)
    (language : string) :
  let m := _determine_market_direction ind probabilities language in
  md_score m = (market_score ind probabilities).1 /\
  md_factors m = (market_score ind probabilities).2 /\
  md_strength m =
    (if 3 <=? md_score m then Z.min 10 (7 + md_score m / 2)
     else if 1 <=? md_score m then 6
     else if -1 <=? md_score m then 5
     else if -3 <=? md_score m then 4
     else Z.max 1 (3 + md_score m / 2)).
Proof.
  unfold _determine_market_direction.
  destruct (market_score ind probabilities) as [score factors].
  destruct (String.eqb language "en");
    (destruct (3 <=? score) eqn:E3;
     [|destruct (1 <=? score) eqn:E1;
       [|destruct (-1 <=? score) eqn:E0;
         [|destruct (-3 <=? score) eqn:En]]]);
    cbn [md_score md_factors md_strength fst snd];
    rewrite ?E3, ?E1, ?E0, ?En; repeat split; reflexivity.
Qed.

(** X17. The score of _determine_market_direction lies between -6 and
    6 and its strength between 1 and 10, with at most three factors; the
    strength is above 5 exactly when the score is at least 1 and below 5
    exactly when the score is at most -2. *)
Theorem market_direction_ranges (ind : Indicators)
    (probabilities : option Probabilities) (language : string) :
  let m := _determine_market_direction ind probabilities language in
  -6 <= md_score m <= 6 /\
  1 <= md_strength m <= 10 /\
  (length (md_factors m) <= 3)%nat /\
  (5 < md_strength m <-> 1 <= md_score m) /\
  (md_strength m < 5 <-> md_score m <= -2).
Proof.
  intros m.
  destruct (strength_of_score ind probabilities language) as (Hs & Hf & Hst).
  destruct (market_score_range ind probabilities) as [Hr Hl].
  fold m in Hs, Hf, Hst. rewrite <- Hs in Hr. rewrite <- Hf in Hl.
  rewrite Hst. clear Hst.
  split; [exact Hr|]. 
  assert (md_score m / 2 * 2 <= md_score m < md_score m / 2 * 2 + 2) as Hdiv.
  { pose proof (Z.div_mod (md_score m) 2 ltac:(lia)) as H1.
    pose proof (Z.mod_pos_bound (md_score m) 2 ltac:(lia)) as H2. lia. }
  destruct (3 <=? md_score m) eqn:E3; [apply Z.leb_le in E3|apply Z.leb_gt in E3];
    [|destruct (1 <=? md_score m) eqn:E1; [apply Z.leb_le in E1|apply Z.leb_gt in E1];
      [|destruct (-1 <=? md_score m) eqn:E0; [apply Z.leb_le in E0|apply Z.leb_gt in E0];
        [|destruct (-3 <=? md_score m) eqn:En;
          [apply Z.leb_le in En|apply Z.leb_gt in En]]]];
    repeat split; try exact Hl; lia.
Qed.

(** X18. In _determine_market_direction the language changes only the
    texts: score, factors and strength are those of every other
    language; and of two results, in whatever languages, the one with
    the higher score never has the lower strength. *)
Theorem market_direction_strength_monotone
    (ind1 ind2 : Indicators) (probabilities1 probabilities2 : option Probabilities)
    (language1 language1' language2 : string) :
  let m1 := _determine_market_direction ind1 probabilities1 language1 in
  let m1' := _determine_market_direction ind1 probabilities1 language1' in
  let m2 := _determine_market_direction ind2 probabilities2 language2 in
  md_score m1' = md_score m1 /\
  md_factors m1' = md_factors m1 /\
  md_strength m1' = md_strength m1 /\
  (md_score m1 <= md_score m2 -> md_strength m1 <= md_strength m2).
Proof.
  intros m1 m1' m2.
  destruct (strength_of_score ind1 probabilities1 language1) as (Hs1 & Hf1 & Hst1).
  destruct (strength_of_score ind1 probabilities1 language1') as (Hs1' & Hf1' & Hst1').
  destruct (strength_of_score ind2 probabilities2 language2) as (Hs2 & Hf2 & Hst2).
  fold m1 in Hs1, Hf1, Hst1. fold m1' in Hs1', Hf1', Hst1'. fold m2 in Hs2, Hf2, Hst2.
  assert (md_score m1' = md_score m1) as Hs by (rewrite Hs1, Hs1'; reflexivity).
  split; [exact Hs|].
  split; [rewrite Hf1, Hf1'; reflexivity|].
  split; [rewrite Hst1, Hst1', Hs; reflexivity|].
  intros Hle. rewrite Hst1, Hst2.
  assert (md_score m1 / 2 <= md_score m2 / 2) as Hdiv
    by (apply Z.div_le_mono; lia).
  pose proof (Z.div_mod (md_score m1) 2 ltac:(lia)) as Hd1.
  pose proof (Z.mod_pos_bound (md_score m1) 2 ltac:(lia)) as Hm1.
  pose proof (Z.div_mod (md_score m2) 2 ltac:(lia)) as Hd2.
  pose proof (Z.mod_pos_bound (md_score m2) 2 ltac:(lia)) as Hm2.
  repeat match goal with
         | |- context [?a <=? ?b] =>
             let E := fresh "E" in
             destruct (a <=? b) eqn:E;
             [apply Z.leb_le in E|apply Z.leb_gt in E]
         end; lia.
Qed.

Lemma market_direction_strength_monotone_witness :
  md_strength (_determine_market_direction no_indicators None "de") <=
  md_strength (_determine_market_direction
                 (mkIndicators (Some (Some (Fin 25))) None None None None None None None false)
                 None "en").
Proof.
  destruct (market_direction_strength_monotone
              no_indicators
              (mkIndicators (Some (Some (Fin 25))) None None None None None None None false)
              None None "de" "fr" "en") as (_ & _ & _ & H).
  apply H. vm_compute. discriminate.
Defined.

(** ** AdvancedCharts: Renko bricks *)










Lemma py_int_nonpos (x : Q) : (x <= 0)%Q -> py_int x <= 0.
Proof.
  intros Hx. unfold py_int. destruct x as [n d]. simpl.
  unfold Qle in Hx. simpl in Hx.
  transitivity (Z.quot 0 (Z.pos d)); [apply Z.quot_le_mono; lia|].
  rewrite Z.quot_0_l; lia.
Qed.

Lemma renko_step_no_brick (brick_size : fl) (cur price : Q) (st' : Q * list Brick) :
  (forall b, brick_size = Fin b -> (b <= 0)%Q) ->
  renko_step brick_size (cur, []) price = inl st' -> st' = (cur, []).
Proof.
  intros Hsize. unfold renko_step. cbn [fst].
  destruct brick_size as [b| | |]; try (intros [= <-]; reflexivity).
  specialize (Hsize b eq_refl).
  destruct (Qle_bool b (Qabs (price - cur))); [|intros [= <-]; reflexivity].
  destruct (Qeq_bool b 0) eqn:Hz.
  { destruct (Qeq_bool (Qabs (price - cur)) 0); discriminate. }
  apply Qeq_bool_neq in Hz.
  assert (py_int (Qabs (price - cur) / b) <= 0) as Hn.
  { apply py_int_nonpos. pose proof (Qabs_nonneg (price - cur)) as Hm.
    assert (b < 0)%Q as Hb by (apply Qle_lteq in Hsize; tauto).
    assert (/ b < 0)%Q as Hi.
    { assert (0 < / - b)%Q as H by (apply Qinv_lt_0_compat; lra).
      assert (/ - b == - / b)%Q as H' by (field; lra). lra. }
    unfold Qdiv. nra. }
  replace (Z.to_nat (py_int (Qabs (price - cur) / b))) with O by lia.
  intros [= <-]. reflexivity.
Qed.

(** X20. Without a positive brick size create_renko_chart draws no
    brick: with a size that is negative, infinite or NaN the list of
    bricks stays empty, and with the size zero the conversion of the
    quotient raises at the second close, ValueError when the close has
    not moved and OverflowError when it has. *)
Theorem renko_needs_positive_brick_size (prices : list Q) (brick_size : fl) :
  (forall b, brick_size = Fin b -> (b <= 0)%Q) ->
  (forall bricks, renko_bricks prices brick_size = inl bricks -> bricks = []) /\
  (forall first second rest,
     prices = first :: second :: rest -> brick_size = Fin 0 ->
     renko_bricks prices brick_size =
       inr (if Qeq_bool (Qabs (second - first)) 0 then ValueError else OverflowError)).
Proof.
  intros Hsize. split.
  - intros bricks. unfold renko_bricks. destruct prices as [|first rest]; [discriminate|].
    revert first. induction rest as [|price rest IH]; intros cur.
    + cbn. intros [= <-]. reflexivity.
    + cbn [renko_loop].
      destruct (renko_step brick_size (cur, []) price) as [st'|e] eqn:E; [|discriminate].
      apply (renko_step_no_brick _ _ _ _ Hsize) in E. subst st'. apply IH.
  - intros first second rest -> ->.
    unfold renko_bricks. cbn [renko_loop]. unfold renko_step. cbn [fst].
    assert (Qle_bool 0 (Qabs (second - first)) = true) as ->
      by (apply Qle_bool_iff, Qabs_nonneg).
    change (Qeq_bool 0 0) with true. cbv iota.
    destruct (Qeq_bool (Qabs (second - first)) 0); reflexivity.
Qed.


Lemma renko_needs_positive_brick_size_witness :
  renko_bricks [1; 2]%Q (Fin 0) = inr OverflowError.
Proof.
  destruct (renko_needs_positive_brick_size [1; 2]%Q (Fin 0)) as [_ H].
  - intros b [= <-]. apply Qle_refl.
  - exact (H 1%Q 2%Q [] eq_refl eq_refl).
Defined.

(** ** LLMClient: the report follows the direction *)

(** The label of the direction, by language and score. *)
Lemma primary_of_score (ind : Indicators) (probabilities : option Probabilities)
    (language : string) :
  let m := _determine_market_direction ind probabilities language in
  md_primary m =
    (if String.eqb language "en" then
       if 3 <=? md_score m then "STRONG BULLISH 🚀"
       else if 1 <=? md_score m then "BULLISH 📈"
       else if -1 <=? md_score m then "NEUTRAL ➡️"
       else if -3 <=? md_score m then "BEARISH 📉"
       else "STRONG BEARISH 🔻"
     else
       if 3 <=? md_score m then "STARK BULLISCH 🚀"
       else if 1 <=? md_score m then "BULLISCH 📈"
       else if -1 <=? md_score m then "NEUTRAL ➡️"
       else if -3 <=? md_score m then "BEARISCH 📉"
       else "STARK BEARISCH 🔻").
Proof.
  unfold _determine_market_direction.
  destruct (market_score ind probabilities) as [score factors].
  destruct (String.eqb language "en");
    (destruct (3 <=? score) eqn:E3;
     [|destruct (1 <=? score) eqn:E1;
       [|destruct (-1 <=? score) eqn:E0;
         [|destruct (-3 <=? score) eqn:En]]]);
    cbn [md_score md_primary];
    rewrite ?E3, ?E1, ?E0, ?En; reflexivity.
Qed.

(** X21. The action items and the opening sentence of the trend
    description go by the German label of the direction: in every
    language but 'en' they are the bullish ones exactly when the score
    is at least 1 and the bearish ones exactly when it is at most -2;
    the English labels contain neither marker, so that with 'en' the
    neutral texts are returned whatever the score. *)
Theorem report_sections_follow_german_label (ind : Indicators)
    (probabilities : option Probabilities) (language : string) :
  let m := _determine_market_direction ind probabilities language in
  if String.eqb language "en" then
    _generate_action_items m = WaitActions /\
    (_get_trend_description m).1 = NeutralPhase
  else
    (_generate_action_items m = LongActions <-> 1 <= md_score m) /\
    (_generate_action_items m = ShortActions <-> md_score m <= -2) /\
    ((_get_trend_description m).1 = BullishTendency <-> 1 <= md_score m) /\
    ((_get_trend_description m).1 = BearishTendency <-> md_score m <= -2).
Proof.
  intros m. pose proof (primary_of_score ind probabilities language) as Hp.
  fold m in Hp. unfold _generate_action_items, _get_trend_description.
  cbn [fst]. rewrite Hp. clear Hp.
  destruct (String.eqb language "en");
    (destruct (3 <=? md_score m) eqn:E3;
     [apply Z.leb_le in E3
     |apply Z.leb_gt in E3; destruct (1 <=? md_score m) eqn:E1;
      [apply Z.leb_le in E1
      |apply Z.leb_gt in E1; destruct (-1 <=? md_score m) eqn:E0;
       [apply Z.leb_le in E0
       |apply Z.leb_gt in E0; destruct (-3 <=? md_score m) eqn:En;
        [apply Z.leb_le in En|apply Z.leb_gt in En]]]]);
    vm_compute contains; cbv iota;
    repeat split; try reflexivity; try discriminate; intros; lia.
Qed.

(** ** main.py: the ticks of the time axis *)

Lemma tick_labels_returns (fmt : Z -> TickLabel) (r : list Candle) (ticks : list Z) :
  Forall (fun i => 0 <= i < Z.of_nat (length r)) ticks ->
  exists labels, tick_labels fmt r ticks = inl labels /\ length labels = length ticks.
Proof.
  induction ticks as [|i rest IH]; intros Hall.
  - exists []. split; reflexivity.
  - apply List.Forall_cons_iff in Hall. destruct Hall as [Hi Hall].
    destruct (IH Hall) as (labels & E & Hlen).
    cbn [tick_labels]. destruct (i <? 0) eqn:Hneg; [apply Z.ltb_lt in Hneg; lia|].
    destruct (r !! Z.to_nat i) as [c|] eqn:Hc.
    + rewrite E. eexists. split; [reflexivity|]. simpl. rewrite Hlen. reflexivity.
    + apply lookup_ge_None in Hc. lia.
Qed.

Lemma tick_step_bounds (n : Z) :
  0 <= n ->
  let step := if 100 <? n then n / 20 else Z.max 1 (n / 10) in
  1 <= step /\ (n + step - 1) / step <= 24 /\
  (100 < n -> 20 <= (n + step - 1) / step) /\
  (1 <= n -> 1 <= (n + step - 1) / step).
Proof.
  intros Hn. cbv zeta.
  destruct (100 <? n) eqn:E; [apply Z.ltb_lt in E|apply Z.ltb_ge in E].
  - pose proof (Z.div_mod n 20 ltac:(lia)) as Hd.
    pose proof (Z.mod_pos_bound n 20 ltac:(lia)) as Hm.
    set (s := n / 20) in *.
    assert (5 <= s) by lia.
    split; [lia|]. split; [|split].
    + apply Z.lt_succ_r. apply Z.div_lt_upper_bound; lia.
    + intros _. apply Z.div_le_lower_bound; lia.
    + intros _. apply Z.div_le_lower_bound; lia.
  - pose proof (Z.div_mod n 10 ltac:(lia)) as Hd.
    pose proof (Z.mod_pos_bound n 10 ltac:(lia)) as Hm.
    set (q := n / 10) in *.
    set (s := Z.max 1 q).
    assert (1 <= s) by lia.
    split; [lia|]. split; [|split].
    + apply Z.lt_succ_r. apply Z.div_lt_upper_bound; [lia|].
      destruct (Z.max_spec 1 q) as [[? Hs]|[? Hs]]; fold s in Hs; rewrite Hs; lia.
    + lia.
    + intros H1. apply Z.div_le_lower_bound; lia.
Qed.

Lemma multiples_ascending (step : Z) (a m : nat) :
  1 <= step ->
  StronglySorted Z.lt (map (fun k => Z.of_nat k * step) (seq a m)).
Proof.
  intros Hs. revert a. induction m as [|m IH]; intros a; simpl; constructor.
  - apply IH.
  - apply List.Forall_forall. intros x Hx. apply in_map_iff in Hx.
    destruct Hx as (k & <- & Hk). apply in_seq in Hk. nia.
Qed.

(** X22. prepare_data_without_gaps never raises: the step of the ticks
    is at least 1 and every tick is a position of the frame.  The ticks
    ascend, start at 0 when the frame has a row, and come with one label
    each; there are at most 24 of them, and at least 20 for a frame of
    more than 100 rows. *)
Theorem axis_ticks (data : DataFrame) (interval : string) :
  let n := Z.of_nat (df_len data) in
  exists labels ticks,
    prepare_data_without_gaps data interval = inl (labels, ticks) /\
    length labels = length ticks /\
    Forall (fun i => 0 <= i < n) ticks /\
    StronglySorted Z.lt ticks /\
    (length ticks <= 24)%nat /\
    (100 < n -> (20 <= length ticks)%nat) /\
    (1 <= n -> head ticks = Some 0).
Proof.
  intros n. unfold prepare_data_without_gaps. fold n.
  destruct (tick_step_bounds n ltac:(lia)) as (Hstep & Hmax & Hmin & Hone).
  set (step := if 100 <? n then n / 20 else Z.max 1 (n / 10)) in *.
  unfold range_by.
  destruct (step =? 0) eqn:E0; [apply Z.eqb_eq in E0; lia|].
  destruct (step <? 0) eqn:E1; [apply Z.ltb_lt in E1; lia|].
  set (M := (n + step - 1) / step) in *.
  set (ticks := map (fun k => Z.of_nat k * step) (seq 0 (Z.to_nat M))).
  assert (0 <= M) as HM by (apply Z.div_pos; lia).
  assert (Forall (fun i => 0 <= i < n) ticks) as Hin.
  { apply List.Forall_forall. intros x Hx. apply in_map_iff in Hx.
    destruct Hx as (k & <- & Hk). apply in_seq in Hk.
    pose proof (Z.mul_div_le (n + step - 1) step ltac:(lia)) as Hle. fold M in Hle.
    nia. }
  destruct (tick_labels_returns
              (if existsb (String.eqb interval) ["1m"; "5m"; "15m"; "30m"; "1h"]
               then DayAndTime else Day) (rows data) ticks Hin)
    as (labels & E & Hlen).
  rewrite E. exists labels, ticks. split; [reflexivity|].
  assert (length ticks = Z.to_nat M) as Hl
    by (unfold ticks; rewrite length_map, length_seq; reflexivity).
  repeat split; try assumption.
  - apply multiples_ascending, Hstep.
  - lia.
  - intros H. specialize (Hmin H). lia.
  - intros H. specialize (Hone H). unfold ticks.
    destruct (Z.to_nat M) eqn:EM; [lia|]. reflexivity.
Qed.

(** ** AdvancedCharts: Point & Figure columns *)









Lemma pnf_loop_zero_box (b : Q) (reversal : Z) (prices : list Q) (st : PnfState) :
  (b == 0)%Q ->
  current_direction st = None \/ current_direction st = Some (-1) ->
  Exists (fun p => ~ (p == pnf_price st)%Q) prices ->
  pnf_loop b reversal st prices = inr OverflowError.
Proof.
  intros Hb. revert st. induction prices as [|price rest IH]; intros st Hd Hex.
  { inversion Hex. }
  cbn [pnf_loop]. unfold pnf_step, fl_div.
  assert (Qeq_bool b 0 = true) as -> by (apply Qeq_bool_iff, Hb).
  destruct (Qcompare (price - pnf_price st) 0) eqn:Hc.
  - (* the price has not moved: NaN *)
    apply Qeq_alt in Hc.
    assert (price == pnf_price st)%Q as Heq by lra.
    apply List.Exists_cons in Hex. destruct Hex as [Hex|Hex]; [tauto|].
    destruct Hd as [-> | ->]; cbn; apply IH; cbn; tauto.
  - destruct Hd as [-> | ->]; reflexivity.
  - destruct Hd as [-> | ->]; reflexivity.
Qed.

(** X24. With a box size of zero (the automatic size of a frame whose
    highest high is its lowest low) create_point_and_figure_chart
    raises OverflowError as soon as a close differs from the first
    close. *)
Theorem point_and_figure_zero_box
    (data : DataFrame) (box_size : option Q) (reversal : Z) (c : Candle) (r : list Candle) :
  (pnf_box_size data box_size == 0)%Q -> rows data = c :: r ->
  Exists (fun c' => ~ (Close c' == Close c)%Q) r ->
  pnf_columns data box_size reversal = inr OverflowError.
Proof.
  intros Hb Hrows Hex. unfold pnf_columns. rewrite Hrows. cbn [map].
  rewrite (pnf_loop_zero_box _ reversal (map Close r) _ Hb); [reflexivity|left; reflexivity|].
  cbn [pnf_price]. apply List.Exists_exists. apply List.Exists_exists in Hex.
  destruct Hex as (c' & Hin & Hne). exists (Close c'). split; [|exact Hne].
  apply in_map, Hin.
Qed.


Lemma point_and_figure_zero_box_witness :
  pnf_columns sr_frame (Some 0%Q) 3 = inr OverflowError.
Proof.
  apply (point_and_figure_zero_box sr_frame (Some 0%Q) 3
           (List.hd dummy_candle (rows sr_frame)) (List.tl (rows sr_frame))).
  - reflexivity.
  - reflexivity.
  - apply List.Exists_cons_hd. apply Qeq_bool_neq. reflexivity.
Defined.

(** ** PatternRecognizer: signals, trends and bars *)

(** A bar that fills its range to more than 95 % and does not close
    above its open closes below it. *)
Lemma marubozu_falls (r : list Candle) (i : nat) :
  Qgtb (iloc r High i - iloc r Low i) 0 = true ->
  Qgtb (_calculate_body_height r i / (iloc r High i - iloc r Low i)) 0.95 = true ->
  _is_bullish_candle r i = false ->
  (iloc r Close i < iloc r Open i)%Q.
Proof.
  unfold _is_bullish_candle, _calculate_body_height, Qgtb.
  intros Hr Hb Hc. apply Qltb_lt in Hr, Hb. apply Qltb_ge in Hc.
  destruct (Qlt_le_dec (iloc r Close i) (iloc r Open i)) as [H|H]; [exact H|].
  exfalso.
  assert (iloc r Close i - iloc r Open i == 0)%Q as H0 by lra.
  rewrite H0 in Hb. change (Qabs 0) with 0%Q in Hb.
  unfold Qdiv in Hb. rewrite Qmult_0_l in Hb. revert Hb. apply Qle_not_lt. discriminate.
Qed.

Ltac bar_facts :=
  repeat match goal with
    | H : (_ && _) = true |- _ => apply andb_true_iff in H; destruct H
    end;
  repeat match goal with
    | H : String.eqb _ _ = true |- _ => apply String.eqb_eq in H
    | H : _is_bullish_candle _ _ = true |- _ =>
        unfold _is_bullish_candle, Qgtb in H; apply Qltb_lt in H
    | H : _is_bearish_candle _ _ = true |- _ =>
        unfold _is_bearish_candle in H; apply Qltb_lt in H
    end.

Ltac no_such_name :=
  repeat match goal with
    | H : In _ (_ :: _) |- _ => destruct H as [H|H]
    | H : In _ [] |- _ => destruct H
    | H : String _ _ = String _ _ |- _ => discriminate H
    end.

Ltac body_reads :=
  cbv zeta;
  repeat match goal with
    | |- context [if ?b then _ else _] =>
        let E := fresh "E" in destruct b eqn:E
    end;
  unfold _add_pattern; rewrite ?app_nil_l;
  (intros [<-|[]] || intros []);
  unfold reads_bar, against_trend, reversal_patterns, trend_patterns, star_patterns,
    rising_bar_patterns, falling_bar_patterns;
  cbn [pattern signal index app];
  bar_facts;
  repeat match goal with
    | |- _ /\ _ => split
    | |- _ -> _ => intro
    end;
  try reflexivity; try assumption;
  try (eapply marubozu_falls; eassumption);
  no_such_name.

Lemma detectors_read_bars (r : list Candle) :
  Forall (fun d => forall p, In p (fst d []) ->
                             exists i, (i < length r)%nat /\ reads_bar r i p)
         (detectors r).
Proof.
  unfold detectors.
  repeat (apply List.Forall_cons;
          [ intros p Hp; cbn [fst] in Hp;
            match type of Hp with In _ (?d r []) => unfold d in Hp end;
            apply in_scan in Hp; [|body_appends];
            destruct Hp as (i & Hlo & Hp); exists i; split; [lia|];
            revert Hp; body_reads |]).
  apply List.Forall_nil.
Qed.

Lemma all_hits_read_bars (r : list Candle) (p : Pattern) :
  In p (detect_all_patterns r) -> reads_bar r (Z.to_nat (index p)) p.
Proof.
  rewrite detect_all_patterns_concat. intros Hin.
  apply in_concat in Hin. destruct Hin as (hits & Hhits & Hp).
  apply in_map_iff in Hhits. destruct Hhits as (d & <- & Hd).
  pose proof (detectors_read_bars r) as H.
  rewrite List.Forall_forall in H.
  destruct (H d Hd p Hp) as (i & _ & Hr).
  destruct Hr as (Hidx & Hrest). rewrite Hidx, Nat2Z.id. split; [exact Hidx|exact Hrest].
Qed.

(** X25. A reversal signal is against the trend before the pattern: a
    hit of a pattern that goes by the trend (Doji, Dragonfly and
    Gravestone Doji, Hammer, Hanging Man, Shooting Star, Inverted
    Hammer, Engulfing, Harami, Piercing Line, Dark Cloud Cover, Tweezer)
    says Bullish Reversal only where _get_trend finds a downtrend at its
    bar, and Bearish Reversal only where it finds an uptrend; for the
    Morning and the Evening Star the same holds with the trend two bars
    earlier. *)
Theorem reversal_signals_oppose_trend (r : list Candle) :
  Forall (fun p =>
            (In (pattern p) reversal_patterns ->
             against_trend r (Z.to_nat (index p)) p) /\
            (In (pattern p) star_patterns ->
             against_trend r (Z.to_nat (index p) - 2) p))
         (detect_all_patterns r).
Proof.
  apply List.Forall_forall. intros p Hp.
  destruct (all_hits_read_bars r p Hp) as (_ & Hrev & Hstar & _).
  split; assumption.
Qed.

(** X26. The patterns that are named after a direction end on a bar of
    that direction: the bar of a Bullish Marubozu, Bullish Engulfing,
    Bullish Harami, Piercing Line, Morning Star, Three White Soldiers,
    Three Inside Up, Three Outside Up or Rising Three Methods hit closes
    above its open, and the bar of their bearish counterparts below it
    (also that of the Bearish Marubozu, for which the code only tests
    that the bar does not close above its open). *)
Theorem directed_patterns_end_on_their_colour (r : list Candle) :
  Forall (fun p =>
            let i := Z.to_nat (index p) in
            (In (pattern p) rising_bar_patterns -> (iloc r Open i < iloc r Close i)%Q) /\
            (In (pattern p) falling_bar_patterns -> (iloc r Close i < iloc r Open i)%Q))
         (detect_all_patterns r).
Proof.
  apply List.Forall_forall. intros p Hp.
  destruct (all_hits_read_bars r p Hp) as (_ & _ & _ & Hup & Hdown).
  split; assumption.
Qed.
